(** * Raster alignment, index derivation, fusion, tiling and clipping scripts

    A shallow embedding of the Python scripts of the repository
    (fusion.py, ndvi_savi_swir.py / "Sentinel-2 Indices.py",
    "Sentinel Subsetting.py", "clip sentinel tif.py", sent-1_croper.py and
    tif_cropper.py), and the properties their specification states.

    Conventions.
    - Pixel samples are IEEE binary64 numbers, as numpy's float64: they are
      Rocq's primitive floats, whose operations round as the hardware does.
    - Python integers are [Z] where the code does arithmetic on them (tile
      offsets and sizes), [nat] where they are sizes of containers.
    - A Python exception is a value [Raise e] of the [result] monad.
    - Dictionaries are stdpp's [gmap]; files on disk are a [gmap] from path
      to dataset.
    - A Python string is a [string] with one character per code point: the
      strings covered are those whose code points are below 256. In that
      range the decimal digits of the [re] module are '0' to '9'. *)

From Stdlib Require Import Floats ZArith QArith Qminmax Lia Ascii.
From stdpp Require Import base gmap strings list pretty.

(** ** Exceptions *)

(** The exception classes the scripts meet. [OSError] stands for the
    operating system's errors other than [FileNotFoundError] (a directory
    that cannot be written to, a file in the way), [RasterioError] for the
    errors of rasterio and its driver other than the I/O error of
    [rasterio.open]. *)
Inductive exn :=
| IndexError | KeyError | ValueError | TypeError | ZeroDivisionError
| FileNotFoundError | OSError | RasterioIOError | RasterioError.

Inductive result (A : Type) :=
| Ok (a : A)
| Raise (e : exn).
Arguments Ok {A} a.
Arguments Raise {A} e.

(** An operation of the operating system or of a library that either goes
    through or raises: [refusal] is the exception, if there is one. *)
Definition unless (refusal : option exn) : result unit :=
  match refusal with
  | Some e => Raise e
  | None => Ok ()
  end.

Global Instance result_ret : MRet result := @Ok.
Global Instance result_bind : MBind result :=
  λ A B k m, match m with Ok a => k a | Raise e => Raise e end.

(** ** numpy arrays of rank 2 *)

Module Numpy.

(** A C-contiguous float64 array of shape [(rows, cols)]. *)
Record ndarray := NdArray { rows : nat; cols : nat; flat : list float }.

Definition shape (a : ndarray) : nat * nat := (rows a, cols a).

Definition wf (a : ndarray) : Prop := length (flat a) = rows a * cols a.

(** [a[r, c]] for indices in range. *)
Definition item (a : ndarray) (r c : nat) : option float :=
  if decide (r < rows a ∧ c < cols a) then flat a !! (r * cols a + c) else None.

(** Shape of one axis after broadcasting two operands. *)
Definition broadcast_dim (m n : nat) : result nat :=
  if decide (m = n) then Ok m
  else if decide (m = 1) then Ok n
  else if decide (n = 1) then Ok m
  else Raise ValueError.

(** The operand's element that position [(r, c)] of the broadcast result
    reads: an axis of length 1 is repeated. *)
Definition bitem (a : ndarray) (r c : nat) : float :=
  default nan
    (flat a !! ((if decide (rows a = 1) then 0 else r) * cols a
                + (if decide (cols a = 1) then 0 else c))).

Definition tabulate (h w : nat) (g : nat → nat → float) : list float :=
  flat_map (λ r, map (g r) (seq 0 w)) (seq 0 h).

(** An elementwise binary ufunc ([a - b], [a + b], [a / b]). *)
Definition binop (op : float → float → float) (a b : ndarray) : result ndarray :=
  h ← broadcast_dim (rows a) (rows b);
  w ← broadcast_dim (cols a) (cols b);
  Ok (NdArray h w (tabulate h w (λ r c, op (bitem a r c) (bitem b r c)))).

(** An array combined with a Python or numpy scalar on the right. *)
Definition scalar_op (op : float → float → float) (a : ndarray) (s : float) : ndarray :=
  NdArray (rows a) (cols a) (map (λ x, op x s) (flat a)).

(** The inner loops of [np.minimum] and [np.maximum]: a NaN on either side
    wins. *)
Definition minimum (x y : float) : float :=
  if (x <=? y)%float || is_nan x then x else y.
Definition maximum (x y : float) : float :=
  if (y <=? x)%float || is_nan x then x else y.

(** [np.min(a)] and [np.max(a)] over the whole array; a zero-size array has
    no minimum. *)
Definition np_min (a : ndarray) : result float :=
  match flat a with
  | [] => Raise ValueError
  | x :: xs => Ok (foldl minimum x xs)
  end.
Definition np_max (a : ndarray) : result float :=
  match flat a with
  | [] => Raise ValueError
  | x :: xs => Ok (foldl maximum x xs)
  end.

Lemma tabulate_length h w (g : nat → nat → float) : length (tabulate h w g) = h * w.
Proof.
  unfold tabulate. generalize 0 at 2. induction h as [|h IH]; intros s; simpl.
  - reflexivity.
  - rewrite length_app, length_map, length_seq, IH. reflexivity.
Qed.

Lemma tabulate_lookup_from h w (g : nat → nat → float) s r c :
  r < h → c < w →
  flat_map (λ r, map (g r) (seq 0 w)) (seq s h) !! (r * w + c) = Some (g (s + r) c).
Proof.
  revert s r. induction h as [|h IH]; intros s r Hr Hc; [lia|].
  simpl. destruct r as [|r].
  - rewrite lookup_app_l by (rewrite length_map, length_seq; lia).
    rewrite list_lookup_fmap, lookup_seq_lt by lia. simpl.
    by replace (s + 0) with s by lia.
  - rewrite lookup_app_r by (rewrite length_map, length_seq; lia).
    rewrite length_map, length_seq.
    replace (S r * w + c - w) with (r * w + c) by lia.
    rewrite IH by lia. f_equal. f_equal. lia.
Qed.

Lemma tabulate_lookup h w (g : nat → nat → float) r c :
  r < h → c < w → tabulate h w g !! (r * w + c) = Some (g r c).
Proof. intros. unfold tabulate. by rewrite tabulate_lookup_from. Qed.

Lemma broadcast_dim_same n : broadcast_dim n n = Ok n.
Proof. unfold broadcast_dim. by rewrite decide_True. Qed.

Lemma bitem_item a r c x : item a r c = Some x → bitem a r c = x.
Proof.
  unfold item, bitem. case_decide as Hin; [|done]. destruct Hin as [Hr Hc].
  intros Hx.
  assert ((if decide (rows a = 1) then 0 else r) = r) as -> by (case_decide; lia).
  assert ((if decide (cols a = 1) then 0 else c) = c) as -> by (case_decide; lia).
  by rewrite Hx.
Qed.

Lemma item_is_Some a r c :
  wf a → r < rows a → c < cols a → is_Some (item a r c).
Proof.
  intros Hwf Hr Hc. unfold item. rewrite decide_True by done.
  apply lookup_lt_is_Some. rewrite Hwf. nia.
Qed.

(** On operands of one shape a binary ufunc works position by position. *)
Lemma binop_same_shape op a b :
  shape a = shape b → wf a → wf b →
  ∃ res, binop op a b = Ok res ∧ shape res = shape a ∧ wf res ∧
    ∀ r c, r < rows a → c < cols a →
      ∃ x y, item a r c = Some x ∧ item b r c = Some y ∧
             item res r c = Some (op x y).
Proof.
  intros Hsh Ha Hb. unfold shape in Hsh. injection Hsh as Hr Hc.
  eexists. split.
  { unfold binop. rewrite <- Hr, <- Hc, !broadcast_dim_same. reflexivity. }
  split; [done|]. split.
  { unfold wf. simpl. apply tabulate_length. }
  intros r c Hlr Hlc.
  destruct (item_is_Some a r c) as [x Hx]; [done..|].
  destruct (item_is_Some b r c) as [y Hy]; [done|lia|lia|].
  exists x, y. split; [done|]. split; [done|].
  unfold item at 1. simpl. rewrite decide_True by done.
  rewrite tabulate_lookup by done.
  by rewrite (bitem_item _ _ _ _ Hx), (bitem_item _ _ _ _ Hy).
Qed.

End Numpy.

(** ** Raster files as rasterio presents them *)

Module Rasterio.
Import Numpy.

(** The six coefficients of the affine geotransform. *)
Record Affine := MkAffine { af_a : float; af_b : float; af_c : float;
                            af_d : float; af_e : float; af_f : float }.

(** [src.meta]: the keys rasterio reports for every dataset. [src.profile]
    is the same mapping with the driver's creation options added (block
    sizes, compression, interleaving); the scripts only ever read and change
    the keys below. Whether a driver takes the creation options together
    with the other keywords is not decided from this record: see [close]. *)
Record Meta := MkMeta {
  driver : string; dtype : string; nodata : option float;
  width : nat; height : nat; count : nat;
  crs : string; transform : Affine }.

Definition update_count (m : Meta) (n : nat) : Meta :=
  MkMeta (driver m) (dtype m) (nodata m) (width m) (height m) n (crs m) (transform m).

Definition update_dtype (m : Meta) (t : string) : Meta :=
  MkMeta (driver m) t (nodata m) (width m) (height m) (count m) (crs m) (transform m).

(** A dataset opened for reading: band [i] (counted from 1) is
    [ds_bands !! (i - 1)]. *)
Record Dataset := MkDataset { ds_meta : Meta; ds_bands : list ndarray }.

(** The files on disk. *)
Abbreviation FS := (gmap string Dataset).

(** [rasterio.open(path)] *)
Definition open (fs : FS) (path : string) : result Dataset :=
  match fs !! path with
  | Some d => Ok d
  | None => Raise RasterioIOError
  end.

(** [src.read(i)]: one band as a rank-2 array. *)
Definition read (src : Dataset) (i : nat) : result ndarray :=
  match i with
  | 0 => Raise IndexError
  | S k => match ds_bands src !! k with
           | Some a => Ok a
           | None => Raise IndexError
           end
  end.

(** A dataset opened with mode 'w', as the script drives it: the creation
    keywords and, per band, the array handed to [dst.write] (nothing yet for
    a band never written). This is the session, not the file: what the
    file holds once the dataset is closed, and whether rasterio makes the
    file at all, is [close]'s below. *)
Record Writer := MkWriter { w_meta : Meta; w_bands : list (option ndarray) }.

Definition open_w (m : Meta) : Writer := MkWriter m (replicate (count m) None).

(** [dst.write(arr, idx)] in the session: the band index is checked against
    the band count and the array is taken. *)
Definition write (dst : Writer) (arr : ndarray) (idx : nat) : result Writer :=
  if decide (1 ≤ idx ≤ length (w_bands dst))
  then Ok (MkWriter (w_meta dst) (<[idx - 1 := Some arr]> (w_bands dst)))
  else Raise IndexError.

(** *** What the file holds *)

Section Driver.

(** numpy's and GDAL's part. [cast t x] is the sample [x] converted to the
    data type named [t], as [arr.astype(t)] converts it; [raster_io h w buf]
    are the samples RasterIO leaves in a window of [h] rows and [w] columns
    when it is handed a buffer of another shape. *)
Variable cast : string → float → float.
Variable raster_io : nat → nat → ndarray → list float.

(** The band a dataset of keywords [m] holds after [dst.write(arr, idx)]:
    rasterio converts the array to the data type of the dataset and passes
    it to RasterIO with the whole raster as the window. A buffer of the
    raster's shape is copied sample by sample; a buffer of any other shape
    is resampled into the raster's grid. *)
Definition store (m : Meta) (arr : ndarray) : ndarray :=
  let buf := NdArray (rows arr) (cols arr) (map (cast (dtype m)) (flat arr)) in
  if decide (shape buf = (height m, width m)) then buf
  else NdArray (height m) (width m) (raster_io (height m) (width m) buf).

(** The bands of the file when the [with] block of the writer is left; a
    band never written is [None]. [refused] is the exception, if any, with
    which rasterio or the driver refuses to create or to fill the file (an
    output path that cannot be created, creation options of a profile and
    a data type that do not go together): it leaves the script as its own
    exception. *)
Definition close (refused : option exn) (dst : Writer)
  : result (list (option ndarray)) :=
  match refused with
  | Some e => Raise e
  | None => Ok ((λ band : option ndarray, store (w_meta dst) <$> band) <$> w_bands dst)
  end.

(** A layer of the raster's shape whose samples are of the data type of the
    dataset is stored as it is. *)
Lemma store_same m arr :
  shape arr = (height m, width m) →
  map (cast (dtype m)) (flat arr) = flat arr →
  store m arr = arr.
Proof.
  intros Hshape Hcast. unfold store. rewrite Hcast. destruct arr as [r c f].
  simpl in *. by rewrite decide_True.
Qed.

(** Whatever is written, the band has the raster's shape. *)
Lemma store_shape m arr : shape (store m arr) = (height m, width m).
Proof. unfold store. by case_decide. Qed.

End Driver.

End Rasterio.

(** ** fusion.py *)

Module Fusion.
Import Numpy Rasterio.

(** First loop of [stack_rasters]: the layers read so far and the metadata,
    taken from the first file opened, with [count] set to the number of
    input files [n]. *)
Fixpoint read_layers (fs : FS) (n : nat) (input_files : list string)
    (layers : list ndarray) (meta : option Meta)
  : result (list ndarray * option Meta) :=
  match input_files with
  | [] => Ok (layers, meta)
  | file :: rest =>
      src ← open fs file;
      let meta := match meta with
                  | None => Some (update_count (ds_meta src) n)
                  | Some m => Some m
                  end in
      layer ← read src 1;
      read_layers fs n rest (layers ++ [layer]) meta
  end.

(** Second loop: [for idx, layer in enumerate(layers, start=1)]. *)
Fixpoint write_layers (dst : Writer) (idx : nat) (layers : list ndarray)
  : result Writer :=
  match layers with
  | [] => Ok dst
  | layer :: rest => dst ← write dst layer idx; write_layers dst (S idx) rest
  end.

(** [stack_rasters(input_files, output_file)]; the result is the session
    with the writer of [output_file], whose [close] is the file. With no
    input file [meta] is still [None] when the output is opened, and
    [**meta] is a [TypeError]. *)
Definition stack_rasters (fs : FS) (input_files : list string) : result Writer :=
  '(layers, meta) ← read_layers fs (length input_files) input_files [] None;
  match meta with
  | None => Raise TypeError
  | Some meta => write_layers (open_w meta) 1 layers
  end.

(** [normalize_raster(input_file, output_file)]; the result is the session
    with the writer of [output_file], whose [close] is the file. *)
Definition normalize_raster (fs : FS) (input_file : string) : result Writer :=
  src ← open fs input_file;
  data ← read src 1;
  data_min ← np_min data;
  data_max ← np_max data;
  let normalized_data :=
    scalar_op PrimFloat.div (scalar_op PrimFloat.sub data data_min)
              (data_max - data_min)%float in
  let profile := update_dtype (ds_meta src) "float32" in
  write (open_w profile) normalized_data 1.

(** What the specification describes instead of [normalize_raster]: one
    minimum and one maximum over the samples of all bands together, and
    every band rescaled with them. *)
Definition spec_normalize_global (src : Dataset) : result (list ndarray) :=
  let samples := flat_map flat (ds_bands src) in
  let all := NdArray 1 (length samples) samples in
  lo ← np_min all;
  hi ← np_max all;
  Ok (map (λ band, scalar_op PrimFloat.div (scalar_op PrimFloat.sub band lo)
                             (hi - lo)%float) (ds_bands src)).

(** *** The two loops of [stack_rasters] in closed form *)

(** Band 1 of the file at [path], when the file exists and has a band. *)
Definition first_band (fs : FS) (path : string) : option ndarray :=
  d ← fs !! path; ds_bands d !! 0.

Lemma read_layers_ok fs n input_files layers meta bs :
  Forall2 (λ file b, first_band fs file = Some b) input_files bs →
  read_layers fs n input_files layers meta =
    Ok (layers ++ bs,
        match meta with
        | Some m => Some m
        | None => (λ d, update_count (ds_meta d) n) <$> (head input_files ≫= (fs !!.))
        end).
Proof.
  intros Hall. revert layers meta.
  induction Hall as [|file b files bs Hb _ IH]; intros layers meta; simpl.
  - rewrite app_nil_r. by destruct meta.
  - unfold first_band in Hb. unfold open.
    destruct (fs !! file) as [d|] eqn:Hd; [|done]. simpl in Hb.
    simpl. unfold read. rewrite Hb. simpl.
    rewrite IH, <- app_assoc. simpl. by destruct meta.
Qed.

Lemma write_layers_ok meta (done_ : list (option ndarray)) layers :
  write_layers (MkWriter meta (done_ ++ replicate (length layers) None))
               (S (length done_)) layers
  = Ok (MkWriter meta (done_ ++ (Some <$> layers))).
Proof.
  revert done_. induction layers as [|layer rest IH]; intros done_; simpl.
  - reflexivity.
  - unfold write. simpl. rewrite decide_True.
    2:{ rewrite length_app. simpl. lia. }
    simpl. replace (length done_ - 0) with (length done_ + 0) by lia.
    rewrite insert_app_r. simpl.
    specialize (IH (done_ ++ [Some layer])).
    rewrite length_app, <- app_assoc in IH. simpl in IH.
    replace (length done_ + 1) with (S (length done_)) in IH by lia.
    rewrite IH, <- app_assoc. reflexivity.
Qed.

Lemma stack_rasters_ok fs input_files bs first :
  Forall2 (λ file b, first_band fs file = Some b) input_files bs →
  head input_files ≫= (fs !!.) = Some first →
  stack_rasters fs input_files =
    Ok (MkWriter (update_count (ds_meta first) (length input_files)) (Some <$> bs)).
Proof.
  intros Hall Hfirst. unfold stack_rasters.
  rewrite (read_layers_ok _ _ _ _ _ _ Hall), Hfirst. simpl.
  unfold open_w. simpl. rewrite (Forall2_length _ _ _ Hall).
  apply (write_layers_ok _ []).
Qed.

Lemma first_bands_exist fs input_files :
  Forall (λ file, is_Some (first_band fs file)) input_files →
  ∃ bs, Forall2 (λ file b, first_band fs file = Some b) input_files bs.
Proof.
  induction 1 as [|file files [b Hb] _ [bs IH]].
  - exists []. constructor.
  - exists (b :: bs). by constructor.
Qed.

(** *** Sample files *)

Definition north_up : Affine := MkAffine 10 0 500000 0 (-10) 4000000.

Definition gtiff (w h n : nat) : Meta :=
  MkMeta "GTiff" "float32" None w h n "EPSG:4326" north_up.

(** Two single-band index rasters of 1 x 2 pixels, a texture raster with
    two bands, and a single-band raster of another shape. *)
Definition ndvi_tif : Dataset := MkDataset (gtiff 2 1 1) [NdArray 1 2 [0; 2]]%float.
Definition savi_tif : Dataset := MkDataset (gtiff 2 1 1) [NdArray 1 2 [4; 8]]%float.
Definition glcm_tif : Dataset :=
  MkDataset (gtiff 2 1 2) [NdArray 1 2 [1; 3]; NdArray 1 2 [7; 9]]%float.
Definition wide_tif : Dataset :=
  MkDataset (gtiff 2 2 1) [NdArray 2 2 [1; 2; 3; 4]]%float.
(** The stack of [ndvi_tif] and [savi_tif], and a raster of equal samples. *)
Definition fused_stack_tif : Dataset :=
  MkDataset (gtiff 2 1 2) [NdArray 1 2 [0; 2]; NdArray 1 2 [4; 8]]%float.
Definition flat_tif : Dataset := MkDataset (gtiff 2 1 1) [NdArray 1 2 [5; 5]]%float.

Definition disk : FS :=
  <["ndvi.tif" := ndvi_tif]> (<["savi.tif" := savi_tif]> (<["glcm.tif" := glcm_tif]>
  (<["wide.tif" := wide_tif]> (<["fused_stack.tif" := fused_stack_tif]>
  (<["flat.tif" := flat_tif]> ∅))))).

(** The conversion of a binary64 number to binary32, rounding to nearest
    with ties to even, and the cast to the two floating-point data types. *)
Definition float32 (x : float) : float :=
  match Prim2SF x with
  | S754_finite s m e => SF2Prim (binary_normalize 24 128 (cond_Zopp s (Zpos m)) e s)
  | _ => x
  end.

Definition float_cast (t : string) (x : float) : float :=
  if decide (t = "float32") then float32 x else x.

(** Resampling by nearest neighbour: position [(r, c)] of a window of [h]
    rows and [w] columns takes the buffer's sample at row [r * rows / h] and
    column [c * cols / w]. *)
Definition nearest (h w : nat) (buf : ndarray) : list float :=
  tabulate h w (λ r c,
    default nan (flat buf !! ((r * rows buf / h) * cols buf + c * cols buf / w))).

Example float32_rounds :
  float32 0x1.999999999999ap-4 = 0x1.99999ap-4%float ∧ float32 2 = 2%float.
Proof. split; reflexivity. Qed.

(** *** Stacking *)

(** Closing the session of a stack: band [k] of the file is the stored
    form of layer [k]. *)
Lemma close_stack cast raster_io meta layers :
  close cast raster_io None (MkWriter meta (Some <$> layers))
  = Ok ((λ layer, Some (store cast raster_io meta layer)) <$> layers).
Proof. unfold close. simpl. by rewrite <- list_fmap_compose. Qed.

(** C10, as the code has it. For a list of input files that exist and have
    a band (a first one included), [stack_rasters] reads band 1 of each
    input and nothing else: the session has one band per input file, band
    [k] being handed band 1 of input [k], and any other disk that agrees on
    the first file's metadata and on every input's band 1 gives the same
    session, whatever further bands the inputs carry. In the file, band [k]
    has the grid of the first input; it is band 1 of input [k] when that
    band has the first input's shape and its samples are of the first
    input's data type, unchanged by the cast. *)
Theorem stack_rasters_first_band_only cast raster_io fs input_files first :
  head input_files ≫= (fs !!.) = Some first →
  Forall (λ file, is_Some (first_band fs file)) input_files →
  ∃ out, stack_rasters fs input_files = Ok out
    ∧ count (w_meta out) = length input_files
    ∧ length (w_bands out) = length input_files
    ∧ (∀ k file, input_files !! k = Some file →
         w_bands out !! k = Some (first_band fs file))
    ∧ (∀ fs',
         ds_meta <$> (head input_files ≫= (fs' !!.))
           = ds_meta <$> (head input_files ≫= (fs !!.)) →
         Forall (λ file, first_band fs' file = first_band fs file) input_files →
         stack_rasters fs' input_files = Ok out)
    ∧ ∃ bands, close cast raster_io None out = Ok bands
        ∧ length bands = length input_files
        ∧ ∀ k file layer,
            input_files !! k = Some file → first_band fs file = Some layer →
            ∃ band, bands !! k = Some (Some band)
              ∧ shape band = (height (ds_meta first), width (ds_meta first))
              ∧ (shape layer = (height (ds_meta first), width (ds_meta first)) →
                 map (cast (dtype (ds_meta first))) (flat layer) = flat layer →
                 band = layer).
Proof.
  intros Hfirst Hall.
  destruct (first_bands_exist _ _ Hall) as [bs Hbs].
  eexists. split; [by apply (stack_rasters_ok _ _ bs first)|].
  simpl. split; [done|]. split.
  { by rewrite length_fmap, <- (Forall2_length _ _ _ Hbs). }
  split.
  { intros k file Hk.
    destruct (Forall2_lookup_l _ _ _ _ _ Hbs Hk) as (b & Hb & Hfb).
    by rewrite list_lookup_fmap, Hb, Hfb. }
  split.
  { intros fs' Hmeta Hsame.
    assert (Forall2 (λ file b, first_band fs' file = Some b) input_files bs) as Hbs'.
    { clear -Hbs Hsame. induction Hbs as [|f b fl bl Hb _ IH]; [constructor|].
      apply Forall_cons in Hsame as [Hf Hfl]. constructor; [congruence|by apply IH]. }
    rewrite Hfirst in Hmeta.
    destruct (head input_files ≫= (fs' !!.)) as [first'|] eqn:Hfirst'; [|done].
    rewrite (stack_rasters_ok _ _ bs first' Hbs' Hfirst').
    simpl in Hmeta. by injection Hmeta as ->. }
  eexists. split; [apply close_stack|]. split.
  { by rewrite length_fmap, <- (Forall2_length _ _ _ Hbs). }
  intros k file layer Hk Hlayer.
  destruct (Forall2_lookup_l _ _ _ _ _ Hbs Hk) as (b & Hb & Hfb).
  assert (b = layer) as -> by congruence.
  eexists. split; [by rewrite list_lookup_fmap, Hb|]. split.
  - by rewrite store_shape.
  - intros Hshape Hcast. by apply store_same.
Qed.

Lemma stack_rasters_first_band_only_witness :
  ∃ out bands, stack_rasters disk ["ndvi.tif"; "glcm.tif"] = Ok out
    ∧ count (w_meta out) = 2
    ∧ close float_cast nearest None out = Ok bands
    ∧ bands !! 1 = Some (Some (NdArray 1 2 [1; 3]%float)).
Proof.
  destruct (stack_rasters_first_band_only float_cast nearest disk
              ["ndvi.tif"; "glcm.tif"] ndvi_tif)
    as (out & Hout & Hcount & _ & _ & _ & bands & Hclose & _ & Hband).
  - reflexivity.
  - repeat constructor; vm_compute; eauto.
  - exists out, bands. split; [done|]. split; [done|]. split; [done|].
    destruct (Hband 1 "glcm.tif" (NdArray 1 2 [1; 3]%float) eq_refl eq_refl)
      as (band & Hk & _ & Hsame).
    rewrite Hk. by rewrite (Hsame eq_refl eq_refl).
Defined.

(** C10 as the claim words it, for every list of input files, fails twice:
    a band 1 of another shape than the first input's is not the band of the
    file (the 2 x 2 layer of wide.tif is in the file as 1 x 2 samples), and
    for no input file at all there is no output raster but a [TypeError]. *)
Lemma stack_rasters_band_resampled :
  first_band disk "wide.tif" = Some (NdArray 2 2 [1; 2; 3; 4]%float)
  ∧ stack_rasters disk ["ndvi.tif"; "wide.tif"] ≫= close float_cast nearest None
    = Ok [Some (NdArray 1 2 [0; 2]%float); Some (NdArray 1 2 [1; 2]%float)]
  ∧ stack_rasters disk [] = Raise TypeError.
Proof. split; [reflexivity|]. split; reflexivity. Qed.

(** C4, as the code has it. For a sequence of single-band rasters that all
    have the shape and the data type of the first, [stack_rasters] leaves a
    file of one band per input, band [k] being input [k]'s data, in input
    order, under the first input's metadata with [count] set to the number
    of inputs. *)
Theorem stack_rasters_single_band_inputs cast raster_io fs input_files layers first :
  head input_files ≫= (fs !!.) = Some first →
  Forall2 (λ file layer,
             ds_bands <$> fs !! file = Some [layer]
             ∧ shape layer = (height (ds_meta first), width (ds_meta first))
             ∧ map (cast (dtype (ds_meta first))) (flat layer) = flat layer)
          input_files layers →
  let meta := update_count (ds_meta first) (length input_files) in
  stack_rasters fs input_files = Ok (MkWriter meta (Some <$> layers))
  ∧ close cast raster_io None (MkWriter meta (Some <$> layers)) = Ok (Some <$> layers).
Proof.
  intros Hfirst Hall meta. split.
  - apply stack_rasters_ok; [|done].
    eapply Forall2_impl; [exact Hall|]. intros file layer (Hd & _). simpl in Hd.
    unfold first_band. destruct (fs !! file) as [d|]; [|done].
    simpl in *. injection Hd as Hd. by rewrite Hd.
  - rewrite close_stack. f_equal.
    assert (∀ layer,
              shape layer = (height (ds_meta first), width (ds_meta first)) →
              map (cast (dtype (ds_meta first))) (flat layer) = flat layer →
              store cast raster_io meta layer = layer) as Hstore
      by (intros; by apply store_same).
    clearbody meta. clear Hfirst.
    induction Hall as [|file layer files layers (_ & Hshape & Hcast) _ IH]; [done|].
    by rewrite !fmap_cons, IH, Hstore.
Qed.

Lemma stack_rasters_single_band_inputs_witness :
  stack_rasters disk ["ndvi.tif"; "savi.tif"] =
    Ok (MkWriter (gtiff 2 1 2)
                 [Some (NdArray 1 2 [0; 2]%float); Some (NdArray 1 2 [4; 8]%float)])
  ∧ close float_cast nearest None
      (MkWriter (gtiff 2 1 2)
                [Some (NdArray 1 2 [0; 2]%float); Some (NdArray 1 2 [4; 8]%float)])
    = Ok [Some (NdArray 1 2 [0; 2]%float); Some (NdArray 1 2 [4; 8]%float)].
Proof.
  apply (stack_rasters_single_band_inputs float_cast nearest disk
           ["ndvi.tif"; "savi.tif"]
           [NdArray 1 2 [0; 2]%float; NdArray 1 2 [4; 8]%float] ndvi_tif).
  - reflexivity.
  - repeat constructor.
Defined.

(** C4, second half as the specification words it (a mismatch of shapes is
    a fatal error, never silently re-aligned) fails: a 1 x 2 layer and a
    2 x 2 layer are stacked without any exception, and the second is in the
    file resampled into the grid of the first. *)
Lemma stack_rasters_shape_mismatch_not_fatal :
  (shape <$> first_band disk "ndvi.tif") ≠ (shape <$> first_band disk "wide.tif")
  ∧ stack_rasters disk ["ndvi.tif"; "wide.tif"] =
      Ok (MkWriter (gtiff 2 1 2)
                   [Some (NdArray 1 2 [0; 2]%float);
                    Some (NdArray 2 2 [1; 2; 3; 4]%float)])
  ∧ close float_cast nearest None
      (MkWriter (gtiff 2 1 2)
                [Some (NdArray 1 2 [0; 2]%float);
                 Some (NdArray 2 2 [1; 2; 3; 4]%float)])
    = Ok [Some (NdArray 1 2 [0; 2]%float); Some (NdArray 1 2 [1; 2]%float)].
Proof. split; [by vm_compute|]. split; reflexivity. Qed.

(** The data type matters in the same way: under a float32 first input a
    layer with a sample that is no binary32 number is in the file rounded
    to binary32. *)
Example close_casts_to_dtype :
  close float_cast nearest None
    (MkWriter (gtiff 2 1 1) [Some (NdArray 1 2 [0x1.999999999999ap-4; 2]%float)])
  = Ok [Some (NdArray 1 2 [0x1.99999ap-4; 2]%float)].
Proof. reflexivity. Qed.

(** *** Normalisation *)

(** What [normalize_raster] does to any file that has a non-empty band 1:
    the extrema are those of band 1, the rescaled band 1 is the only band
    written, and the output keeps the band count of the input. *)
Lemma normalize_raster_ok fs input_file src data :
  fs !! input_file = Some src →
  ds_bands src !! 0 = Some data →
  flat data ≠ [] →
  0 < count (ds_meta src) →
  ∃ lo hi, np_min data = Ok lo ∧ np_max data = Ok hi ∧
    normalize_raster fs input_file =
      Ok (MkWriter (update_dtype (ds_meta src) "float32")
            (Some (scalar_op PrimFloat.div (scalar_op PrimFloat.sub data lo)
                             (hi - lo)%float)
             :: replicate (count (ds_meta src) - 1) None)).
Proof.
  intros Hsrc Hdata Hne Hcount.
  unfold normalize_raster, open, read, np_min, np_max. rewrite Hsrc. simpl.
  rewrite Hdata. simpl. destruct (flat data) as [|x xs] eqn:Hflat; [done|].
  do 2 eexists. do 2 (split; [reflexivity|]). simpl.
  unfold write, open_w. simpl. rewrite length_replicate.
  rewrite decide_True by lia. simpl.
  destruct (count (ds_meta src)) as [|n]; [lia|]. simpl.
  by replace (n - 0) with n by lia.
Qed.

(** C1 at a stacked raster of two bands, [0 2] and [4 8]. The code rescales
    band 1 with the extrema of band 1 and leaves band 2 of the output
    unwritten; the normalisation of the specification, with the extrema 0
    and 8 of the whole stack, gives other samples in both bands. *)
Theorem normalize_raster_two_bands :
  normalize_raster disk "fused_stack.tif" =
    Ok (MkWriter (update_dtype (gtiff 2 1 2) "float32")
                 [Some (NdArray 1 2 [0; 1]%float); None])
  ∧ spec_normalize_global fused_stack_tif =
      Ok [NdArray 1 2 [0; 0.25]%float; NdArray 1 2 [0.5; 1]%float].
Proof. split; reflexivity. Qed.

(** In binary64 arithmetic [(c - c) / (c - c)] is not a number, whatever
    [c] is: [c - c] is a zero, or NaN when [c] is infinite or NaN. *)
Lemma sub_self_div_nan (c : float) : ((c - c) / (c - c))%float = nan.
Proof.
  apply Prim2SF_inj. rewrite div_spec, sub_spec.
  destruct (Prim2SF c) as [s|s| |s m e]; simpl.
  - by destruct s.
  - by destruct s.
  - done.
  - unfold SF64sub, SFsub. rewrite Z.sub_diag. reflexivity.
Qed.

Lemma foldl_minimum_replicate c n : foldl minimum c (replicate n c) = c.
Proof.
  induction n as [|n IH]; simpl; [done|].
  unfold minimum at 2. by destruct ((c <=? c)%float || is_nan c).
Qed.

Lemma foldl_maximum_replicate c n : foldl maximum c (replicate n c) = c.
Proof.
  induction n as [|n IH]; simpl; [done|].
  unfold maximum at 2. by destruct ((c <=? c)%float || is_nan c).
Qed.

(** Every raster whose band 1 holds one value only: [normalize_raster]
    raises nothing and writes a band of NaN. *)
Lemma normalize_raster_constant_nan fs input_file src h w n c others :
  fs !! input_file = Some src →
  ds_bands src = NdArray h w (replicate (S n) c) :: others →
  0 < count (ds_meta src) →
  normalize_raster fs input_file =
    Ok (MkWriter (update_dtype (ds_meta src) "float32")
          (Some (NdArray h w (replicate (S n) nan))
           :: replicate (count (ds_meta src) - 1) None)).
Proof.
  intros Hsrc Hbands Hcount.
  destruct (normalize_raster_ok fs input_file src (NdArray h w (replicate (S n) c)))
    as (lo & hi & Hlo & Hhi & ->); [done|by rewrite Hbands|done|done|].
  unfold np_min, np_max in Hlo, Hhi. simpl in Hlo, Hhi.
  rewrite foldl_minimum_replicate in Hlo. rewrite foldl_maximum_replicate in Hhi.
  injection Hlo as <-. injection Hhi as <-.
  do 3 f_equal. unfold scalar_op. simpl.
  change (map (λ x : float, (x / (c - c))%float)
              (map (λ x : float, (x - c)%float) (replicate n c)))
    with ((λ x : float, (x / (c - c))%float) <$>
            ((λ x : float, (x - c)%float) <$> replicate n c)).
  by rewrite !fmap_replicate, sub_self_div_nan.
Qed.

(** C5 at a raster of equal samples [5 5]: no exception, and no guard
    either; both samples of the output are 0 / 0, not a number. *)
Theorem normalize_raster_constant :
  normalize_raster disk "flat.tif" =
    Ok (MkWriter (update_dtype (gtiff 2 1 1) "float32")
                 [Some (NdArray 1 2 [nan; nan]%float)]).
Proof. reflexivity. Qed.

End Fusion.

(** ** ndvi_savi_swir.py: class Sentinel2Processor *)

Module Indices.
Import Numpy Rasterio.

(** The attributes of a processor; [self.meta] does not exist until
    [load_bands] has met band B04. *)
Record Sentinel2Processor := MkProcessor {
  bands : gmap string ndarray;
  indices : gmap string ndarray;
  meta : option Meta }.

Definition set_band (self : Sentinel2Processor) (k : string) (a : ndarray) :=
  MkProcessor (<[k := a]> (bands self)) (indices self) (meta self).
Definition set_index (self : Sentinel2Processor) (k : string) (a : ndarray) :=
  MkProcessor (bands self) (<[k := a]> (indices self)) (meta self).
Definition set_meta (self : Sentinel2Processor) (m : Meta) :=
  MkProcessor (bands self) (indices self) (Some m).

(** [Sentinel2Processor(safe_path)] *)
Definition init : Sentinel2Processor := MkProcessor ∅ ∅ None.

(** A .SAFE directory: the granule directories matching 'GRANULE/L2A_*',
    each holding, per resolution folder and band name, the first file that
    matches '<resolution>/*_<band>_*.jp2'. *)
Record SafeProduct := MkSafe { granules : list (gmap (string * string) Dataset) }.

Definition resolution_map : gmap string string :=
  <["B02" := "R10m"]> (<["B03" := "R10m"]> (<["B04" := "R10m"]>
  (<["B08" := "R10m"]> (<["B11" := "R20m"]> (<["B12" := "R20m"]> ∅))))).

(** [find_band_path] followed by [rasterio.open] of the path found. Without
    a granule directory [list(...)[0]] is an [IndexError] (the copy of the
    class in "Sentinel-2 Indices.py" turns it into a [FileNotFoundError]). *)
Definition find_band_path (safe : SafeProduct) (band_name : string) : result Dataset :=
  match granules safe with
  | [] => Raise IndexError
  | granule_dir :: _ =>
      match resolution_map !! band_name with
      | None => Raise KeyError
      | Some resolution =>
          match granule_dir !! (resolution, band_name) with
          | None => Raise FileNotFoundError
          | Some src => Ok src
          end
      end
  end.

Definition required_bands : list string := ["B02"; "B03"; "B04"; "B08"; "B11"; "B12"].

(** 1e-6 as Python reads it: the binary64 number nearest to it. *)
Definition eps : float := 0x1.0c6f7a0b5ed8dp-20%float.

Section Harmonizer.

(** The samples GDAL computes for [src.read(1, out_shape=(h, w),
    resampling=Resampling.bilinear)] from the stored band. *)
Variable bilinear : ndarray → nat → nat → list float.

Definition read_resampled (src : Dataset) (i : nat) (out_shape : nat * nat)
  : result ndarray :=
  a ← read src i;
  Ok (NdArray out_shape.1 out_shape.2 (bilinear a out_shape.1 out_shape.2)).

(** The body of the loop of [load_bands]. *)
Definition load_band (safe : SafeProduct) (self : Sentinel2Processor)
    (band_name : string) : result Sentinel2Processor :=
  src ← find_band_path safe band_name;
  data ← read src 1;
  data ← (if decide (band_name ∈ ["B11"; "B12"])
          then let target_shape := (height (ds_meta src) * 2, width (ds_meta src) * 2) in
               read_resampled src 1 target_shape
          else Ok data);
  let self := set_band self band_name data in
  Ok (if decide (band_name = "B04") then set_meta self (ds_meta src) else self).

Fixpoint load_loop (safe : SafeProduct) (self : Sentinel2Processor)
    (names : list string) : result Sentinel2Processor :=
  match names with
  | [] => Ok self
  | band_name :: rest => self ← load_band safe self band_name; load_loop safe self rest
  end.

Definition load_bands (safe : SafeProduct) (self : Sentinel2Processor)
  : result Sentinel2Processor :=
  load_loop safe self required_bands.

End Harmonizer.

(** [self.bands[k]] *)
Definition band (self : Sentinel2Processor) (k : string) : result ndarray :=
  match bands self !! k with
  | Some a => Ok a
  | None => Raise KeyError
  end.

Definition calculate_ndvi (self : Sentinel2Processor) : result Sentinel2Processor :=
  red ← band self "B04";
  nir ← band self "B08";
  num ← binop PrimFloat.sub nir red;
  sum ← binop PrimFloat.add nir red;
  ndvi ← binop PrimFloat.div num (scalar_op PrimFloat.add sum eps);
  Ok (set_index self "NDVI" ndvi).

(** [np.nanmin] and [np.nanmax]: the extremum of the samples that are
    numbers, NaN when there is none. *)
Definition np_nanmin (a : ndarray) : result float :=
  match flat a with
  | [] => Raise ValueError
  | _ => match filter (λ x, is_nan x = false) (flat a) with
         | [] => Ok nan
         | x :: xs => Ok (foldl minimum x xs)
         end
  end.
Definition np_nanmax (a : ndarray) : result float :=
  match flat a with
  | [] => Raise ValueError
  | _ => match filter (λ x, is_nan x = false) (flat a) with
         | [] => Ok nan
         | x :: xs => Ok (foldl maximum x xs)
         end
  end.

(** The min-max normalisation of "Sentinel-2 Indices.py", which adds 1e-6
    to the span. *)
Definition calculate_nir (self : Sentinel2Processor) : result Sentinel2Processor :=
  nir ← band self "B08";
  nir_min ← np_nanmin nir;
  nir_max ← np_nanmax nir;
  Ok (set_index self "NIR"
        (scalar_op PrimFloat.div (scalar_op PrimFloat.sub nir nir_min)
                   (nir_max - nir_min + eps)%float)).

(** *** Index derivation *)

Lemma scalar_op_item op a s r c :
  item (scalar_op op a s) r c = (λ x, op x s) <$> item a r c.
Proof.
  unfold item. simpl. case_decide; [|done]. by rewrite list_lookup_fmap.
Qed.

Lemma scalar_op_wf op a s : wf a → wf (scalar_op op a s).
Proof. unfold wf. simpl. by rewrite length_map. Qed.

(** C2. With the Red band (B04) and the NIR band (B08) of one shape,
    [calculate_ndvi] raises nothing and stores as NDVI a grid of that shape
    whose sample at every position is (NIR - RED) / (NIR + RED + 1e-6) in
    binary64 arithmetic; wherever both bands are 0 the NDVI is exactly 0. *)
Theorem calculate_ndvi_formula self red nir :
  bands self !! "B04" = Some red →
  bands self !! "B08" = Some nir →
  shape nir = shape red →
  wf nir → wf red →
  ∃ ndvi, calculate_ndvi self = Ok (set_index self "NDVI" ndvi)
    ∧ shape ndvi = shape red
    ∧ (∀ r c, r < rows red → c < cols red →
         ∃ n d, item nir r c = Some n ∧ item red r c = Some d ∧
                item ndvi r c = Some ((n - d) / (n + d + eps))%float)
    ∧ (∀ r c, item nir r c = Some 0%float → item red r c = Some 0%float →
         item ndvi r c = Some 0%float).
Proof.
  intros Hred Hnir Hshape Hwn Hwr.
  destruct (binop_same_shape PrimFloat.sub nir red Hshape Hwn Hwr)
    as (num & Hnum & Hsnum & Hwnum & Inum).
  destruct (binop_same_shape PrimFloat.add nir red Hshape Hwn Hwr)
    as (sum & Hsum & Hssum & Hwsum & Isum).
  assert (shape num = shape (scalar_op PrimFloat.add sum eps)) as Hsden.
  { rewrite Hsnum, <- Hssum. reflexivity. }
  destruct (binop_same_shape PrimFloat.div num _ Hsden Hwnum
              (scalar_op_wf _ _ _ Hwsum)) as (ndvi & Hndvi & Hsndvi & _ & Indvi).
  assert (rows num = rows red ∧ cols num = cols red) as [Hrn Hcn].
  { unfold shape in *. split; congruence. }
  assert (rows nir = rows red ∧ cols nir = cols red) as [Hrr Hcr].
  { unfold shape in *. split; congruence. }
  assert (∀ r c, r < rows red → c < cols red →
            ∃ n d, item nir r c = Some n ∧ item red r c = Some d ∧
                   item ndvi r c = Some ((n - d) / (n + d + eps))%float) as Hall.
  { intros r c Hr Hc.
    destruct (Inum r c) as (n & d & Hn & Hd & Hnd); [lia..|].
    destruct (Isum r c) as (n' & d' & Hn' & Hd' & Hsd); [lia..|].
    destruct (Indvi r c) as (x & y & Hx & Hy & Hq); [lia..|].
    rewrite scalar_op_item, Hsd in Hy. simpl in Hy.
    exists n, d. split; [done|]. split; [done|]. rewrite Hq. congruence. }
  exists ndvi. split.
  { unfold calculate_ndvi, band. rewrite Hred, Hnir. simpl.
    rewrite Hnum. simpl. rewrite Hsum. simpl. by rewrite Hndvi. }
  split; [congruence|]. split; [exact Hall|].
  intros r c Hn Hd.
  assert (r < rows red ∧ c < cols red) as [Hr Hc].
  { unfold item in Hd. by case_decide. }
  destruct (Hall r c Hr Hc) as (n & d & Hn' & Hd' & ->).
  rewrite Hn in Hn'. rewrite Hd in Hd'.
  injection Hn' as <-. injection Hd' as <-. reflexivity.
Qed.

(** RED = NIR = [0]: the call succeeds and NDVI = [0]. *)
Lemma calculate_ndvi_formula_witness :
  ∃ ndvi,
    calculate_ndvi (set_band (set_band init "B04" (NdArray 1 1 [0%float]))
                             "B08" (NdArray 1 1 [0%float]))
      = Ok (set_index (set_band (set_band init "B04" (NdArray 1 1 [0%float]))
                                "B08" (NdArray 1 1 [0%float])) "NDVI" ndvi)
    ∧ item ndvi 0 0 = Some 0%float.
Proof.
  destruct (calculate_ndvi_formula
              (set_band (set_band init "B04" (NdArray 1 1 [0%float]))
                        "B08" (NdArray 1 1 [0%float]))
              (NdArray 1 1 [0%float]) (NdArray 1 1 [0%float]))
    as (ndvi & Hcall & _ & _ & Hzero); try reflexivity.
  exists ndvi. split; [exact Hcall|]. by apply Hzero.
Defined.

(** RED = [100], NIR = [200]: NDVI is 100 / 300.000001 rounded to binary64,
    0.33333333222222222. *)
Example calculate_ndvi_100_200 :
  match calculate_ndvi (set_band (set_band init "B04" (NdArray 1 1 [100%float]))
                                 "B08" (NdArray 1 1 [200%float])) with
  | Ok self => indices self !! "NDVI"
  | Raise _ => None
  end = Some (NdArray 1 1 [0x1.555555423e9d7p-2%float]).
Proof. reflexivity. Qed.

(** The normalisation of the NIR band, with its 1e-6 on the span, turns a
    band of equal samples into zeros. *)
Example calculate_nir_constant :
  match calculate_nir (set_band init "B08" (NdArray 1 2 [5; 5]%float)) with
  | Ok self => indices self !! "NIR"
  | Raise _ => None
  end = Some (NdArray 1 2 [0; 0]%float).
Proof. reflexivity. Qed.

(** Bands of shapes that do not broadcast stop [calculate_ndvi]. *)
Example calculate_ndvi_shape_error :
  calculate_ndvi (set_band (set_band init "B04" (NdArray 1 2 [1; 2]%float))
                           "B08" (NdArray 1 3 [1; 2; 3]%float))
  = Raise ValueError.
Proof. reflexivity. Qed.

(** *** Harmonisation *)

(** The file [find_band_path] resolves a band name to. *)
Definition band_file (safe : SafeProduct) (band_name : string) : option Dataset :=
  granule_dir ← head (granules safe);
  resolution ← resolution_map !! band_name;
  granule_dir !! (resolution, band_name).

(** The shape of a file's pixel grid as stored, [(src.height, src.width)]. *)
Definition native_shape (src : Dataset) : nat * nat :=
  (height (ds_meta src), width (ds_meta src)).

(** The file has a band 1 and it has the shape the metadata declare. *)
Definition readable (src : Dataset) : Prop :=
  ∃ a, ds_bands src !! 0 = Some a ∧ shape a = native_shape src.

Section HarmonizerFacts.
Variable bilinear : ndarray → nat → nat → list float.

(** The array [load_bands] stores for a band, in closed form. *)
Definition loaded_band (safe : SafeProduct) (band_name : string) : option ndarray :=
  src ← band_file safe band_name;
  a ← ds_bands src !! 0;
  Some (if decide (band_name ∈ ["B11"; "B12"])
        then NdArray (height (ds_meta src) * 2) (width (ds_meta src) * 2)
               (bilinear a (height (ds_meta src) * 2) (width (ds_meta src) * 2))
        else a).

Lemma load_band_ok safe self band_name a :
  loaded_band safe band_name = Some a →
  ∃ src, band_file safe band_name = Some src ∧
    load_band bilinear safe self band_name =
      Ok (if decide (band_name = "B04")
          then set_meta (set_band self band_name a) (ds_meta src)
          else set_band self band_name a).
Proof.
  unfold loaded_band, band_file, load_band, find_band_path.
  destruct (granules safe) as [|g gs]; [done|]. simpl.
  destruct (resolution_map !! band_name) as [res|]; [|done]. simpl.
  destruct (g !! (res, band_name)) as [src|]; [|done]. simpl.
  destruct (ds_bands src !! 0) as [b|] eqn:Hb; [|done]. simpl.
  intros [= <-]. exists src. split; [done|].
  unfold read_resampled, read. rewrite Hb. simpl.
  by destruct (decide (band_name ∈ ["B11"; "B12"])), (decide (band_name = "B04")).
Qed.

Lemma load_loop_ok safe names : ∀ self,
  Forall (λ b, is_Some (loaded_band safe b)) names →
  ∃ self', load_loop bilinear safe self names = Ok self'
    ∧ (∀ b, bands self' !! b =
            if decide (b ∈ names) then loaded_band safe b else bands self !! b)
    ∧ meta self' = (if decide ("B04" ∈ names)
                    then ds_meta <$> band_file safe "B04" else meta self).
Proof.
  induction names as [|name rest IH]; intros self Hall.
  - exists self. split; [done|]. split; [|done].
    intros b. rewrite decide_False; [done|]. apply not_elem_of_nil.
  - apply Forall_cons in Hall as [[a Ha] Hrest].
    destruct (load_band_ok safe self name a Ha) as (src & Hsrc & Hload).
    simpl. rewrite Hload. simpl.
    destruct (IH (if decide (name = "B04")
                  then set_meta (set_band self name a) (ds_meta src)
                  else set_band self name a) Hrest) as (self' & Hloop & Hb & Hm).
    exists self'. split; [done|]. split.
    + intros b. rewrite Hb.
      destruct (decide (b ∈ rest)) as [Hin|Hnin];
        destruct (decide (b ∈ name :: rest)) as [Hin'|Hnin'].
      * done.
      * exfalso. apply Hnin'. by apply list_elem_of_further.
      * apply elem_of_cons in Hin' as [->|?]; [|done].
        rewrite Ha. destruct (decide (name = "B04")); simpl; apply lookup_insert_eq.
      * assert (name ≠ b) as Hne.
        { intros ->. apply Hnin'. apply list_elem_of_here. }
        destruct (decide (name = "B04")); simpl; by rewrite lookup_insert_ne.
    + rewrite Hm.
      destruct (decide ("B04" ∈ rest)) as [Hin|Hnin];
        destruct (decide ("B04" ∈ name :: rest)) as [Hin'|Hnin'].
      * done.
      * exfalso. apply Hnin'. by apply list_elem_of_further.
      * apply elem_of_cons in Hin' as [<-|?]; [|done].
        rewrite decide_True by done. simpl. by rewrite Hsrc.
      * rewrite decide_False; [done|].
        intros ->. apply Hnin'. apply list_elem_of_here.
Qed.

End HarmonizerFacts.

(** The shape [load_bands] gives a band: twice the file's own height and
    width for B11 and B12, the file's own shape for the others. *)
Definition target_shape (band_name : string) (src : Dataset) : nat * nat :=
  if decide (band_name ∈ ["B11"; "B12"])
  then (height (ds_meta src) * 2, width (ds_meta src) * 2)
  else native_shape src.

(** Sample products: four 10 m files of 2 x 2 pixels with 20 m files of
    1 x 1 pixel, and the same with a B11 file of 2 x 2 pixels. *)
Definition jp2 (h w : nat) (samples : list float) : Dataset :=
  MkDataset (MkMeta "JP2OpenJPEG" "uint16" None w h 1 "EPSG:32643"
                    (MkAffine 10 0 600000 0 (-10) 3800000))
            [NdArray h w samples].

Definition granule_with (b11 : Dataset) : gmap (string * string) Dataset :=
  <[("R10m", "B02") := jp2 2 2 [1; 2; 3; 4]%float]>
  (<[("R10m", "B03") := jp2 2 2 [5; 6; 7; 8]%float]>
  (<[("R10m", "B04") := jp2 2 2 [100; 0; 30; 40]%float]>
  (<[("R10m", "B08") := jp2 2 2 [200; 0; 50; 60]%float]>
  (<[("R20m", "B11") := b11]>
  (<[("R20m", "B12") := jp2 1 1 [9%float]]> ∅))))).

Definition regular_safe : SafeProduct := MkSafe [granule_with (jp2 1 1 [7%float])].
Definition irregular_safe : SafeProduct :=
  MkSafe [granule_with (jp2 2 2 [7; 7; 7; 7]%float)].

(** A stand-in for the resampler where a concrete one is needed: the first
    sample repeated. *)
Definition repeat_first (a : ndarray) (h w : nat) : list float :=
  replicate (h * w) (default nan (head (flat a))).

(** C6, as the code has it. When every required band has a readable file,
    [load_bands] succeeds, keeps the metadata of B04, and gives each band
    its [target_shape]: the native shape for the 10 m bands, twice the
    file's own height and width for B11 and B12. Hence, when those target
    shapes all equal the native shape of B04 (the 10 m files share one
    shape and the 20 m files have half of it), every required band of the
    set has the native shape of B04. *)
Theorem load_bands_shapes bilinear safe self ref :
  band_file safe "B04" = Some ref →
  Forall (λ b, ∃ src, band_file safe b = Some src ∧ readable src) required_bands →
  ∃ self', load_bands bilinear safe self = Ok self'
    ∧ meta self' = Some (ds_meta ref)
    ∧ (∀ b src, b ∈ required_bands → band_file safe b = Some src →
         ∃ a, bands self' !! b = Some a ∧ shape a = target_shape b src)
    ∧ ((∀ b src, b ∈ required_bands → band_file safe b = Some src →
          target_shape b src = native_shape ref) →
       ∀ b, b ∈ required_bands →
         ∃ a, bands self' !! b = Some a ∧ shape a = native_shape ref).
Proof.
  intros Href Hall.
  assert (Forall (λ b, is_Some (loaded_band bilinear safe b)) required_bands) as Hloaded.
  { eapply Forall_impl; [exact Hall|]. intros b (src & Hsrc & a & Ha & _).
    unfold loaded_band. rewrite Hsrc. simpl. rewrite Ha. simpl. eauto. }
  destruct (load_loop_ok bilinear safe required_bands self Hloaded)
    as (self' & Hload & Hbands & Hmeta).
  assert (∀ b src, b ∈ required_bands → band_file safe b = Some src →
            ∃ a, bands self' !! b = Some a ∧ shape a = target_shape b src) as Hshape.
  { intros b src Hb Hsrc. rewrite Hbands, decide_True by done.
    rewrite Forall_forall in Hall.
    destruct (Hall b Hb) as (src' & Hsrc' & a & Ha & Hsa).
    assert (src' = src) as -> by congruence.
    unfold loaded_band, target_shape. rewrite Hsrc. simpl. rewrite Ha. simpl.
    eexists. split; [reflexivity|].
    by destruct (decide (b ∈ ["B11"; "B12"])). }
  exists self'. split; [done|]. split.
  { rewrite Hmeta, decide_True; [by rewrite Href|].
    unfold required_bands. set_solver. }
  split; [exact Hshape|].
  intros Hsame b Hb. rewrite Forall_forall in Hall.
  destruct (Hall b Hb) as (src & Hsrc & _).
  destruct (Hshape b src Hb Hsrc) as (a & Ha & Hsa).
  exists a. split; [done|]. rewrite Hsa. by apply Hsame.
Qed.

Lemma load_bands_shapes_witness :
  ∃ self', load_bands repeat_first regular_safe init = Ok self'
    ∧ meta self' = Some (ds_meta (jp2 2 2 [100; 0; 30; 40]%float))
    ∧ ∀ b, b ∈ required_bands →
        ∃ a, bands self' !! b = Some a ∧ shape a = (2, 2).
Proof.
  destruct (load_bands_shapes repeat_first regular_safe init
              (jp2 2 2 [100; 0; 30; 40]%float))
    as (self' & Hload & Hmeta & _ & Hsame).
  - reflexivity.
  - repeat constructor; eexists; (split; [reflexivity|]);
      eexists; split; reflexivity.
  - exists self'. split; [done|]. split; [done|].
    apply Hsame. intros b src Hb Hsrc.
    unfold required_bands in Hb.
    repeat (apply elem_of_cons in Hb as [->|Hb]);
      [vm_compute in Hsrc; injection Hsrc as <-; reflexivity ..|].
    by apply elem_of_nil in Hb.
Defined.

(** C6 as the specification words it fails where a 20 m file does not have
    half the height and width of the Red band's file: with both of 2 x 2
    pixels, B11 is loaded with 4 x 4 samples and B04 with 2 x 2. *)
Lemma load_bands_shapes_differ :
  ∃ self' b04 b11,
    load_bands repeat_first irregular_safe init = Ok self'
    ∧ bands self' !! "B04" = Some b04 ∧ bands self' !! "B11" = Some b11
    ∧ shape b04 = (2, 2)%nat ∧ shape b11 = (4, 4)%nat
    ∧ shape b11 ≠ shape b04.
Proof.
  eexists _, _, _.
  split; [vm_compute; reflexivity|].
  repeat split; try (vm_compute; reflexivity).
  by vm_compute.
Qed.

End Indices.

(** ** os.path on POSIX paths *)

Module OsPath.

Fixpoint has_slash (p : string) : bool :=
  match p with
  | EmptyString => false
  | String c rest => Ascii.eqb c "/"%char || has_slash rest
  end.

(** [os.path.basename]: what follows the last slash. *)
Fixpoint basename (p : string) : string :=
  match p with
  | EmptyString => EmptyString
  | String c rest =>
      if has_slash rest then basename rest
      else if Ascii.eqb c "/"%char then rest else p
  end.

Fixpoint ends_with_slash (p : string) : bool :=
  match p with
  | EmptyString => false
  | String c EmptyString => Ascii.eqb c "/"%char
  | String _ rest => ends_with_slash rest
  end.

(** [os.path.join(a, b)] *)
Definition join (a b : string) : string :=
  match b with
  | String "/"%char _ => b
  | _ => if String.eqb a "" || ends_with_slash a then a +:+ b else a +:+ "/" +:+ b
  end.

Fixpoint has_dot (p : string) : bool :=
  match p with
  | EmptyString => false
  | String c rest => Ascii.eqb c "."%char || has_dot rest
  end.

(** [os.path.splitext(name)[0]] for a name without a slash: the name up to
    its last dot, unless only dots come before that dot. [seen] tells
    whether a character other than a dot has been passed. *)
Fixpoint splitext_root_from (seen : bool) (name : string) : string :=
  match name with
  | EmptyString => EmptyString
  | String c rest =>
      if has_dot rest
      then String c (splitext_root_from (seen || negb (Ascii.eqb c "."%char)) rest)
      else if Ascii.eqb c "."%char && seen then EmptyString else name
  end.

Definition splitext_root (name : string) : string := splitext_root_from false name.

(** [os.path.dirname]: the path up to its last slash, without the slashes
    that end it unless it is made of slashes only. *)
Fixpoint up_to_last_slash (p : string) : string :=
  match p with
  | EmptyString => EmptyString
  | String c rest =>
      if has_slash rest || Ascii.eqb c "/"%char
      then String c (up_to_last_slash rest) else EmptyString
  end.

Fixpoint all_slashes (p : string) : bool :=
  match p with
  | EmptyString => true
  | String c rest => Ascii.eqb c "/"%char && all_slashes rest
  end.

Fixpoint rstrip_slashes (p : string) : string :=
  match p with
  | EmptyString => EmptyString
  | String c rest => if all_slashes p then EmptyString else String c (rstrip_slashes rest)
  end.

Definition dirname (p : string) : string :=
  let head := up_to_last_slash p in
  if all_slashes head then head else rstrip_slashes head.

(** [os.makedirs(path, exist_ok=True)]. The empty path names no directory:
    a [FileNotFoundError]. For any other path the outcome is the file
    system's: [refusal path] is the exception it raises, if any (a file in
    the way, a parent that cannot be written to). *)
Definition makedirs (refusal : string → option exn) (path : string) : result unit :=
  if decide (path = "") then Raise FileNotFoundError else unless (refusal path).

Example dirname_nested : dirname "/data/out/a.tif" = "/data/out".
Proof. reflexivity. Qed.
Example dirname_plain : dirname "a.tif" = "" ∧ dirname "/a.tif" = "/" ∧ dirname "out//a.tif" = "out".
Proof. repeat split. Qed.
Example makedirs_empty refusal : makedirs refusal "" = Raise FileNotFoundError.
Proof. reflexivity. Qed.
Example basename_nested : basename "/data/s2/T43SFU_20241013.tif" = "T43SFU_20241013.tif".
Proof. reflexivity. Qed.
Example splitext_root_tif : splitext_root "s2_20210615_1024x1024.tif" = "s2_20210615_1024x1024".
Proof. reflexivity. Qed.
Example splitext_root_hidden : splitext_root ".hidden" = ".hidden".
Proof. reflexivity. Qed.
Example join_plain : join "out" "a.tif" = "out/a.tif".
Proof. reflexivity. Qed.

End OsPath.

(** ** "Sentinel Subsetting.py" *)

Module Subsetting.

(** Coordinates are only ever compared here, never computed with: they are
    exact rationals, which every finite binary64 number is. *)
Record Bounds := MkBounds { b_left : Q; b_bottom : Q; b_right : Q; b_top : Q }.

(** What the script uses of a raster file. *)
Record RasterFile := MkRaster { rf_crs : string; rf_bounds : Bounds }.

Abbreviation FS := (gmap string RasterFile).

(** An axis-parallel rectangle, the polygon [shapely.geometry.box] builds:
    the corner order does not change the set of points. *)
Record Rect := MkRect { minx : Q; miny : Q; maxx : Q; maxy : Q }.

Definition box (b : Bounds) : Rect :=
  MkRect (Qmin (b_left b) (b_right b)) (Qmin (b_bottom b) (b_top b))
         (Qmax (b_left b) (b_right b)) (Qmax (b_bottom b) (b_top b)).

(** The geometries an intersection of two such rectangles can be. *)
Inductive Geometry :=
| GeomEmpty
| GeomPoint (x y : Q)
| GeomLine (x0 y0 x1 y1 : Q)
| GeomPolygon (r : Rect).

(** [a.intersection(b)] for two rectangles. *)
Definition intersection (a b : Rect) : Geometry :=
  let x0 := Qmax (minx a) (minx b) in
  let x1 := Qmin (maxx a) (maxx b) in
  let y0 := Qmax (miny a) (miny b) in
  let y1 := Qmin (maxy a) (maxy b) in
  if Qlt_le_dec x1 x0 then GeomEmpty
  else if Qlt_le_dec y1 y0 then GeomEmpty
  else if Qeq_dec x0 x1
       then if Qeq_dec y0 y1 then GeomPoint x0 y0 else GeomLine x0 y0 x0 y1
       else if Qeq_dec y0 y1 then GeomLine x0 y0 x1 y0
            else GeomPolygon (MkRect x0 y0 x1 y1).

Definition is_empty (g : Geometry) : bool :=
  match g with GeomEmpty => true | _ => false end.

(** The result of [rasterio.mask.mask(src, [geom], crop=True)] as far as the
    script uses it: the shape of [out_image]. *)
Record Clip := MkClip { clip_bands : nat; clip_height : nat; clip_width : nat }.

(** What the function does that can be observed: lines printed and files
    written, in order. *)
Inductive event :=
| PrintCrsAndBounds (s1_crs s2_crs : string) (s1_orig s2_orig : Bounds)
                    (s1_wgs84 s2_wgs84 : Rect)
| PrintNoOverlap
| PrintOverlap (overlap_area : Geometry)
| WriteCropped (output_path : string) (c : Clip)
| PrintSaved (image_type output_path : string)
| PrintCropError (image_type input_path : string)
| PrintUnexpectedError (image_type input_path : string) (e : exn)
| PrintErrorInCropToOverlap (e : exn).

Section CropToOverlap.

(** rasterio's and PROJ's part: reprojection of bounds and geometries, and
    the masking of a raster by a geometry, which raises a [ValueError] when
    the geometry does not overlap the raster. *)
Variable transform_bounds : string → string → Bounds → Bounds.
Variable transform_geom : string → string → Geometry → Geometry.
Variable mask : RasterFile → Geometry → result Clip.

(** The file system's and the driver's part: the exception, if any, with
    which a directory is not made, and the one with which
    [rasterio.open(output_path, "w", **out_meta)] or [dst.write(out_image)]
    fails. *)
Variable mkdir_error : string → option exn.
Variable write_error : string → Clip → option exn.

Definition open (fs : FS) (path : string) : result RasterFile :=
  match fs !! path with
  | Some f => Ok f
  | None => Raise RasterioIOError
  end.

Definition get_bounds (fs : FS) (filepath : string) : result (Rect * string * Bounds) :=
  src ← open fs filepath;
  let wgs84_bounds := transform_bounds (rf_crs src) "EPSG:4326" (rf_bounds src) in
  Ok (box wgs84_bounds, rf_crs src, rf_bounds src).

(** The body of the [try] of the inner function: the crop, the output
    folder, the file. *)
Definition crop_and_write (src : RasterFile) (overlap_area : Geometry)
    (input_path output_folder : string) : result (string * Clip) :=
  let geom := transform_geom "EPSG:4326" (rf_crs src) overlap_area in
  out ← mask src geom;
  _ ← OsPath.makedirs mkdir_error output_folder;
  let output_path := OsPath.join output_folder ("cropped_" +:+ OsPath.basename input_path) in
  _ ← unless (write_error output_path out);
  Ok (output_path, out).

(** The inner function [crop_and_save]; its own [try] turns every exception
    of the crop, of [os.makedirs] and of the write into a printed line. *)
Definition crop_and_save (fs : FS) (overlap_area : Geometry)
    (input_path output_folder image_type : string) : result (list event) :=
  src ← open fs input_path;
  match crop_and_write src overlap_area input_path output_folder with
  | Ok (output_path, out) =>
      Ok [WriteCropped output_path out; PrintSaved image_type output_path]
  | Raise ValueError => Ok [PrintCropError image_type input_path]
  | Raise e => Ok [PrintUnexpectedError image_type input_path e]
  end.

(** The body of the outer [try] of [crop_to_overlap]: the events so far and
    how the body ended. *)
Definition crop_to_overlap_body (fs : FS)
    (s1_path s2_path output_folder_s1 output_folder_s2 : string)
  : list event * result unit :=
  match get_bounds fs s1_path with
  | Raise e => ([], Raise e)
  | Ok (s1_bounds, s1_crs, s1_orig_bounds) =>
  match get_bounds fs s2_path with
  | Raise e => ([], Raise e)
  | Ok (s2_bounds, s2_crs, s2_orig_bounds) =>
      let printed := [PrintCrsAndBounds s1_crs s2_crs s1_orig_bounds s2_orig_bounds
                                        s1_bounds s2_bounds] in
      let overlap_area := intersection s1_bounds s2_bounds in
      if is_empty overlap_area then (printed ++ [PrintNoOverlap], Ok ())
      else
        let printed := printed ++ [PrintOverlap overlap_area] in
        match crop_and_save fs overlap_area s1_path output_folder_s1 "Sentinel-1" with
        | Raise e => (printed, Raise e)
        | Ok ev1 =>
        match crop_and_save fs overlap_area s2_path output_folder_s2 "Sentinel-2" with
        | Raise e => (printed ++ ev1, Raise e)
        | Ok ev2 => (printed ++ ev1 ++ ev2, Ok ())
        end end
  end end.

(** [crop_to_overlap]: whatever exception leaves the body is printed. *)
Definition crop_to_overlap (fs : FS)
    (s1_path s2_path output_folder_s1 output_folder_s2 : string) : list event :=
  match crop_to_overlap_body fs s1_path s2_path output_folder_s1 output_folder_s2 with
  | (events, Ok _) => events
  | (events, Raise e) => events ++ [PrintErrorInCropToOverlap e]
  end.

End CropToOverlap.

(** *** Disjoint footprints *)

(** The points of a rectangle, border included. *)
Definition inside (r : Rect) (x y : Q) : Prop :=
  (minx r <= x)%Q ∧ (x <= maxx r)%Q ∧ (miny r <= y)%Q ∧ (y <= maxy r)%Q.

Definition disjoint (a b : Rect) : Prop :=
  ∀ x y, ¬ (inside a x y ∧ inside b x y).

(** The intersection is the empty geometry exactly when the rectangles have
    no point in common. *)
Lemma intersection_empty_iff a b :
  intersection a b = GeomEmpty ↔ disjoint a b.
Proof.
  unfold intersection, disjoint, inside. split.
  - intros Hempty x y ((Hax0 & Hax1 & Hay0 & Hay1) & (Hbx0 & Hbx1 & Hby0 & Hby1)).
    assert (Qmax (minx a) (minx b) <= Qmin (maxx a) (maxx b))%Q as Hx.
    { apply Qle_trans with x; [by apply Q.max_lub|by apply Q.min_glb]. }
    assert (Qmax (miny a) (miny b) <= Qmin (maxy a) (maxy b))%Q as Hy.
    { apply Qle_trans with y; [by apply Q.max_lub|by apply Q.min_glb]. }
    destruct (Qlt_le_dec _ _) as [Hlt|_]; [by apply Qlt_not_le in Hlt|].
    destruct (Qlt_le_dec _ _) as [Hlt|_]; [by apply Qlt_not_le in Hlt|].
    by repeat destruct (Qeq_dec _ _).
  - intros Hdis.
    destruct (Qlt_le_dec _ _) as [|Hx]; [done|].
    destruct (Qlt_le_dec _ _) as [|Hy]; [done|].
    exfalso.
    apply (Hdis (Qmax (minx a) (minx b)) (Qmax (miny a) (miny b))).
    repeat split;
      eauto using Q.le_max_l, Q.le_max_r, Qle_trans, Q.le_min_l, Q.le_min_r.
Qed.

(** The footprint of a file in the reference CRS, as [get_bounds] builds
    it. *)
Definition wgs84_box (transform_bounds : string → string → Bounds → Bounds)
    (f : RasterFile) : Rect :=
  box (transform_bounds (rf_crs f) "EPSG:4326" (rf_bounds f)).

(** C7. For two raster files whose footprints in EPSG:4326 have no point in
    common, the overlap computed is the empty geometry and
    [crop_to_overlap] only prints the bounds and that there is no
    overlapping region: nothing is cropped or written, and no error is
    reported. *)
Theorem crop_to_overlap_disjoint transform_bounds transform_geom mask
    mkdir_error write_error
    (fs : FS) s1_path s2_path output_folder_s1 output_folder_s2 s1 s2 :
  fs !! s1_path = Some s1 →
  fs !! s2_path = Some s2 →
  disjoint (wgs84_box transform_bounds s1) (wgs84_box transform_bounds s2) →
  intersection (wgs84_box transform_bounds s1) (wgs84_box transform_bounds s2)
    = GeomEmpty
  ∧ crop_to_overlap transform_bounds transform_geom mask mkdir_error write_error fs
      s1_path s2_path output_folder_s1 output_folder_s2
    = [PrintCrsAndBounds (rf_crs s1) (rf_crs s2) (rf_bounds s1) (rf_bounds s2)
         (wgs84_box transform_bounds s1) (wgs84_box transform_bounds s2);
       PrintNoOverlap].
Proof.
  intros H1 H2 Hdis. apply intersection_empty_iff in Hdis.
  split; [done|].
  unfold crop_to_overlap, crop_to_overlap_body, get_bounds, open.
  rewrite H1, H2. simpl. fold (wgs84_box transform_bounds s1).
  fold (wgs84_box transform_bounds s2). by rewrite Hdis.
Qed.

(** Two tiles a degree apart, and a disk that holds them. *)
Definition s1_tile : RasterFile := MkRaster "EPSG:4326" (MkBounds 77 33 78 34).
Definition s2_tile : RasterFile := MkRaster "EPSG:4326" (MkBounds 79 33 80 34).
Definition scenes : FS := <["s1.tif" := s1_tile]> (<["s2.tif" := s2_tile]> ∅).

Lemma crop_to_overlap_disjoint_witness :
  crop_to_overlap (λ _ _ b, b) (λ _ _ g, g) (λ _ _, Raise ValueError)
    (λ _, None) (λ _ _, None) scenes
    "s1.tif" "s2.tif" "cropped_sentinel1" "cropped_sentinel2"
  = [PrintCrsAndBounds "EPSG:4326" "EPSG:4326"
       (MkBounds 77 33 78 34) (MkBounds 79 33 80 34)
       (wgs84_box (λ _ _ b, b) s1_tile) (wgs84_box (λ _ _ b, b) s2_tile);
     PrintNoOverlap].
Proof.
  apply (crop_to_overlap_disjoint (λ _ _ b, b) (λ _ _ g, g) (λ _ _, Raise ValueError)
           (λ _, None) (λ _ _, None) scenes "s1.tif" "s2.tif" "cropped_sentinel1" "cropped_sentinel2"
           s1_tile s2_tile).
  - reflexivity.
  - reflexivity.
  - apply intersection_empty_iff. reflexivity.
Defined.

(** Footprints that overlap are cropped, each into its own folder; footprints
    that only share an edge have a non-empty intersection (a line), so the
    crop is attempted and, the masking failing, reported per image. *)
Definition s3_tile : RasterFile := MkRaster "EPSG:4326" (MkBounds (155 # 2) 33 (157 # 2) 34).
Definition s4_tile : RasterFile := MkRaster "EPSG:4326" (MkBounds 78 33 79 34).
Definition more_scenes : FS :=
  <["s3.tif" := s3_tile]> (<["s4.tif" := s4_tile]> scenes).

Example crop_to_overlap_overlapping :
  crop_to_overlap (λ _ _ b, b) (λ _ _ g, g) (λ _ _, Ok (MkClip 1 100 50))
    (λ _, None) (λ _ _, None) more_scenes
    "s1.tif" "s3.tif" "cropped_sentinel1" "cropped_sentinel2"
  = [PrintCrsAndBounds "EPSG:4326" "EPSG:4326"
       (rf_bounds s1_tile) (rf_bounds s3_tile)
       (wgs84_box (λ _ _ b, b) s1_tile) (wgs84_box (λ _ _ b, b) s3_tile);
     PrintOverlap (intersection (wgs84_box (λ _ _ b, b) s1_tile)
                                (wgs84_box (λ _ _ b, b) s3_tile));
     WriteCropped "cropped_sentinel1/cropped_s1.tif" (MkClip 1 100 50);
     PrintSaved "Sentinel-1" "cropped_sentinel1/cropped_s1.tif";
     WriteCropped "cropped_sentinel2/cropped_s3.tif" (MkClip 1 100 50);
     PrintSaved "Sentinel-2" "cropped_sentinel2/cropped_s3.tif"].
Proof. reflexivity. Qed.

Example crop_to_overlap_touching :
  is_empty (intersection (wgs84_box (λ _ _ b, b) s1_tile)
                         (wgs84_box (λ _ _ b, b) s4_tile)) = false
  ∧ crop_to_overlap (λ _ _ b, b) (λ _ _ g, g) (λ _ _, Raise ValueError)
      (λ _, None) (λ _ _, None) more_scenes
      "s1.tif" "s4.tif" "cropped_sentinel1" "cropped_sentinel2"
    = [PrintCrsAndBounds "EPSG:4326" "EPSG:4326"
         (rf_bounds s1_tile) (rf_bounds s4_tile)
         (wgs84_box (λ _ _ b, b) s1_tile) (wgs84_box (λ _ _ b, b) s4_tile);
       PrintOverlap (intersection (wgs84_box (λ _ _ b, b) s1_tile)
                                  (wgs84_box (λ _ _ b, b) s4_tile));
       PrintCropError "Sentinel-1" "s1.tif";
       PrintCropError "Sentinel-2" "s4.tif"].
Proof. split; reflexivity. Qed.

(** A path that cannot be opened ends the function with one printed line. *)
Example crop_to_overlap_missing_file :
  crop_to_overlap (λ _ _ b, b) (λ _ _ g, g) (λ _ _, Raise ValueError)
    (λ _, None) (λ _ _, None) scenes
    "s1.tif" "absent.tif" "cropped_sentinel1" "cropped_sentinel2"
  = [PrintErrorInCropToOverlap RasterioIOError].
Proof. reflexivity. Qed.

(** An empty output folder: [os.makedirs] raises inside the [try] of the
    crop, the image is reported and no file is written for it. *)
Example crop_to_overlap_empty_folder :
  crop_to_overlap (λ _ _ b, b) (λ _ _ g, g) (λ _ _, Ok (MkClip 1 100 50))
    (λ _, None) (λ _ _, None) more_scenes
    "s1.tif" "s3.tif" "" "cropped_sentinel2"
  = [PrintCrsAndBounds "EPSG:4326" "EPSG:4326"
       (rf_bounds s1_tile) (rf_bounds s3_tile)
       (wgs84_box (λ _ _ b, b) s1_tile) (wgs84_box (λ _ _ b, b) s3_tile);
     PrintOverlap (intersection (wgs84_box (λ _ _ b, b) s1_tile)
                                (wgs84_box (λ _ _ b, b) s3_tile));
     PrintUnexpectedError "Sentinel-1" "s1.tif" FileNotFoundError;
     WriteCropped "cropped_sentinel2/cropped_s3.tif" (MkClip 1 100 50);
     PrintSaved "Sentinel-2" "cropped_sentinel2/cropped_s3.tif"].
Proof. reflexivity. Qed.

End Subsetting.

(** ** "clip sentinel tif.py" *)

Module Clip.

(** A decimal digit as the pattern [\d] of Python's [re] takes it: among
    the code points below 256 these are '0' to '9'. *)
Definition is_digit (c : ascii) : bool :=
  (48 <=? nat_of_ascii c)%nat && (nat_of_ascii c <=? 57)%nat.

(** [n] digits at the head of [s]. *)
Fixpoint take_digits (n : nat) (s : string) : option string :=
  match n with
  | 0 => Some EmptyString
  | S n => match s with
           | String c rest => if is_digit c then String c <$> take_digits n rest else None
           | EmptyString => None
           end
  end.

(** Group 1 of [re.search(r'_(\d{8})_?', name)]: the eight digits after the
    leftmost underscore that is followed by eight digits. *)
Fixpoint search_timestamp (name : string) : option string :=
  match name with
  | EmptyString => None
  | String c rest =>
      if Ascii.eqb c "_"%char
      then match take_digits 8 rest with
           | Some d => Some d
           | None => search_timestamp rest
           end
      else search_timestamp rest
  end.

(** A row as [gdf.iterrows()] yields it, a pandas Series: its index is the
    attribute columns of the frame, so [attrs] has one entry for each
    column of the frame, the same keys for every row of one frame. Each
    value is as Python formats it in an f-string, a missing value included
    ("nan", "None"). *)
Record Feature (Geometry : Type) := MkFeature {
  attrs : gmap string string;
  geometry : Geometry }.
Arguments MkFeature {Geometry} attrs geometry.
Arguments attrs {Geometry} f.
Arguments geometry {Geometry} f.

(** The frame [gpd.read_file] returns: the attribute columns and, per row,
    the cell of each column and the geometry. The rows are labelled 0, 1,
    2, ... in order. *)
Record GeoDataFrame (Geometry : Type) := MkFrame {
  columns : list string;
  frame_rows : list ((string → string) * Geometry) }.
Arguments MkFrame {Geometry} columns frame_rows.
Arguments columns {Geometry} g.
Arguments frame_rows {Geometry} g.

Definition series {Geometry} (columns : list string)
    (row : (string → string) * Geometry) : Feature Geometry :=
  MkFeature (list_to_map ((λ column, (column, row.1 column)) <$> columns)) row.2.

(** The rows of [gdf.iterrows()], in order; the label of a row is its
    position. *)
Definition iterrows {Geometry} (gdf : GeoDataFrame Geometry) : list (Feature Geometry) :=
  series (columns gdf) <$> frame_rows gdf.

(** A row has a 'name' exactly when the frame has the column. *)
Lemma series_lookup {Geometry} columns (row : (string → string) * Geometry) column :
  attrs (series columns row) !! column
  = if decide (column ∈ columns) then Some (row.1 column) else None.
Proof.
  unfold series. simpl. case_decide as Hin.
  - apply elem_of_list_to_map_1'.
    + intros y Hy. apply list_elem_of_fmap in Hy as (c & [= -> ->] & _). done.
    + apply list_elem_of_fmap. by exists column.
  - apply not_elem_of_list_to_map_1. by rewrite <- list_fmap_compose, list_fmap_id.
Qed.

(** Files written and lines printed, in order. *)
Inductive event (Clipped : Type) :=
| WriteClipped (output_path : string) (clipped : Clipped)
| PrintClipped (tif_name glacier_name output_path : string)
| PrintError (glacier_name tif_name : string) (e : exn).
Arguments WriteClipped {Clipped} output_path clipped.
Arguments PrintClipped {Clipped} tif_name glacier_name output_path.
Arguments PrintError {Clipped} glacier_name tif_name e.

Section ClipWithShapefile.

(** rasterio's part: the open raster, the geometries, and
    [mask(src, geom, crop=True)], which raises a [ValueError] when the
    geometry does not overlap the raster. *)
Context {Raster Geometry Clipped : Type}.
Variable mask : Raster → Geometry → result Clipped.

(** The file system's and the driver's part: the exception, if any, with
    which a directory is not made, and the one with which
    [rasterio.open(output_path, 'w', **meta)] or [dst.write(clipped_img)]
    fails. *)
Variable mkdir_error : string → option exn.
Variable write_error : string → Clipped → option exn.

(** The lines before the loop. [mtime] is the file's modification date
    already formatted with '%Y%m%d'. *)
Definition original_filename (tif_path : string) : string :=
  OsPath.splitext_root (OsPath.basename tif_path).

Definition timestamp (tif_path mtime : string) : string :=
  match search_timestamp (OsPath.basename tif_path) with
  | Some t => t
  | None => mtime
  end.

(** [glacier['name'] if 'name' in glacier else f"glacier_{idx}"]: the test
    is on the index of the row, which is the columns of its frame. *)
Definition glacier_name (idx : nat) (glacier : Feature Geometry) : string :=
  match attrs glacier !! "name" with
  | Some name => name
  | None => "glacier_" +:+ pretty idx
  end.

Definition output_filename (tif_path mtime : string) (idx : nat)
    (glacier : Feature Geometry) : string :=
  original_filename tif_path +:+ "_" +:+ glacier_name idx glacier +:+ "_"
    +:+ timestamp tif_path mtime +:+ ".tif".

(** The body of the [try]: the masking, the directory of the output path,
    the file. *)
Definition clip_and_write (src : Raster) (tif_path mtime output_dir : string)
    (idx : nat) (glacier : Feature Geometry) : result (string * Clipped) :=
  clipped ← mask src (geometry glacier);
  let output_path := OsPath.join output_dir (output_filename tif_path mtime idx glacier) in
  _ ← OsPath.makedirs mkdir_error (OsPath.dirname output_path);
  _ ← unless (write_error output_path clipped);
  Ok (output_path, clipped).

(** One turn of the loop over [gdf.iterrows()]: the [try] with its
    [except (ValueError, Exception)] handler, which prints and continues. *)
Definition clip_feature (src : Raster) (tif_path mtime output_dir : string)
    (idx : nat) (glacier : Feature Geometry) : list (event Clipped) :=
  let name := glacier_name idx glacier in
  match clip_and_write src tif_path mtime output_dir idx glacier with
  | Ok (output_path, clipped) =>
      [WriteClipped output_path clipped;
       PrintClipped (OsPath.basename tif_path) name output_path]
  | Raise e => [PrintError name (OsPath.basename tif_path) e]
  end.

(** The loop; [idx] is the row label, which counts the rows from 0. *)
Fixpoint clip_loop (src : Raster) (tif_path mtime output_dir : string)
    (idx : nat) (rows : list (Feature Geometry)) : list (event Clipped) :=
  match rows with
  | [] => []
  | glacier :: rest =>
      clip_feature src tif_path mtime output_dir idx glacier
      ++ clip_loop src tif_path mtime output_dir (S idx) rest
  end.

(** [clip_with_shapefile], given the raster and the frame read from the
    two paths. *)
Definition clip_with_shapefile (src : Raster) (gdf : GeoDataFrame Geometry)
    (tif_path mtime output_dir : string) : list (event Clipped) :=
  clip_loop src tif_path mtime output_dir 0 (iterrows gdf).

Definition is_write (ev : event Clipped) : bool :=
  match ev with WriteClipped _ _ => true | _ => false end.

Lemma clip_loop_app src tif_path mtime output_dir idx rows1 rows2 :
  clip_loop src tif_path mtime output_dir idx (rows1 ++ rows2) =
  clip_loop src tif_path mtime output_dir idx rows1
  ++ clip_loop src tif_path mtime output_dir (idx + length rows1) rows2.
Proof.
  revert idx. induction rows1 as [|g rows1 IH]; intros idx; simpl.
  - by rewrite Nat.add_0_r.
  - rewrite IH, <- app_assoc. do 3 f_equal. lia.
Qed.

(** The [try] goes through when the masking does, the directory is made and
    the driver writes the file. *)
Lemma clip_and_write_ok src tif_path mtime output_dir idx glacier clipped :
  mask src (geometry glacier) = Ok clipped →
  OsPath.makedirs mkdir_error
    (OsPath.dirname (OsPath.join output_dir (output_filename tif_path mtime idx glacier)))
    = Ok () →
  write_error (OsPath.join output_dir (output_filename tif_path mtime idx glacier)) clipped
    = None →
  clip_and_write src tif_path mtime output_dir idx glacier
  = Ok (OsPath.join output_dir (output_filename tif_path mtime idx glacier), clipped).
Proof.
  intros Hmask Hdir Hwrite. unfold clip_and_write.
  rewrite Hmask. change (Ok clipped ≫= ?k) with (k clipped). cbv beta zeta.
  rewrite Hdir. change (Ok () ≫= ?k) with (k ()). cbv beta.
  rewrite Hwrite. reflexivity.
Qed.

Lemma clip_and_write_raise src tif_path mtime output_dir idx glacier e :
  mask src (geometry glacier) = Raise e →
  clip_and_write src tif_path mtime output_dir idx glacier = Raise e.
Proof. intros Hmask. unfold clip_and_write. by rewrite Hmask. Qed.


(** C9, as the code has it. In a collection without a 'name' column every
    feature is named "glacier_<idx>", [idx] being its row label in decimal,
    and when its masking succeeds, the directory is made and the driver
    writes, the file written for it is
    "<raster base name>_glacier_<idx>_<timestamp>.tif" in the output
    directory. *)
Theorem clip_with_shapefile_fallback_name src gdf tif_path mtime output_dir
    idx row clipped :
  "name" ∉ columns gdf →
  frame_rows gdf !! idx = Some row →
  mask src row.2 = Ok clipped →
  let output_path :=
    OsPath.join output_dir
      (original_filename tif_path +:+ "_" +:+ ("glacier_" +:+ pretty idx) +:+ "_"
         +:+ timestamp tif_path mtime +:+ ".tif") in
  OsPath.makedirs mkdir_error (OsPath.dirname output_path) = Ok () →
  write_error output_path clipped = None →
  glacier_name idx (series (columns gdf) row) = "glacier_" +:+ pretty idx
  ∧ WriteClipped output_path clipped
    ∈ clip_with_shapefile src gdf tif_path mtime output_dir
  ∧ PrintClipped (OsPath.basename tif_path) ("glacier_" +:+ pretty idx) output_path
    ∈ clip_with_shapefile src gdf tif_path mtime output_dir.
Proof.
  intros Hcol Hidx Hok output_path Hdir Hwrite.
  assert (glacier_name idx (series (columns gdf) row) = "glacier_" +:+ pretty idx)
    as Hfallback.
  { unfold glacier_name. rewrite series_lookup. by rewrite decide_False. }
  split; [exact Hfallback|].
  assert (clip_feature src tif_path mtime output_dir idx (series (columns gdf) row)
          = [WriteClipped output_path clipped;
             PrintClipped (OsPath.basename tif_path) ("glacier_" +:+ pretty idx)
               output_path]) as Hfeat.
  { unfold clip_feature. rewrite (clip_and_write_ok _ _ _ _ _ _ clipped).
    - unfold output_filename. by rewrite Hfallback.
    - done.
    - unfold output_filename. by rewrite Hfallback.
    - unfold output_filename. by rewrite Hfallback. }
  apply list_elem_of_split_length in Hidx as (l1 & l2 & Hrows & ->).
  unfold clip_with_shapefile, iterrows. rewrite Hrows, fmap_app, clip_loop_app.
  rewrite length_fmap, fmap_cons. simpl clip_loop. rewrite Hfeat.
  split.
  - apply elem_of_app. right. apply list_elem_of_here.
  - apply elem_of_app. right. apply list_elem_of_further, list_elem_of_here.
Qed.

End ClipWithShapefile.

(** *** A raster and two collections of three features *)

(** Rectangles stand for the raster's extent and for the polygons; masking
    succeeds with the common rectangle when there is one of positive area,
    and raises as rasterio does otherwise. *)
Definition rect_mask (src geom : Subsetting.Rect) : result Subsetting.Rect :=
  match Subsetting.intersection src geom with
  | Subsetting.GeomPolygon r => Ok r
  | _ => Raise ValueError
  end.

(** A file system that makes every directory named and a driver that
    writes every file. *)
Definition no_mkdir_error (path : string) : option exn := None.
Definition no_write_error (path : string) (clipped : Subsetting.Rect) : option exn := None.

Definition tile : Subsetting.Rect := Subsetting.MkRect 0 0 10 10.

(** A row of a collection whose only attribute column is 'id'. *)
Definition unnamed_inside : Feature Subsetting.Rect :=
  MkFeature {[ "id" := "7" ]} (Subsetting.MkRect 5 5 8 8).

(** The cells of a row with an 'id' and a 'name'. *)
Definition cells (id name column : string) : string :=
  if String.eqb column "name" then name
  else if String.eqb column "id" then id else "nan".


Definition unnamed_glaciers : GeoDataFrame Subsetting.Rect :=
  MkFrame ["id"]
    [(cells "1" "", Subsetting.MkRect 1 1 3 3);
     (cells "2" "", Subsetting.MkRect 20 20 30 30);
     (cells "3" "", Subsetting.MkRect 5 5 8 8)].


Lemma clip_with_shapefile_fallback_name_witness :
  WriteClipped "clipped/s2_20210615_1024x1024_glacier_2_20210615.tif"
    (Subsetting.MkRect (Qmax 0 5) (Qmax 0 5) (Qmin 10 8) (Qmin 10 8))
  ∈ clip_with_shapefile rect_mask no_mkdir_error no_write_error tile unnamed_glaciers
      "/data/s2_20210615_1024x1024.tif" "20250102" "clipped".
Proof.
  destruct (clip_with_shapefile_fallback_name rect_mask no_mkdir_error no_write_error
              tile unnamed_glaciers
              "/data/s2_20210615_1024x1024.tif" "20250102" "clipped" 2
              (cells "3" "", Subsetting.MkRect 5 5 8 8)
              (Subsetting.MkRect (Qmax 0 5) (Qmax 0 5) (Qmin 10 8) (Qmin 10 8)))
    as (_ & Hwrite & _).
  - intros Hin. apply list_elem_of_singleton in Hin. discriminate Hin.
  - reflexivity.
  - reflexivity.
  - reflexivity.
  - reflexivity.
  - exact Hwrite.
Defined.

(** C9 as the specification words it fails: the first feature of a
    collection without a 'name' column is not named "feature_0" and the
    file written for it does not carry that name; and in a collection that
    has the column, a feature whose name is missing gets no generated name
    at all but the missing value as it is formatted. *)
Lemma clip_with_shapefile_not_feature_0 :
  glacier_name 0 (series ["id"] (cells "1" "", Subsetting.MkRect 1 1 3 3)) ≠ "feature_0"
  ∧ clip_with_shapefile rect_mask no_mkdir_error no_write_error tile
      (MkFrame ["id"] [(cells "1" "", Subsetting.MkRect 1 1 3 3)])
      "/data/s2_20210615_1024x1024.tif" "20250102" "clipped"
    = [WriteClipped "clipped/s2_20210615_1024x1024_glacier_0_20210615.tif"
         (Subsetting.MkRect (Qmax 0 1) (Qmax 0 1) (Qmin 10 3) (Qmin 10 3));
       PrintClipped "s2_20210615_1024x1024.tif" "glacier_0"
         "clipped/s2_20210615_1024x1024_glacier_0_20210615.tif"]
  ∧ glacier_name 2 (series ["id"; "name"] (cells "3" "nan", Subsetting.MkRect 5 5 8 8))
    = "nan".
Proof. split; [by vm_compute|]. split; reflexivity. Qed.

(** An empty output directory: the output path has no directory part,
    [os.makedirs] raises inside the [try], and every feature is reported
    without a file being written. *)
Example clip_with_shapefile_empty_output_dir :
  clip_with_shapefile rect_mask no_mkdir_error no_write_error tile unnamed_glaciers
    "/data/s2_20210615_1024x1024.tif" "20250102" ""
  = [PrintError "glacier_0" "s2_20210615_1024x1024.tif" FileNotFoundError;
     PrintError "glacier_1" "s2_20210615_1024x1024.tif" ValueError;
     PrintError "glacier_2" "s2_20210615_1024x1024.tif" FileNotFoundError].
Proof. reflexivity. Qed.

End Clip.

(** ** sent-1_croper.py and tif_cropper.py: tiling *)

Module Tiling.
Local Open Scope Z_scope.

(** [len(range(start, stop, step))] for a step other than 0. *)
Definition range_len (start stop step : Z) : Z :=
  if 0 <? step
  then Z.max 0 ((stop - start + step - 1) / step)
  else Z.max 0 ((start - stop - step - 1) / (- step)).

(** [range(start, stop, step)] *)
Definition py_range (start stop step : Z) : result (list Z) :=
  if step =? 0 then Raise ValueError
  else Ok (map (λ k : nat, start + Z.of_nat k * step)
               (seq 0 (Z.to_nat (range_len start stop step)))).

(** [range(n)] *)
Definition py_range1 (n : Z) : list Z := map Z.of_nat (seq 0 (Z.to_nat n)).

(** [a // b] *)
Definition py_floordiv (a b : Z) : result Z :=
  if b =? 0 then Raise ZeroDivisionError else Ok (a / b).

(** [rasterio.windows.Window(col_off, row_off, width, height)] *)
Record Window := MkWindow { col_off : Z; row_off : Z; w_width : Z; w_height : Z }.

(** *** sent-1_croper.py, [crop_and_save]: clamped edge tiles *)

(** The windows of the two nested loops, in the order of the loops (the
    outer one runs over the columns), for a tile size [tile_size]. The
    range of the inner loop does not depend on [i]. *)
Definition crop_and_save_windows (tile_size width height : Z) : result (list Window) :=
  cols ← py_range 0 width tile_size;
  rows ← py_range 0 height tile_size;
  Ok (flat_map (λ i, map (λ j,
         let w := Z.min tile_size (width - i) in
         let h := Z.min tile_size (height - j) in
         MkWindow i j w h) rows) cols).

(** A file written by [crop_and_save]: the window, and the band for a GLCM
    raster ([None] where all bands go into one file). *)
Record TileFile := MkTileFile { tf_window : Window; tf_band : option Z }.

(** [crop_and_save] as the script runs it, with [tile_size = 1024]: for a
    GLCM raster one file per band, at most ten, else one file per window. *)
Definition crop_and_save (count width height : Z) (is_glcm : bool)
  : result (list TileFile) :=
  windows ← crop_and_save_windows 1024 width height;
  bands ← py_range 1 (Z.min count 10 + 1) 1;
  Ok (flat_map (λ window,
        if is_glcm then map (λ band, MkTileFile window (Some band)) bands
        else [MkTileFile window None]) windows).

(** *** tif_cropper.py, [crop_image_slice]: full tiles only *)

(** Where a bound of a basic slice falls on an axis of length [n]. *)
Definition slice_bound (i n : Z) : Z :=
  if i <? 0 then Z.max 0 (i + n) else Z.min i n.

(** The window [img_slice[y0:y1, x0:x1]] selects. *)
Definition slice_window (height width y0 y1 x0 x1 : Z) : Window :=
  MkWindow (slice_bound x0 width) (slice_bound y0 height)
           (Z.max 0 (slice_bound x1 width - slice_bound x0 width))
           (Z.max 0 (slice_bound y1 height - slice_bound y0 height)).

(** A crop written: its block indices, as in the file name, and its
    window. *)
Record Crop := MkCrop { crop_y : Z; crop_x : Z; crop_window : Window }.

(** The state of the loops: the crops written and [crops_generated]. *)
Definition crop_at (height width crop_size y x : Z) : Crop :=
  let y_start := y * crop_size in
  let x_start := x * crop_size in
  MkCrop y x (slice_window height width y_start (y_start + crop_size)
                           x_start (x_start + crop_size)).

Fixpoint loop_x (height width crop_size y : Z) (xs : list Z)
    (st : list Crop * Z) : list Crop * Z :=
  match xs with
  | [] => st
  | x :: xs =>
      loop_x height width crop_size y xs
             (st.1 ++ [crop_at height width crop_size y x], st.2 + 1)
  end.

Fixpoint loop_y (height width crop_size : Z) (ys xs : list Z)
    (st : list Crop * Z) : list Crop * Z :=
  match ys with
  | [] => st
  | y :: ys =>
      loop_y height width crop_size ys xs (loop_x height width crop_size y xs st)
  end.

(** [crop_image_slice] on a slice of shape [(height, width)]: the crops
    written and the number returned. *)
Definition crop_image_slice (height width crop_size : Z) : result (list Crop * Z) :=
  crops_height ← py_floordiv height crop_size;
  crops_width ← py_floordiv width crop_size;
  Ok (loop_y height width crop_size (py_range1 crops_height) (py_range1 crops_width)
             ([], 0)).

(** *** Coverage *)

Definition contains (w : Window) (r c : Z) : bool :=
  (row_off w <=? r) && (r <? row_off w + w_height w)
  && (col_off w <=? c) && (c <? col_off w + w_width w).

(** How many of the items satisfy [p]. *)
Fixpoint count_if {A} (p : A → bool) (l : list A) : nat :=
  match l with
  | [] => 0%nat
  | a :: l => ((if p a then 1 else 0) + count_if p l)%nat
  end.

(** In how many of the windows pixel [(r, c)] lies. *)
Definition covering (ws : list Window) (r c : Z) : nat :=
  count_if (λ w, contains w r c) ws.

Lemma count_if_app {A} (p : A → bool) l1 l2 :
  count_if p (l1 ++ l2) = (count_if p l1 + count_if p l2)%nat.
Proof. induction l1 as [|a l1 IH]; simpl; [done|]. rewrite IH. lia. Qed.

Lemma count_if_map {A B} (f : A → B) (p : B → bool) l :
  count_if p (map f l) = count_if (λ a, p (f a)) l.
Proof. induction l as [|a l IH]; simpl; [done|]. by rewrite IH. Qed.

Lemma count_if_ext {A} (p q : A → bool) l :
  (∀ a, a ∈ l → p a = q a) → count_if p l = count_if q l.
Proof.
  induction l as [|a l IH]; intros Hpq; simpl; [done|].
  rewrite (Hpq a) by apply list_elem_of_here.
  rewrite IH; [done|]. intros b Hb. apply Hpq. by apply list_elem_of_further.
Qed.

Lemma count_if_false {A} (p : A → bool) l :
  (∀ a, a ∈ l → p a = false) → count_if p l = 0%nat.
Proof.
  induction l as [|a l IH]; intros Hp; simpl; [done|].
  rewrite (Hp a) by apply list_elem_of_here.
  rewrite IH; [done|]. intros b Hb. apply Hp. by apply list_elem_of_further.
Qed.

(** One item of a duplicate-free list, and no other, satisfies [p]. *)
Lemma count_if_unique {A} (p : A → bool) l a0 :
  NoDup l → a0 ∈ l → p a0 = true →
  (∀ a, a ∈ l → p a = true → a = a0) →
  count_if p l = 1%nat.
Proof.
  induction l as [|a l IH]; intros Hnd Hin Hp Huniq.
  - by apply elem_of_nil in Hin.
  - apply NoDup_cons in Hnd as [Hnotin Hnd]. simpl.
    apply elem_of_cons in Hin as [->|Hin].
    + rewrite Hp, count_if_false; [done|].
      intros b Hb. destruct (p b) eqn:Hpb; [|done].
      exfalso. apply Hnotin.
      rewrite <- (Huniq b); [done| |done]. by apply list_elem_of_further.
    + destruct (p a) eqn:Hpa.
      { exfalso. apply Hnotin.
        rewrite (Huniq a); [done| |done]. apply list_elem_of_here. }
      rewrite IH; [done..|].
      intros b Hb. apply Huniq. by apply list_elem_of_further.
Qed.

(** The items of two nested loops that satisfy a test on the outer and a
    test on the inner variable. *)
Lemma count_if_nested {A B C} (mk : A → B → C) (p : C → bool)
    (pa : A → bool) (pb : B → bool) la lb :
  (∀ a b, p (mk a b) = pa a && pb b) →
  count_if p (flat_map (λ a, map (mk a) lb) la)
  = (count_if pa la * count_if pb lb)%nat.
Proof.
  intros Hp. induction la as [|a la IH]; simpl; [done|].
  rewrite count_if_app, IH, count_if_map.
  rewrite (count_if_ext _ (λ b, pa a && pb b)) by (intros; apply Hp).
  destruct (pa a); simpl.
  - rewrite (count_if_ext _ pb) by done. lia.
  - rewrite count_if_false by done. lia.
Qed.

(** Among the [m] blocks of length [ts] laid end to end from 0, a
    coordinate lies in exactly one when it is in [0, m * ts), in none
    otherwise. *)
Lemma count_if_blocks ts x m (q : nat → bool) :
  0 < ts →
  (∀ k, (k < m)%nat →
     q k = (Z.of_nat k * ts <=? x) && (x <? Z.of_nat k * ts + ts)) →
  count_if q (seq 0 m) = if (0 <=? x) && (x <? Z.of_nat m * ts) then 1%nat else 0%nat.
Proof.
  intros Hts Hq.
  destruct ((0 <=? x) && (x <? Z.of_nat m * ts)) eqn:Hin.
  - apply andb_true_iff in Hin as [H0 Hm].
    apply Z.leb_le in H0. apply Z.ltb_lt in Hm.
    pose proof (Z.mul_div_le x ts Hts) as Hlo.
    pose proof (Z.mul_succ_div_gt x ts Hts) as Hhi.
    pose proof (Z.div_pos x ts H0 Hts) as Hpos.
    assert (x / ts < Z.of_nat m) as Hlt.
    { apply Z.div_lt_upper_bound; lia. }
    apply (count_if_unique _ _ (Z.to_nat (x / ts))).
    + apply NoDup_seq.
    + apply elem_of_seq. lia.
    + rewrite Hq by lia. rewrite Z2Nat.id by done.
      apply andb_true_iff. split; [apply Z.leb_le|apply Z.ltb_lt]; lia.
    + intros k Hk Hqk. apply elem_of_seq in Hk. rewrite Hq in Hqk by lia.
      apply andb_true_iff in Hqk as [Hk1 Hk2].
      apply Z.leb_le in Hk1. apply Z.ltb_lt in Hk2.
      assert (Z.of_nat k = x / ts) as Hkx; [|lia].
      apply (Z.div_unique_pos x ts (Z.of_nat k) (x - Z.of_nat k * ts)); lia.
  - apply count_if_false. intros k Hk. apply elem_of_seq in Hk.
    rewrite Hq by lia.
    apply andb_false_iff in Hin as [H0|Hm].
    + apply Z.leb_gt in H0. apply andb_false_iff. left. apply Z.leb_gt. nia.
    + apply Z.ltb_ge in Hm. apply andb_false_iff. right. apply Z.ltb_ge. nia.
Qed.

(** The clamped blocks of [range(0, n, ts)] cover [0, n) exactly once. *)
Lemma count_if_clamped ts n x :
  0 < ts → 0 <= n →
  count_if (λ i, (i <=? x) && (x <? i + Z.min ts (n - i)))
           (map (λ k : nat, 0 + Z.of_nat k * ts) (seq 0 (Z.to_nat (range_len 0 n ts))))
  = if (0 <=? x) && (x <? n) then 1%nat else 0%nat.
Proof.
  intros Hts Hn. rewrite count_if_map.
  set (m := Z.to_nat (range_len 0 n ts)).
  assert (n <= Z.of_nat m * ts ∧ Z.of_nat m * ts < n + ts) as [Hm1 Hm2].
  { unfold m, range_len.
    destruct (0 <? ts) eqn:Hpos; [|apply Z.ltb_ge in Hpos; lia].
    pose proof (Z.mul_div_le (n - 0 + ts - 1) ts Hts).
    pose proof (Z.mul_succ_div_gt (n - 0 + ts - 1) ts Hts).
    assert (0 <= (n - 0 + ts - 1) / ts) by (apply Z.div_pos; lia).
    rewrite Z.max_r by done. rewrite Z2Nat.id by done. lia. }
  rewrite (count_if_ext _
    (λ k : nat, (x <? n) && ((Z.of_nat k * ts <=? x) && (x <? Z.of_nat k * ts + ts)))).
  2:{ intros k _. simpl.
      destruct (Z.leb_spec (Z.of_nat k * ts) x), (Z.ltb_spec x n),
        (Z.ltb_spec x (Z.of_nat k * ts + ts)),
        (Z.ltb_spec x (Z.of_nat k * ts + Z.min ts (n - Z.of_nat k * ts)));
        simpl; try reflexivity; lia. }
  destruct (Z.ltb_spec x n) as [Hx|Hx]; simpl.
  - rewrite (count_if_blocks ts x m) by done.
    destruct (Z.leb_spec 0 x); simpl; [|done].
    destruct (Z.ltb_spec x (Z.of_nat m * ts)); [done|lia].
  - rewrite count_if_false by done. by rewrite andb_false_r.
Qed.

(** The full blocks [y * cs .. y * cs + cs] for [y] in [range(n // cs)],
    cut as numpy slices an axis of length [n], cover [0, n // cs * cs)
    exactly once. *)
Lemma count_if_full cs n x :
  0 < cs → 0 <= n →
  count_if (λ y, (slice_bound (y * cs) n <=? x)
                 && (x <? slice_bound (y * cs) n
                          + Z.max 0 (slice_bound (y * cs + cs) n - slice_bound (y * cs) n)))
           (py_range1 (n / cs))
  = if (0 <=? x) && (x <? n / cs * cs) then 1%nat else 0%nat.
Proof.
  intros Hcs Hn. unfold py_range1. rewrite count_if_map.
  pose proof (Z.div_pos n cs Hn Hcs) as Hpos.
  pose proof (Z.mul_div_le n cs Hcs) as Hle.
  rewrite (count_if_blocks cs x (Z.to_nat (n / cs))); [by rewrite Z2Nat.id| done |].
  intros k Hk.
  assert (Z.of_nat k * cs + cs <= n) as Hfit by nia.
  unfold slice_bound.
  destruct (Z.ltb_spec (Z.of_nat k * cs) 0); [nia|].
  destruct (Z.ltb_spec (Z.of_nat k * cs + cs) 0); [nia|].
  rewrite !Z.min_l by lia. f_equal. f_equal. lia.
Qed.

(** The loops of [crop_image_slice] in closed form. *)
Lemma loop_x_spec height width crop_size y xs st :
  loop_x height width crop_size y xs st
  = (st.1 ++ map (crop_at height width crop_size y) xs,
     st.2 + Z.of_nat (length xs)).
Proof.
  revert st. induction xs as [|x xs IH]; intros [l k]; simpl.
  - by rewrite app_nil_r, Z.add_0_r.
  - rewrite IH. simpl. rewrite <- app_assoc. simpl. f_equal. lia.
Qed.

Lemma loop_y_spec height width crop_size ys xs st :
  loop_y height width crop_size ys xs st
  = (st.1 ++ flat_map (λ y, map (crop_at height width crop_size y) xs) ys,
     st.2 + Z.of_nat (length ys * length xs)).
Proof.
  revert st. induction ys as [|y ys IH]; intros [l k]; simpl.
  - by rewrite app_nil_r, Z.add_0_r.
  - rewrite IH, loop_x_spec. simpl. rewrite <- app_assoc. f_equal. lia.
Qed.

Lemma length_nested {A B C} (mk : A → B → C) la lb :
  length (flat_map (λ a, map (mk a) lb) la) = (length la * length lb)%nat.
Proof.
  induction la as [|a la IH]; simpl; [done|].
  by rewrite length_app, length_map, IH.
Qed.

Lemma Forall_nested {A B C} (P : C → Prop) (mk : A → B → C) la lb :
  (∀ a b, a ∈ la → b ∈ lb → P (mk a b)) →
  Forall P (flat_map (λ a, map (mk a) lb) la).
Proof.
  intros HP. apply Forall_forall. intros c Hc.
  apply list_elem_of_In, in_flat_map in Hc as (a & Ha & Hc).
  apply in_map_iff in Hc as (b & <- & Hb).
  apply HP; by apply list_elem_of_In.
Qed.

Lemma py_range1_length n : 0 <= n → Z.of_nat (length (py_range1 n)) = n.
Proof.
  intros Hn. unfold py_range1. rewrite length_map, length_seq. lia.
Qed.

Lemma py_range1_elem n y : y ∈ py_range1 n → 0 <= y < n.
Proof.
  unfold py_range1. intros Hy.
  apply list_elem_of_In, in_map_iff in Hy as (k & <- & Hk).
  apply in_seq in Hk. lia.
Qed.

(** The starts of [range(0, n, ts)] lie in [0, n). *)
Lemma py_range_elem n ts i :
  0 < ts → 0 <= n →
  i ∈ map (λ k : nat, 0 + Z.of_nat k * ts) (seq 0 (Z.to_nat (range_len 0 n ts))) →
  0 <= i < n.
Proof.
  intros Hts Hn Hi.
  apply list_elem_of_In, in_map_iff in Hi as (k & <- & Hk).
  apply in_seq in Hk. unfold range_len in Hk.
  destruct (0 <? ts) eqn:Hpos; [|apply Z.ltb_ge in Hpos; lia].
  pose proof (Z.mul_div_le (n - 0 + ts - 1) ts Hts).
  assert (0 <= (n - 0 + ts - 1) / ts) by (apply Z.div_pos; lia).
  rewrite Z.max_r in Hk by done. nia.
Qed.

Lemma indicator_mul (a b c d : bool) :
  ((if a && b then 1 else 0) * (if c && d then 1 else 0))%nat
  = if a && b && c && d then 1%nat else 0%nat.
Proof. by destruct a, b, c, d. Qed.

(** C3. For a raster of [height] x [width] pixels and a positive tile size:
    the windows of [crop_and_save] (clamp), each of width
    min(tile_size, width - offset) and height min(tile_size, height -
    offset) and none empty, contain every pixel of the raster exactly once
    and no other pixel; [crop_image_slice] (truncate) writes and counts
    (height // tile_size) * (width // tile_size) crops, each of tile_size x
    tile_size pixels, which contain exactly once the pixels of the first
    height // tile_size * tile_size rows and width // tile_size * tile_size
    columns, and no pixel of the strip that remains. *)
Theorem tiling_coverage tile_size width height :
  0 < tile_size → 0 <= width → 0 <= height →
  (∃ windows, crop_and_save_windows tile_size width height = Ok windows
     ∧ Forall (λ w, w_width w = Z.min tile_size (width - col_off w)
                    ∧ w_height w = Z.min tile_size (height - row_off w)
                    ∧ 0 < w_width w ∧ 0 < w_height w) windows
     ∧ ∀ r c, covering windows r c =
              if (0 <=? r) && (r <? height) && (0 <=? c) && (c <? width)
              then 1%nat else 0%nat)
  ∧ (∃ crops, crop_image_slice height width tile_size
                = Ok (crops, (height / tile_size) * (width / tile_size))
     ∧ Z.of_nat (length crops) = (height / tile_size) * (width / tile_size)
     ∧ Forall (λ crop, w_height (crop_window crop) = tile_size
                       ∧ w_width (crop_window crop) = tile_size) crops
     ∧ ∀ r c, covering (map crop_window crops) r c =
              if (0 <=? r) && (r <? height / tile_size * tile_size)
                 && (0 <=? c) && (c <? width / tile_size * tile_size)
              then 1%nat else 0%nat).
Proof.
  intros Hts Hw Hh.
  assert ((tile_size =? 0) = false) as Hnz by (apply Z.eqb_neq; lia).
  pose proof (Z.div_pos height tile_size Hh Hts) as Hqh.
  pose proof (Z.div_pos width tile_size Hw Hts) as Hqw.
  split.
  - unfold crop_and_save_windows, py_range. rewrite Hnz. simpl.
    eexists. split; [reflexivity|]. split.
    + apply Forall_nested. intros i j Hi Hj. simpl.
      apply py_range_elem in Hi; [|done..]. apply py_range_elem in Hj; [|done..].
      lia.
    + intros r c. unfold covering.
      rewrite (count_if_nested _ _
                 (λ i, (i <=? c) && (c <? i + Z.min tile_size (width - i)))
                 (λ j, (j <=? r) && (r <? j + Z.min tile_size (height - j)))).
      2:{ intros i j. unfold contains. simpl.
          by destruct (j <=? r), (r <? j + Z.min tile_size (height - j)),
                      (i <=? c), (c <? i + Z.min tile_size (width - i)). }
      rewrite !count_if_clamped by done.
      rewrite Nat.mul_comm. apply indicator_mul.
  - unfold crop_image_slice, py_floordiv. rewrite Hnz. simpl.
    rewrite loop_y_spec. simpl.
    rewrite Nat2Z.inj_mul, !py_range1_length by done.
    eexists. split; [reflexivity|]. split.
    { by rewrite length_nested, Nat2Z.inj_mul, !py_range1_length. }
    split.
    + apply Forall_nested. intros y x Hy Hx.
      apply py_range1_elem in Hy. apply py_range1_elem in Hx.
      pose proof (Z.mul_div_le height tile_size Hts).
      pose proof (Z.mul_div_le width tile_size Hts).
      assert (y * tile_size + tile_size <= height) by nia.
      assert (x * tile_size + tile_size <= width) by nia.
      simpl. unfold slice_bound.
      destruct (Z.ltb_spec (y * tile_size) 0); [nia|].
      destruct (Z.ltb_spec (y * tile_size + tile_size) 0); [nia|].
      destruct (Z.ltb_spec (x * tile_size) 0); [nia|].
      destruct (Z.ltb_spec (x * tile_size + tile_size) 0); [nia|].
      lia.
    + intros r c. unfold covering. rewrite count_if_map.
      rewrite (count_if_nested _ _
        (λ y, (slice_bound (y * tile_size) height <=? r)
              && (r <? slice_bound (y * tile_size) height
                       + Z.max 0 (slice_bound (y * tile_size + tile_size) height
                                  - slice_bound (y * tile_size) height)))
        (λ x, (slice_bound (x * tile_size) width <=? c)
              && (c <? slice_bound (x * tile_size) width
                       + Z.max 0 (slice_bound (x * tile_size + tile_size) width
                                  - slice_bound (x * tile_size) width)))).
      2:{ intros y x. unfold contains. simpl. by rewrite <- !andb_assoc. }
      rewrite !count_if_full by done. apply indicator_mul.
Qed.

Lemma tiling_coverage_witness :
  (∃ windows, crop_and_save_windows 1024 2049 2049 = Ok windows
     ∧ Forall (λ w, w_width w = Z.min 1024 (2049 - col_off w)
                    ∧ w_height w = Z.min 1024 (2049 - row_off w)
                    ∧ 0 < w_width w ∧ 0 < w_height w) windows
     ∧ ∀ r c, covering windows r c =
              if (0 <=? r) && (r <? 2049) && (0 <=? c) && (c <? 2049)
              then 1%nat else 0%nat)
  ∧ (∃ crops, crop_image_slice 2049 2049 1024 = Ok (crops, (2049 / 1024) * (2049 / 1024))
     ∧ Z.of_nat (length crops) = (2049 / 1024) * (2049 / 1024)
     ∧ Forall (λ crop, w_height (crop_window crop) = 1024
                       ∧ w_width (crop_window crop) = 1024) crops
     ∧ ∀ r c, covering (map crop_window crops) r c =
              if (0 <=? r) && (r <? 2049 / 1024 * 1024)
                 && (0 <=? c) && (c <? 2049 / 1024 * 1024)
              then 1%nat else 0%nat).
Proof. apply (tiling_coverage 1024 2049 2049); lia. Defined.

(** A raster of 2049 x 2049 pixels: nine clamped windows, four full crops. *)
Example crop_and_save_windows_2049 :
  crop_and_save_windows 1024 2049 2049 =
    Ok [MkWindow 0 0 1024 1024; MkWindow 0 1024 1024 1024; MkWindow 0 2048 1024 1;
        MkWindow 1024 0 1024 1024; MkWindow 1024 1024 1024 1024;
        MkWindow 1024 2048 1024 1;
        MkWindow 2048 0 1 1024; MkWindow 2048 1024 1 1024; MkWindow 2048 2048 1 1].
Proof. reflexivity. Qed.

Example crop_image_slice_2049 :
  crop_image_slice 2049 2049 1024 =
    Ok ([MkCrop 0 0 (MkWindow 0 0 1024 1024); MkCrop 0 1 (MkWindow 1024 0 1024 1024);
         MkCrop 1 0 (MkWindow 0 1024 1024 1024);
         MkCrop 1 1 (MkWindow 1024 1024 1024 1024)], 4).
Proof. reflexivity. Qed.

(** A tile size of 0 stops both functions. *)
Example crop_and_save_windows_0 : crop_and_save_windows 0 10 10 = Raise ValueError.
Proof. reflexivity. Qed.
Example crop_image_slice_0 : crop_image_slice 10 10 0 = Raise ZeroDivisionError.
Proof. reflexivity. Qed.

(** For a raster that is not a GLCM stack the script writes one file per
    window of tile size 1024. *)
Lemma crop_and_save_not_glcm count width height :
  crop_and_save count width height false =
    (windows ← crop_and_save_windows 1024 width height;
     Ok (map (λ w, MkTileFile w None) windows)).
Proof.
  unfold crop_and_save.
  destruct (crop_and_save_windows 1024 width height) as [windows|e]; [|done].
  reflexivity.
Qed.

(** A negative tile size leaves both loops empty, whatever the quotient. *)
Example crop_image_slice_negative :
  crop_image_slice 5 5 (-2) = Ok ([], 0) ∧ (5 / -2) * (5 / -2) = 9.
Proof. split; reflexivity. Qed.

End Tiling.

(** * Further properties of the scripts *)

(** ** fusion.py: failures of the stack and the normalisation, and the two in
    sequence *)

Module FusionFacts.
Import Numpy Rasterio Fusion.

Lemma read_layers_inv fs n input_files : ∀ layers meta r,
  read_layers fs n input_files layers meta = Ok r →
  Forall (λ file, is_Some (first_band fs file)) input_files.
Proof.
  induction input_files as [|file rest IH]; intros layers meta r Hr; [constructor|].
  simpl in Hr. unfold open in Hr.
  destruct (fs !! file) as [d|] eqn:Hd; [|done]. simpl in Hr.
  unfold read in Hr. destruct (ds_bands d !! 0) as [b|] eqn:Hb; [|done].
  simpl in Hr. constructor; [|by eapply IH].
  unfold first_band. rewrite Hd. simpl. by rewrite Hb.
Qed.

(** [stack_rasters] reaches its writer only when there is at least one
    input file and every input file exists and has a band; with no input
    file it raises a [TypeError]. *)
Theorem stack_rasters_ok_only_if fs input_files out :
  stack_rasters fs input_files = Ok out →
  input_files ≠ []
  ∧ Forall (λ file, is_Some (first_band fs file)) input_files
  ∧ stack_rasters fs [] = Raise TypeError.
Proof.
  intros Hout. unfold stack_rasters in Hout.
  destruct (read_layers fs (length input_files) input_files [] None)
    as [[layers meta]|e] eqn:Hread; [|done].
  split; [|split; [by eapply read_layers_inv|reflexivity]].
  intros ->. simpl in Hread. injection Hread as <- <-. done.
Qed.

Lemma stack_rasters_ok_only_if_witness :
  ["ndvi.tif"; "glcm.tif"] ≠ []
  ∧ Forall (λ file, is_Some (first_band disk file)) ["ndvi.tif"; "glcm.tif"]
  ∧ stack_rasters disk [] = Raise TypeError.
Proof.
  exact (stack_rasters_ok_only_if disk ["ndvi.tif"; "glcm.tif"]
           (MkWriter (gtiff 2 1 2)
              [Some (NdArray 1 2 [0; 2]%float); Some (NdArray 1 2 [1; 3]%float)])
           eq_refl).
Defined.

Lemma read_layers_first_failure fs n pre file post : ∀ layers meta,
  Forall (λ f, is_Some (first_band fs f)) pre →
  first_band fs file = None →
  read_layers fs n (pre ++ file :: post) layers meta =
    Raise (if fs !! file is Some _ then IndexError else RasterioIOError).
Proof.
  induction pre as [|f pre IH]; intros layers meta Hpre Hfile; simpl.
  - unfold first_band in Hfile. unfold open.
    destruct (fs !! file) as [d|]; [|done]. simpl in *.
    unfold read. by rewrite Hfile.
  - apply Forall_cons in Hpre as [[b Hb] Hpre]. unfold first_band in Hb.
    unfold open. destruct (fs !! f) as [d|]; [|done]. simpl in *.
    unfold read. rewrite Hb. simpl. by apply IH.
Qed.

(** The first input that cannot be read decides the exception: a path that
    does not open gives rasterio's I/O error, a file without a band an
    [IndexError]; the inputs after it are not looked at. *)
Theorem stack_rasters_first_failure fs pre file post :
  Forall (λ f, is_Some (first_band fs f)) pre →
  first_band fs file = None →
  stack_rasters fs (pre ++ file :: post) =
    Raise (if fs !! file is Some _ then IndexError else RasterioIOError).
Proof.
  intros Hpre Hfile. unfold stack_rasters.
  by rewrite (read_layers_first_failure _ _ _ _ _ _ _ Hpre Hfile).
Qed.

(** A raster without bands, beside the files of [disk]. *)
Definition no_band_tif : Dataset := MkDataset (gtiff 2 1 0) [].

Lemma stack_rasters_first_failure_witness :
  stack_rasters (<["empty.tif" := no_band_tif]> disk)
                ["ndvi.tif"; "empty.tif"; "absent.tif"] = Raise IndexError
  ∧ stack_rasters disk ["ndvi.tif"; "absent.tif"; "savi.tif"] = Raise RasterioIOError.
Proof.
  assert (Forall (λ f, is_Some (first_band (<["empty.tif" := no_band_tif]> disk) f))
                 ["ndvi.tif"]) as H1 by (repeat constructor; vm_compute; eauto).
  assert (Forall (λ f, is_Some (first_band disk f)) ["ndvi.tif"]) as H2
    by (repeat constructor; vm_compute; eauto).
  split.
  - exact (stack_rasters_first_failure (<["empty.tif" := no_band_tif]> disk)
             ["ndvi.tif"] "empty.tif" ["absent.tif"] H1 eq_refl).
  - exact (stack_rasters_first_failure disk ["ndvi.tif"] "absent.tif" ["savi.tif"]
             H2 eq_refl).
Defined.

Lemma normalize_raster_inv fs input_file out :
  normalize_raster fs input_file = Ok out →
  ∃ src data, fs !! input_file = Some src ∧ ds_bands src !! 0 = Some data
              ∧ flat data ≠ [] ∧ 0 < count (ds_meta src).
Proof.
  intros Hout. unfold normalize_raster, open, read in Hout.
  destruct (fs !! input_file) as [src|] eqn:Hsrc; [|done]. simpl in Hout.
  destruct (ds_bands src !! 0) as [data|] eqn:Hdata; [|done]. simpl in Hout.
  exists src, data. split; [done|]. split; [done|].
  unfold np_min, np_max in Hout.
  destruct (flat data) as [|x xs] eqn:Hflat; [done|]. split; [done|].
  simpl in Hout. unfold write, open_w in Hout. simpl in Hout.
  rewrite length_replicate in Hout. case_decide; [lia|done].
Qed.

(** [normalize_raster] reaches its writer only when the file opens, has a
    band 1 with at least one sample, and declares at least one band; a
    path that does not open, a file without a band and a band without a
    sample each raise their own exception before anything is written. *)
Theorem normalize_raster_ok_only_if fs input_file :
  (∀ out, normalize_raster fs input_file = Ok out →
     ∃ src data, fs !! input_file = Some src ∧ ds_bands src !! 0 = Some data
                 ∧ flat data ≠ [] ∧ 0 < count (ds_meta src))
  ∧ (fs !! input_file = None →
     normalize_raster fs input_file = Raise RasterioIOError)
  ∧ (∀ src, fs !! input_file = Some src → ds_bands src !! 0 = None →
     normalize_raster fs input_file = Raise IndexError)
  ∧ (∀ src data, fs !! input_file = Some src → ds_bands src !! 0 = Some data →
     flat data = [] → normalize_raster fs input_file = Raise ValueError).
Proof.
  split; [intros out Hout; by eapply normalize_raster_inv|].
  unfold normalize_raster, open, read, np_min. split; [|split].
  - by intros ->.
  - intros src -> Hband. simpl. by rewrite Hband.
  - intros src data -> Hband Hflat. simpl. rewrite Hband. simpl. by rewrite Hflat.
Qed.

(** Whenever [normalize_raster] returns, its output declares as many bands
    as the input, band 1 is the only one written, with the shape of the
    input's band 1, and the output is the same for any other file with
    the same metadata and the same band 1: bands 2 and up are neither read
    nor written. *)
Theorem normalize_raster_band_1_only fs input_file src out :
  fs !! input_file = Some src →
  normalize_raster fs input_file = Ok out →
  w_meta out = update_dtype (ds_meta src) "float32"
  ∧ length (w_bands out) = count (ds_meta src)
  ∧ (∃ data a, ds_bands src !! 0 = Some data ∧ w_bands out !! 0 = Some (Some a)
               ∧ shape a = shape data)
  ∧ (∀ k, 0 < k < count (ds_meta src) → w_bands out !! k = Some None)
  ∧ (∀ fs' other src',
       fs' !! other = Some src' → ds_meta src' = ds_meta src →
       ds_bands src' !! 0 = ds_bands src !! 0 →
       normalize_raster fs' other = Ok out).
Proof.
  intros Hsrc Hout.
  destruct (normalize_raster_inv fs input_file out Hout) as
    (src0 & data & Hsrc0 & Hdata & Hne & Hcount).
  assert (src0 = src) as -> by congruence.
  destruct (normalize_raster_ok fs input_file src data Hsrc Hdata Hne Hcount)
    as (lo & hi & Hlo & Hhi & Hnorm).
  rewrite Hnorm in Hout. injection Hout as <-. simpl.
  split; [done|]. split.
  { simpl. rewrite length_replicate. lia. }
  split.
  { eexists data, _. split; [done|]. split; reflexivity. }
  split.
  { intros k Hk. destruct k as [|k]; [lia|]. simpl.
    apply lookup_replicate_2. lia. }
  intros fs' other src' Hsrc' Hmeta Hband.
  destruct (normalize_raster_ok fs' other src' data) as (lo' & hi' & Hlo' & Hhi' & ->).
  - done.
  - by rewrite Hband.
  - done.
  - by rewrite Hmeta.
  - rewrite Hlo in Hlo'. rewrite Hhi in Hhi'. injection Hlo' as <-. injection Hhi' as <-.
    by rewrite Hmeta.
Qed.

Lemma normalize_raster_band_1_only_witness :
  w_bands (MkWriter (update_dtype (gtiff 2 1 2) "float32")
                    [Some (NdArray 1 2 [0; 1]%float); None]) !! 1 = Some None
  ∧ normalize_raster
      (<["other.tif" := MkDataset (gtiff 2 1 2)
                          [NdArray 1 2 [1; 3]; NdArray 1 2 [100; 200]]%float]> disk)
      "other.tif"
    = Ok (MkWriter (update_dtype (gtiff 2 1 2) "float32")
                   [Some (NdArray 1 2 [0; 1]%float); None]).
Proof.
  destruct (normalize_raster_band_1_only disk "glcm.tif" glcm_tif
              (MkWriter (update_dtype (gtiff 2 1 2) "float32")
                        [Some (NdArray 1 2 [0; 1]%float); None]))
    as (_ & _ & _ & Hrest & Hsame).
  - reflexivity.
  - reflexivity.
  - split.
    + apply Hrest. simpl. lia.
    + eapply Hsame; reflexivity.
Defined.

Lemma normalize_raster_constant_nan_witness :
  normalize_raster disk "flat.tif" =
    Ok (MkWriter (update_dtype (gtiff 2 1 1) "float32")
                 [Some (NdArray 1 2 [nan; nan]%float)]).
Proof.
  apply (normalize_raster_constant_nan disk "flat.tif" flat_tif 1 2 1 5%float []).
  - reflexivity.
  - reflexivity.
  - simpl. lia.
Defined.

(** The two steps of [main] after the reprojection, in sequence, for
    inputs whose band 1 has the shape and the data type of the first
    input's. The file [stack_rasters] leaves holds band 1 of every input;
    [normalize_raster], run on that file, hands its writer the rescaled
    band 1 of the first input and nothing else: of an N-band stack, N - 1
    bands of the normalised output stay unwritten. *)
Theorem stack_then_normalize cast raster_io fs input_files first b0 bs stacked_output :
  head input_files ≫= (fs !!.) = Some first →
  Forall2 (λ file b,
             first_band fs file = Some b
             ∧ shape b = (height (ds_meta first), width (ds_meta first))
             ∧ map (cast (dtype (ds_meta first))) (flat b) = flat b)
          input_files (b0 :: bs) →
  flat b0 ≠ [] →
  let stacked :=
    MkDataset (update_count (ds_meta first) (length input_files)) (b0 :: bs) in
  (stack_rasters fs input_files ≫= close cast raster_io None)
    = Ok (Some <$> ds_bands stacked)
  ∧ ∃ lo hi, np_min b0 = Ok lo ∧ np_max b0 = Ok hi ∧
      normalize_raster (<[stacked_output := stacked]> fs) stacked_output =
        Ok (MkWriter (update_dtype (ds_meta stacked) "float32")
              (Some (scalar_op PrimFloat.div (scalar_op PrimFloat.sub b0 lo)
                               (hi - lo)%float)
               :: replicate (length bs) None)).
Proof.
  intros Hfirst Hall Hne stacked. split.
  - rewrite (stack_rasters_ok fs input_files (b0 :: bs) first);
      [|eapply Forall2_impl; [exact Hall|]; by intros file b (Hb & _)|done].
    change (Ok ?w ≫= ?k) with (k w). rewrite close_stack. f_equal.
    subst stacked. simpl ds_bands.
    assert (∀ b, shape b = (height (ds_meta first), width (ds_meta first)) →
                 map (cast (dtype (ds_meta first))) (flat b) = flat b →
                 store cast raster_io
                   (update_count (ds_meta first) (length input_files)) b = b) as Hstore
      by (intros; by apply store_same).
    revert Hstore. generalize (update_count (ds_meta first) (length input_files)).
    intros m Hstore. clear Hfirst Hne.
    induction Hall as [|file b files bl (_ & Hshape & Hcast) _ IH]; [done|].
    by rewrite !fmap_cons, IH, Hstore.
  - destruct (normalize_raster_ok (<[stacked_output := stacked]> fs) stacked_output
                stacked b0) as (lo & hi & Hlo & Hhi & Hnorm).
    + apply lookup_insert_eq.
    + reflexivity.
    + done.
    + simpl. rewrite (Forall2_length _ _ _ Hall). simpl. lia.
    + exists lo, hi. split; [done|]. split; [done|]. rewrite Hnorm.
      simpl. rewrite (Forall2_length _ _ _ Hall). simpl.
      by rewrite Nat.sub_0_r.
Qed.

Lemma stack_then_normalize_witness :
  (stack_rasters disk ["ndvi.tif"; "savi.tif"] ≫= close float_cast nearest None)
    = Ok [Some (NdArray 1 2 [0; 2]%float); Some (NdArray 1 2 [4; 8]%float)]
  ∧ ∃ lo hi, np_min (NdArray 1 2 [0; 2]%float) = Ok lo
      ∧ np_max (NdArray 1 2 [0; 2]%float) = Ok hi
      ∧ normalize_raster
          (<["fused_stack.tif" :=
               MkDataset (gtiff 2 1 2) [NdArray 1 2 [0; 2]; NdArray 1 2 [4; 8]]%float]> disk)
          "fused_stack.tif"
        = Ok (MkWriter (update_dtype (gtiff 2 1 2) "float32")
                [Some (scalar_op PrimFloat.div
                         (scalar_op PrimFloat.sub (NdArray 1 2 [0; 2]%float) lo)
                         (hi - lo)%float); None]).
Proof.
  assert (Forall2 (λ file b,
                     first_band disk file = Some b
                     ∧ shape b = (height (ds_meta ndvi_tif), width (ds_meta ndvi_tif))
                     ∧ map (float_cast (dtype (ds_meta ndvi_tif))) (flat b) = flat b)
            ["ndvi.tif"; "savi.tif"]
            [NdArray 1 2 [0; 2]%float; NdArray 1 2 [4; 8]%float]) as Hall
    by (repeat constructor).
  exact (stack_then_normalize float_cast nearest disk ["ndvi.tif"; "savi.tif"] ndvi_tif
           (NdArray 1 2 [0; 2]%float) [NdArray 1 2 [4; 8]%float] "fused_stack.tif"
           eq_refl Hall ltac:(discriminate)).
Defined.

End FusionFacts.

(** ** Sentinel2Processor: the other indices, failures, constant bands *)

Module IndicesFacts.
Import Numpy Rasterio Indices.

(** [calculate_savi(self, L=0.5)] *)
Definition calculate_savi (self : Sentinel2Processor) (L : float)
  : result Sentinel2Processor :=
  red ← band self "B04";
  nir ← band self "B08";
  num ← binop PrimFloat.sub nir red;
  sum ← binop PrimFloat.add nir red;
  ratio ← binop PrimFloat.div num (scalar_op PrimFloat.add sum L);
  Ok (set_index self "SAVI" (scalar_op PrimFloat.mul ratio (1 + L)%float)).

Definition calculate_savi_default (self : Sentinel2Processor) :=
  calculate_savi self 0.5%float.

Definition calculate_swir (self : Sentinel2Processor) : result Sentinel2Processor :=
  nir ← band self "B08";
  swir1 ← band self "B11";
  num ← binop PrimFloat.sub nir swir1;
  sum ← binop PrimFloat.add nir swir1;
  swir ← binop PrimFloat.div num (scalar_op PrimFloat.add sum eps);
  Ok (set_index self "SWIR" swir).

Definition calculate_mndwi (self : Sentinel2Processor) : result Sentinel2Processor :=
  green ← band self "B03";
  swir1 ← band self "B11";
  num ← binop PrimFloat.sub green swir1;
  sum ← binop PrimFloat.add green swir1;
  mndwi ← binop PrimFloat.div num (scalar_op PrimFloat.add sum eps);
  Ok (set_index self "MNDWI" mndwi).

(** The expression the indices share, [(a - b) / (a + b + e)], on arrays of
    one shape. *)
Lemma ratio_same_shape a b e :
  shape a = shape b → wf a → wf b →
  ∃ q, (num ← binop PrimFloat.sub a b;
        sum ← binop PrimFloat.add a b;
        binop PrimFloat.div num (scalar_op PrimFloat.add sum e)) = Ok q
    ∧ shape q = shape b ∧ wf q
    ∧ ∀ r c, r < rows b → c < cols b →
        ∃ x y, item a r c = Some x ∧ item b r c = Some y ∧
               item q r c = Some ((x - y) / (x + y + e))%float.
Proof.
  intros Hshape Ha Hb.
  destruct (binop_same_shape PrimFloat.sub a b Hshape Ha Hb)
    as (num & Hnum & Hsnum & Hwnum & Inum).
  destruct (binop_same_shape PrimFloat.add a b Hshape Ha Hb)
    as (sum & Hsum & Hssum & Hwsum & Isum).
  assert (shape num = shape (scalar_op PrimFloat.add sum e)) as Hsden.
  { rewrite Hsnum, <- Hssum. reflexivity. }
  destruct (binop_same_shape PrimFloat.div num _ Hsden Hwnum
              (scalar_op_wf _ _ _ Hwsum)) as (q & Hq & Hsq & Hwq & Iq).
  assert (rows num = rows b ∧ cols num = cols b) as [Hrn Hcn].
  { unfold shape in *. split; congruence. }
  assert (rows a = rows b ∧ cols a = cols b) as [Hra Hca].
  { unfold shape in *. split; congruence. }
  exists q. split; [by rewrite Hnum; simpl; rewrite Hsum|].
  split; [congruence|]. split; [done|].
  intros r c Hr Hc.
  destruct (Inum r c) as (x & y & Hx & Hy & Hxy); [lia..|].
  destruct (Isum r c) as (x' & y' & Hx' & Hy' & Hs); [lia..|].
  destruct (Iq r c) as (u & v & Hu & Hv & Huv); [lia..|].
  rewrite scalar_op_item, Hs in Hv. simpl in Hv.
  exists x, y. split; [done|]. split; [done|]. rewrite Huv. congruence.
Qed.

(** With Red and NIR of one shape, [calculate_savi] stores
    ((NIR - RED) / (NIR + RED + L)) * (1 + L) at every position. *)
Theorem calculate_savi_formula self red nir L :
  bands self !! "B04" = Some red →
  bands self !! "B08" = Some nir →
  shape nir = shape red → wf nir → wf red →
  ∃ savi, calculate_savi self L = Ok (set_index self "SAVI" savi)
    ∧ shape savi = shape red
    ∧ ∀ r c, r < rows red → c < cols red →
        ∃ n d, item nir r c = Some n ∧ item red r c = Some d ∧
               item savi r c = Some (((n - d) / (n + d + L)) * (1 + L))%float.
Proof.
  intros Hred Hnir Hshape Hwn Hwr.
  destruct (ratio_same_shape nir red L Hshape Hwn Hwr) as (q & Hq & Hsq & _ & Iq).
  eexists. split.
  { unfold calculate_savi, band. rewrite Hred, Hnir. simpl.
    destruct (binop PrimFloat.sub nir red) as [num|]; [|done]. simpl in *.
    destruct (binop PrimFloat.add nir red) as [sum|]; [|done]. simpl in *.
    rewrite Hq. reflexivity. }
  split; [exact Hsq|].
  intros r c Hr Hc. destruct (Iq r c Hr Hc) as (n & d & Hn & Hd & Hnd).
  exists n, d. split; [done|]. split; [done|].
  by rewrite scalar_op_item, Hnd.
Qed.

(** With NIR and SWIR1 (B11) of one shape, [calculate_swir] stores
    (NIR - SWIR1) / (NIR + SWIR1 + 1e-6) at every position. *)
Theorem calculate_swir_formula self nir swir1 :
  bands self !! "B08" = Some nir →
  bands self !! "B11" = Some swir1 →
  shape nir = shape swir1 → wf nir → wf swir1 →
  ∃ swir, calculate_swir self = Ok (set_index self "SWIR" swir)
    ∧ shape swir = shape swir1
    ∧ ∀ r c, r < rows swir1 → c < cols swir1 →
        ∃ n s, item nir r c = Some n ∧ item swir1 r c = Some s ∧
               item swir r c = Some ((n - s) / (n + s + eps))%float.
Proof.
  intros Hnir Hswir Hshape Hwn Hws.
  destruct (ratio_same_shape nir swir1 eps Hshape Hwn Hws) as (q & Hq & Hsq & _ & Iq).
  exists q. split; [|by split].
  unfold calculate_swir, band. rewrite Hnir, Hswir. simpl.
  destruct (binop PrimFloat.sub nir swir1) as [num|]; [|done]. simpl in *.
  destruct (binop PrimFloat.add nir swir1) as [sum|]; [|done]. simpl in *.
  by rewrite Hq.
Qed.

(** With Green (B03) and SWIR1 (B11) of one shape, [calculate_mndwi] stores
    (GREEN - SWIR1) / (GREEN + SWIR1 + 1e-6) at every position. *)
Theorem calculate_mndwi_formula self green swir1 :
  bands self !! "B03" = Some green →
  bands self !! "B11" = Some swir1 →
  shape green = shape swir1 → wf green → wf swir1 →
  ∃ mndwi, calculate_mndwi self = Ok (set_index self "MNDWI" mndwi)
    ∧ shape mndwi = shape swir1
    ∧ ∀ r c, r < rows swir1 → c < cols swir1 →
        ∃ g s, item green r c = Some g ∧ item swir1 r c = Some s ∧
               item mndwi r c = Some ((g - s) / (g + s + eps))%float.
Proof.
  intros Hgreen Hswir Hshape Hwg Hws.
  destruct (ratio_same_shape green swir1 eps Hshape Hwg Hws) as (q & Hq & Hsq & _ & Iq).
  exists q. split; [|by split].
  unfold calculate_mndwi, band. rewrite Hgreen, Hswir. simpl.
  destruct (binop PrimFloat.sub green swir1) as [num|]; [|done]. simpl in *.
  destruct (binop PrimFloat.add green swir1) as [sum|]; [|done]. simpl in *.
  by rewrite Hq.
Qed.

(** A processor with four bands of 1 x 2 pixels loaded. *)
Definition loaded : Sentinel2Processor :=
  set_band (set_band (set_band (set_band init
    "B03" (NdArray 1 2 [30; 0]%float))
    "B04" (NdArray 1 2 [100; 0]%float))
    "B08" (NdArray 1 2 [200; 0]%float))
    "B11" (NdArray 1 2 [50; 0]%float).

Lemma calculate_savi_formula_witness :
  ∃ savi, calculate_savi loaded 0.5 = Ok (set_index loaded "SAVI" savi)
    ∧ item savi 0 1 = Some 0%float.
Proof.
  destruct (calculate_savi_formula loaded (NdArray 1 2 [100; 0]%float)
              (NdArray 1 2 [200; 0]%float) 0.5%float)
    as (savi & Hcall & _ & Hitem); try reflexivity.
  exists savi. split; [exact Hcall|].
  destruct (Hitem 0 1) as (n & d & Hn & Hd & ->); [simpl; lia..|].
  injection Hn as <-. injection Hd as <-. reflexivity.
Defined.

Lemma calculate_swir_formula_witness :
  ∃ swir, calculate_swir loaded = Ok (set_index loaded "SWIR" swir)
    ∧ item swir 0 1 = Some 0%float.
Proof.
  destruct (calculate_swir_formula loaded (NdArray 1 2 [200; 0]%float)
              (NdArray 1 2 [50; 0]%float))
    as (swir & Hcall & _ & Hitem); try reflexivity.
  exists swir. split; [exact Hcall|].
  destruct (Hitem 0 1) as (n & d & Hn & Hd & ->); [simpl; lia..|].
  injection Hn as <-. injection Hd as <-. reflexivity.
Defined.

Lemma calculate_mndwi_formula_witness :
  ∃ mndwi, calculate_mndwi loaded = Ok (set_index loaded "MNDWI" mndwi)
    ∧ item mndwi 0 1 = Some 0%float.
Proof.
  destruct (calculate_mndwi_formula loaded (NdArray 1 2 [30; 0]%float)
              (NdArray 1 2 [50; 0]%float))
    as (mndwi & Hcall & _ & Hitem); try reflexivity.
  exists mndwi. split; [exact Hcall|].
  destruct (Hitem 0 1) as (n & d & Hn & Hd & ->); [simpl; lia..|].
  injection Hn as <-. injection Hd as <-. reflexivity.
Defined.

(** *** When the index derivation fails *)

(** Two shapes broadcast when on each axis the lengths agree or one of them
    is 1. *)
Definition broadcastable (a b : ndarray) : Prop :=
  (rows a = rows b ∨ rows a = 1 ∨ rows b = 1)
  ∧ (cols a = cols b ∨ cols a = 1 ∨ cols b = 1).

Lemma broadcast_dim_ok m n :
  (m = n ∨ m = 1 ∨ n = 1) → ∃ k, broadcast_dim m n = Ok k.
Proof. intros H. unfold broadcast_dim. repeat case_decide; eauto; lia. Qed.

Lemma broadcast_dim_fail m n :
  ¬ (m = n ∨ m = 1 ∨ n = 1) → broadcast_dim m n = Raise ValueError.
Proof. intros H. unfold broadcast_dim. repeat case_decide; try done; tauto. Qed.

Lemma binop_broadcastable op a b :
  broadcastable a b →
  ∃ h w, broadcast_dim (rows a) (rows b) = Ok h
       ∧ broadcast_dim (cols a) (cols b) = Ok w
       ∧ ∃ l, binop op a b = Ok (NdArray h w l).
Proof.
  intros [Hr Hc].
  destruct (broadcast_dim_ok _ _ Hr) as [h Hh].
  destruct (broadcast_dim_ok _ _ Hc) as [w Hw].
  exists h, w. split; [done|]. split; [done|].
  unfold binop. rewrite Hh, Hw. simpl. eauto.
Qed.

Lemma binop_not_broadcastable op a b :
  ¬ broadcastable a b → binop op a b = Raise ValueError.
Proof.
  intros Hnb. unfold binop.
  destruct (decide (rows a = rows b ∨ rows a = 1 ∨ rows b = 1)) as [Hr|Hr].
  - destruct (broadcast_dim_ok _ _ Hr) as [h ->]. simpl.
    rewrite broadcast_dim_fail; [reflexivity|]. intros Hc. by apply Hnb.
  - rewrite (broadcast_dim_fail _ _ Hr). reflexivity.
Qed.

(** With both bands present the call depends on their shapes only. *)
Lemma calculate_ndvi_present self red nir :
  bands self !! "B04" = Some red →
  bands self !! "B08" = Some nir →
  if decide (broadcastable nir red)
  then ∃ p, calculate_ndvi self = Ok p
  else calculate_ndvi self = Raise ValueError.
Proof.
  intros Hred Hnir. unfold calculate_ndvi, band. rewrite Hred, Hnir. simpl.
  case_decide as Hb.
  - destruct (binop_broadcastable PrimFloat.sub nir red Hb)
      as (h & w & Hh & Hw & l & ->).
    destruct (binop_broadcastable PrimFloat.add nir red Hb)
      as (h' & w' & Hh' & Hw' & l' & ->).
    assert (h' = h) as -> by congruence. assert (w' = w) as -> by congruence.
    simpl. unfold binop. simpl. rewrite !broadcast_dim_same. simpl. eauto.
  - rewrite (binop_not_broadcastable PrimFloat.sub _ _ Hb). reflexivity.
Qed.

(** [calculate_ndvi] raises a [KeyError] exactly when B04 or B08 is not
    loaded, a [ValueError] exactly when both are loaded with shapes that do
    not broadcast, and returns otherwise: shapes that differ but broadcast
    (an axis of length 1) are accepted without a word. *)
Theorem calculate_ndvi_outcome self :
  (calculate_ndvi self = Raise KeyError
     ↔ bands self !! "B04" = None ∨ bands self !! "B08" = None)
  ∧ (calculate_ndvi self = Raise ValueError
     ↔ ∃ red nir, bands self !! "B04" = Some red ∧ bands self !! "B08" = Some nir
                  ∧ ¬ broadcastable nir red)
  ∧ ((∃ p, calculate_ndvi self = Ok p)
     ↔ ∃ red nir, bands self !! "B04" = Some red ∧ bands self !! "B08" = Some nir
                  ∧ broadcastable nir red).
Proof.
  destruct (bands self !! "B04") as [red|] eqn:Hred;
    [destruct (bands self !! "B08") as [nir|] eqn:Hnir|].
  - pose proof (calculate_ndvi_present self red nir Hred Hnir) as H.
    destruct (decide (broadcastable nir red)) as [Hb|Hb].
    + destruct H as [p Hp]. rewrite Hp.
      split; [split; [done|by intros [?|?]]|].
      split; [split; [done|intros (r & n & [= <-] & [= <-] & Hn); done]|].
      split; [intros _; by exists red, nir|intros _; by exists p].
    + rewrite H.
      split; [split; [done|by intros [?|?]]|].
      split; [split; [intros _; by exists red, nir|done]|].
      split; [by intros [? ?]|intros (r & n & [= <-] & [= <-] & Hn); done].
  - assert (calculate_ndvi self = Raise KeyError) as ->.
    { unfold calculate_ndvi, band. by rewrite Hred, Hnir. }
    split; [split; [intros _; by right|done]|].
    split; [split; [done|intros (r & n & _ & ? & _); done]|].
    split; [by intros [? ?]|intros (r & n & _ & ? & _); done].
  - assert (calculate_ndvi self = Raise KeyError) as ->.
    { unfold calculate_ndvi, band. by rewrite Hred. }
    split; [split; [intros _; by left|done]|].
    split; [split; [done|intros (r & n & ? & _); done]|].
    split; [by intros [? ?]|intros (r & n & ? & _); done].
Qed.

(** *** The guarded normalisation of the NIR band *)

(** A binary64 number that is neither NaN nor infinite. *)
Definition finite (c : float) : Prop :=
  match Prim2SF c with
  | S754_zero _ | S754_finite _ _ _ => True
  | _ => False
  end.

Lemma finite_sub_self c : finite c → (c - c)%float = 0%float.
Proof.
  unfold finite. intros Hc. apply Prim2SF_inj. rewrite sub_spec.
  destruct (Prim2SF c) as [s|s| |s m e]; try done.
  - by destruct s.
  - unfold SF64sub, SFsub. rewrite Z.sub_diag. reflexivity.
Qed.

Lemma finite_not_nan c : finite c → is_nan c = false.
Proof.
  unfold finite, is_nan. intros Hc. rewrite FloatAxioms.eqb_spec. unfold SFeqb.
  destruct (Prim2SF c) as [s|s| |s m e]; try done. simpl.
  rewrite Z.compare_refl, Pos.compare_cont_refl. by destruct s.
Qed.

Lemma filter_replicate_all (c : float) n :
  is_nan c = false →
  filter (λ x, is_nan x = false) (replicate n c) = replicate n c.
Proof.
  intros Hc. induction n as [|n IH]; simpl; [done|].
  rewrite filter_cons_True by done. by rewrite IH.
Qed.

(** On a NIR band that holds one finite value only, [calculate_nir]
    stores zeros: the 1e-6 added to the span keeps the division away from
    0 / 0. *)
Theorem calculate_nir_constant_band self h w n c :
  bands self !! "B08" = Some (NdArray h w (replicate (S n) c)) →
  finite c →
  calculate_nir self = Ok (set_index self "NIR" (NdArray h w (replicate (S n) 0%float))).
Proof.
  intros Hnir Hc. pose proof (finite_not_nan c Hc) as Hnan.
  remember (NdArray h w (replicate (S n) c)) as nir eqn:Harr.
  assert (np_nanmin nir = Ok c) as Hmin.
  { subst nir. unfold np_nanmin. simpl. rewrite filter_cons_True by done.
    by rewrite (filter_replicate_all c n Hnan), Fusion.foldl_minimum_replicate. }
  assert (np_nanmax nir = Ok c) as Hmax.
  { subst nir. unfold np_nanmax. simpl. rewrite filter_cons_True by done.
    by rewrite (filter_replicate_all c n Hnan), Fusion.foldl_maximum_replicate. }
  unfold calculate_nir, band. rewrite Hnir. simpl. rewrite Hmin. simpl.
  rewrite Hmax. simpl. subst nir. do 2 f_equal. unfold scalar_op. simpl.
  rewrite (finite_sub_self c Hc). f_equal. f_equal.
  change (map (λ x : float, (x / (0 + eps))%float)
              (map (λ x : float, (x - c)%float) (replicate n c)))
    with ((λ x : float, (x / (0 + eps))%float) <$>
            ((λ x : float, (x - c)%float) <$> replicate n c)).
  by rewrite !fmap_replicate, (finite_sub_self c Hc).
Qed.

Lemma calculate_nir_constant_band_witness :
  calculate_nir (set_band init "B08" (NdArray 2 2 [7; 7; 7; 7]%float))
  = Ok (set_index (set_band init "B08" (NdArray 2 2 [7; 7; 7; 7]%float)) "NIR"
          (NdArray 2 2 [0; 0; 0; 0]%float)).
Proof.
  apply (calculate_nir_constant_band
           (set_band init "B08" (NdArray 2 2 [7; 7; 7; 7]%float)) 2 2 3 7%float).
  - reflexivity.
  - by vm_compute.
Defined.

(** *** When the loading fails, and what it leaves alone *)

Section LoadBandsFacts.
Variable bilinear : ndarray → nat → nat → list float.

Lemma load_band_inv safe self band_name p :
  load_band bilinear safe self band_name = Ok p →
  is_Some (loaded_band bilinear safe band_name) ∧ indices p = indices self
  ∧ ∀ b, b ≠ band_name → bands p !! b = bands self !! b.
Proof.
  unfold load_band, loaded_band, band_file, find_band_path.
  destruct (granules safe) as [|g gs]; [done|]. simpl.
  destruct (resolution_map !! band_name) as [res|]; [|done]. simpl.
  destruct (g !! (res, band_name)) as [src|]; [|done]. simpl.
  unfold read_resampled, read.
  destruct (ds_bands src !! 0) as [a|] eqn:Ha; [|done]. simpl.
  intros Hp. split; [eauto|].
  destruct (decide (band_name ∈ ["B11"; "B12"])), (decide (band_name = "B04"));
    simpl in Hp; rewrite ?Ha in Hp; simpl in Hp; injection Hp as <-; simpl;
    (split; [done|]); intros b Hb; by rewrite lookup_insert_ne.
Qed.

Lemma load_loop_inv safe names : ∀ self p,
  load_loop bilinear safe self names = Ok p →
  Forall (λ b, is_Some (loaded_band bilinear safe b)) names
  ∧ indices p = indices self
  ∧ ∀ b, b ∉ names → bands p !! b = bands self !! b.
Proof.
  induction names as [|name rest IH]; intros self p Hp; simpl in Hp.
  - injection Hp as <-. split; [constructor|done].
  - destruct (load_band bilinear safe self name) as [self1|] eqn:H1; [|done].
    simpl in Hp.
    destruct (load_band_inv _ _ _ _ H1) as (Hl & Hi & Hb).
    destruct (IH _ _ Hp) as (Hall & Hi' & Hb').
    split; [by constructor|]. split; [congruence|].
    intros b Hnin. apply not_elem_of_cons in Hnin as [Hne Hnin].
    rewrite Hb' by done. by apply Hb.
Qed.

(** [load_bands] returns exactly when each of the six required bands has a
    file with a band 1 in the first granule directory; when it returns,
    the indices already computed and every band outside the required six
    are as before. *)
Theorem load_bands_ok_iff safe self :
  ((∃ p, load_bands bilinear safe self = Ok p)
   ↔ Forall (λ b, ∃ src, band_file safe b = Some src ∧ is_Some (ds_bands src !! 0))
            required_bands)
  ∧ ∀ p, load_bands bilinear safe self = Ok p →
      indices p = indices self
      ∧ ∀ b, b ∉ required_bands → bands p !! b = bands self !! b.
Proof.
  assert (∀ b, is_Some (loaded_band bilinear safe b)
               ↔ ∃ src, band_file safe b = Some src ∧ is_Some (ds_bands src !! 0))
    as Hloaded.
  { intros b. unfold loaded_band. split.
    - intros [a Ha]. destruct (band_file safe b) as [src|]; [|done].
      simpl in Ha. exists src. split; [done|].
      destruct (ds_bands src !! 0); [eauto|done].
    - intros (src & Hs & [a Ha]). rewrite Hs. simpl. rewrite Ha. simpl. eauto. }
  split; [split|].
  - intros [p Hp]. destruct (load_loop_inv _ _ _ _ Hp) as (Hall & _).
    eapply Forall_impl; [exact Hall|]. intros b. apply Hloaded.
  - intros Hall.
    destruct (load_loop_ok bilinear safe required_bands self) as (p & Hp & _).
    + eapply Forall_impl; [exact Hall|]. intros b. apply Hloaded.
    + by exists p.
  - intros p Hp. destruct (load_loop_inv _ _ _ _ Hp) as (_ & Hi & Hb). by split.
Qed.

Lemma load_loop_first_missing safe pre name post : ∀ self,
  Forall (λ b, is_Some (loaded_band bilinear safe b)) pre →
  load_band bilinear safe self name = Raise FileNotFoundError →
  (∀ self', load_band bilinear safe self' name = Raise FileNotFoundError) →
  load_loop bilinear safe self (pre ++ name :: post) = Raise FileNotFoundError.
Proof.
  induction pre as [|b pre IH]; intros self Hpre Hname Hany; simpl.
  - by rewrite Hname.
  - apply Forall_cons in Hpre as [[a Ha] Hpre].
    destruct (load_band_ok bilinear safe self b a Ha) as (src & _ & ->). simpl.
    apply IH; [done|apply Hany|done].
Qed.

(** A required band without a file stops [load_bands] with a
    [FileNotFoundError], when the bands before it in the list could be
    loaded: the bands after it are not read. *)
Theorem load_bands_missing_band safe self granule_dir pre name resolution post :
  required_bands = pre ++ name :: post →
  head (granules safe) = Some granule_dir →
  resolution_map !! name = Some resolution →
  granule_dir !! (resolution, name) = None →
  Forall (λ b, ∃ src, band_file safe b = Some src ∧ is_Some (ds_bands src !! 0)) pre →
  load_bands bilinear safe self = Raise FileNotFoundError.
Proof.
  intros Hreq Hg Hres Hnone Hpre. unfold load_bands. rewrite Hreq.
  assert (∀ self', load_band bilinear safe self' name = Raise FileNotFoundError) as Hany.
  { intros self'. unfold load_band, find_band_path.
    destruct (granules safe) as [|g gs]; [done|]. simpl in Hg. injection Hg as ->.
    by rewrite Hres, Hnone. }
  apply load_loop_first_missing; [|apply Hany|apply Hany].
  eapply Forall_impl; [exact Hpre|].
  intros b (src & Hsrc & [a Ha]). unfold loaded_band. rewrite Hsrc. simpl.
  rewrite Ha. simpl. eauto.
Qed.

End LoadBandsFacts.

(** A product whose granule lacks the B08 file. *)
Definition safe_without_b08 : SafeProduct :=
  MkSafe [delete ("R10m", "B08") (granule_with (jp2 1 1 [7%float]))].

Lemma load_bands_missing_band_witness :
  load_bands repeat_first safe_without_b08 init = Raise FileNotFoundError.
Proof.
  apply (load_bands_missing_band repeat_first safe_without_b08 init
           (delete ("R10m", "B08") (granule_with (jp2 1 1 [7%float])))
           ["B02"; "B03"; "B04"] "B08" "R10m" ["B11"; "B12"]).
  - reflexivity.
  - reflexivity.
  - reflexivity.
  - reflexivity.
  - repeat constructor; eexists; (split; [reflexivity|]); vm_compute; eauto.
Defined.

End IndicesFacts.

(** ** "Sentinel Subsetting.py": what is cropped, written and reported *)

Module SubsettingFacts.
Import Subsetting.

Section CropFacts.
Variable transform_bounds : string → string → Bounds → Bounds.
Variable transform_geom : string → string → Geometry → Geometry.
Variable mask : RasterFile → Geometry → result Clip.
Variable mkdir_error : string → option exn.
Variable write_error : string → Clip → option exn.

(** What the crop of one opened image contributes. *)
Definition crop_events (src : RasterFile) (overlap_area : Geometry)
    (input_path output_folder image_type : string) : list event :=
  match crop_and_write transform_geom mask mkdir_error write_error
          src overlap_area input_path output_folder with
  | Ok (output_path, out) =>
      [WriteCropped output_path out; PrintSaved image_type output_path]
  | Raise ValueError => [PrintCropError image_type input_path]
  | Raise e => [PrintUnexpectedError image_type input_path e]
  end.

(** The [try] of the crop goes through only with the one output path. *)
Lemma crop_and_write_path src overlap_area input_path output_folder output_path out :
  crop_and_write transform_geom mask mkdir_error write_error
    src overlap_area input_path output_folder = Ok (output_path, out) →
  output_path = OsPath.join output_folder ("cropped_" +:+ OsPath.basename input_path).
Proof.
  unfold crop_and_write. destruct (mask src _) as [o|]; [|done]. simpl.
  destruct (OsPath.makedirs _ _); [|done]. simpl.
  destruct (unless _); [|done]. simpl. by intros [= <- _].
Qed.

Lemma crop_and_write_ok src overlap_area input_path output_folder out :
  mask src (transform_geom "EPSG:4326" (rf_crs src) overlap_area) = Ok out →
  OsPath.makedirs mkdir_error output_folder = Ok () →
  write_error (OsPath.join output_folder ("cropped_" +:+ OsPath.basename input_path)) out
    = None →
  crop_and_write transform_geom mask mkdir_error write_error
    src overlap_area input_path output_folder
  = Ok (OsPath.join output_folder ("cropped_" +:+ OsPath.basename input_path), out).
Proof.
  intros Hmask Hdir Hwrite. unfold crop_and_write.
  rewrite Hmask. simpl. rewrite Hdir. simpl in Hwrite |- *. by rewrite Hwrite.
Qed.

Lemma crop_and_save_open (fs : FS) overlap_area input_path output_folder image_type src :
  fs !! input_path = Some src →
  crop_and_save transform_geom mask mkdir_error write_error
    fs overlap_area input_path output_folder image_type
  = Ok (crop_events src overlap_area input_path output_folder image_type).
Proof.
  intros Hsrc. unfold crop_and_save, crop_events, open. rewrite Hsrc. simpl.
  destruct (crop_and_write _ _ _ _ _ _ _ _) as [[output_path out]|[]]; reflexivity.
Qed.

(** With both files open the function is the bounds line, then either the
    no-overlap line or the overlap line and the two crops in turn. *)
Lemma crop_to_overlap_open (fs : FS) s1_path s2_path output_folder_s1 output_folder_s2 s1 s2 :
  fs !! s1_path = Some s1 →
  fs !! s2_path = Some s2 →
  crop_to_overlap transform_bounds transform_geom mask mkdir_error write_error fs
    s1_path s2_path output_folder_s1 output_folder_s2
  = PrintCrsAndBounds (rf_crs s1) (rf_crs s2) (rf_bounds s1) (rf_bounds s2)
      (wgs84_box transform_bounds s1) (wgs84_box transform_bounds s2)
    :: (let overlap_area :=
          intersection (wgs84_box transform_bounds s1) (wgs84_box transform_bounds s2) in
        if is_empty overlap_area then [PrintNoOverlap]
        else PrintOverlap overlap_area
             :: crop_events s1 overlap_area s1_path output_folder_s1 "Sentinel-1"
             ++ crop_events s2 overlap_area s2_path output_folder_s2 "Sentinel-2").
Proof.
  intros H1 H2.
  unfold crop_to_overlap, crop_to_overlap_body, get_bounds, open.
  rewrite H1, H2. simpl.
  fold (wgs84_box transform_bounds s1). fold (wgs84_box transform_bounds s2).
  destruct (is_empty _); [reflexivity|].
  rewrite !(crop_and_save_open fs _ _ _ _ _ H1), !(crop_and_save_open fs _ _ _ _ _ H2).
  reflexivity.
Qed.

Lemma crop_events_no_report src g input_path output_folder image_type ev :
  ev ∈ crop_events src g input_path output_folder image_type →
  ev ≠ PrintNoOverlap ∧ (∀ e, ev ≠ PrintErrorInCropToOverlap e).
Proof.
  unfold crop_events. intros Hev.
  destruct (crop_and_write _ _ _ _ _ _ _ _) as [[output_path out]|[]];
    repeat (apply elem_of_cons in Hev as [->|Hev]; [done|]);
    by apply elem_of_nil in Hev.
Qed.

(** For two files that open, "no overlapping region" is printed exactly
    when the footprints share no point; footprints that merely touch along
    an edge or at a corner go on to the crop. *)
Theorem crop_to_overlap_no_overlap_iff (fs : FS) s1_path s2_path
    output_folder_s1 output_folder_s2 s1 s2 :
  fs !! s1_path = Some s1 →
  fs !! s2_path = Some s2 →
  PrintNoOverlap ∈ crop_to_overlap transform_bounds transform_geom mask mkdir_error write_error fs
                     s1_path s2_path output_folder_s1 output_folder_s2
  ↔ disjoint (wgs84_box transform_bounds s1) (wgs84_box transform_bounds s2).
Proof.
  intros H1 H2. rewrite (crop_to_overlap_open _ _ _ _ _ _ _ H1 H2).
  rewrite <- intersection_empty_iff. simpl.
  destruct (intersection _ _) as [|x y|x0 y0 x1 y1|r] eqn:Hi; simpl.
  - split; [done|]. intros _. apply list_elem_of_further, list_elem_of_here.
  - split; [|done]. intros Hin.
    apply elem_of_cons in Hin as [|Hin]; [done|].
    apply elem_of_cons in Hin as [|Hin]; [done|].
    apply elem_of_app in Hin as [Hin|Hin];
      by destruct (crop_events_no_report _ _ _ _ _ _ Hin).
  - split; [|done]. intros Hin.
    apply elem_of_cons in Hin as [|Hin]; [done|].
    apply elem_of_cons in Hin as [|Hin]; [done|].
    apply elem_of_app in Hin as [Hin|Hin];
      by destruct (crop_events_no_report _ _ _ _ _ _ Hin).
  - split; [|done]. intros Hin.
    apply elem_of_cons in Hin as [|Hin]; [done|].
    apply elem_of_cons in Hin as [|Hin]; [done|].
    apply elem_of_app in Hin as [Hin|Hin];
      by destruct (crop_events_no_report _ _ _ _ _ _ Hin).
Qed.

(** When the footprints share a point, each image whose masking succeeds,
    whose output folder is made and whose file the driver writes gets its
    cropped file, named "cropped_" and the base name, in its own output
    folder, whatever happens to the other image. *)
Theorem crop_to_overlap_crops_independently (fs : FS) s1_path s2_path
    output_folder_s1 output_folder_s2 s1 s2 :
  fs !! s1_path = Some s1 →
  fs !! s2_path = Some s2 →
  ¬ disjoint (wgs84_box transform_bounds s1) (wgs84_box transform_bounds s2) →
  let overlap_area :=
    intersection (wgs84_box transform_bounds s1) (wgs84_box transform_bounds s2) in
  let events := crop_to_overlap transform_bounds transform_geom mask mkdir_error write_error fs
                  s1_path s2_path output_folder_s1 output_folder_s2 in
  let output_path_s1 :=
    OsPath.join output_folder_s1 ("cropped_" +:+ OsPath.basename s1_path) in
  let output_path_s2 :=
    OsPath.join output_folder_s2 ("cropped_" +:+ OsPath.basename s2_path) in
  (∀ out, mask s1 (transform_geom "EPSG:4326" (rf_crs s1) overlap_area) = Ok out →
     OsPath.makedirs mkdir_error output_folder_s1 = Ok () →
     write_error output_path_s1 out = None →
     WriteCropped output_path_s1 out ∈ events)
  ∧ (∀ out, mask s2 (transform_geom "EPSG:4326" (rf_crs s2) overlap_area) = Ok out →
     OsPath.makedirs mkdir_error output_folder_s2 = Ok () →
     write_error output_path_s2 out = None →
     WriteCropped output_path_s2 out ∈ events).
Proof.
  intros H1 H2 Hnd overlap_area events p1 p2. unfold events.
  rewrite (crop_to_overlap_open _ _ _ _ _ _ _ H1 H2). cbv zeta. fold overlap_area.
  assert (is_empty overlap_area = false) as ->.
  { destruct overlap_area eqn:Hg; try done.
    exfalso. apply Hnd. by apply intersection_empty_iff. }
  simpl. split; intros out Hout Hdir Hwrite.
  - apply list_elem_of_further, list_elem_of_further, elem_of_app. left.
    unfold crop_events. rewrite (crop_and_write_ok _ _ _ _ _ Hout Hdir Hwrite).
    apply list_elem_of_here.
  - apply list_elem_of_further, list_elem_of_further, elem_of_app. right.
    unfold crop_events. rewrite (crop_and_write_ok _ _ _ _ _ Hout Hdir Hwrite).
    apply list_elem_of_here.
Qed.

Lemma crop_to_overlap_closed (fs : FS) s1_path s2_path
    output_folder_s1 output_folder_s2 :
  fs !! s1_path = None ∨ fs !! s2_path = None →
  crop_to_overlap transform_bounds transform_geom mask mkdir_error write_error fs
    s1_path s2_path output_folder_s1 output_folder_s2
  = [PrintErrorInCropToOverlap RasterioIOError].
Proof.
  intros Hnone. unfold crop_to_overlap, crop_to_overlap_body, get_bounds, open.
  destruct (fs !! s1_path) as [s1|] eqn:H1; [|reflexivity]. simpl.
  destruct Hnone as [|H2]; [done|]. by rewrite H2.
Qed.

(** If either path cannot be opened, the function prints the one error
    line of its outer handler and does nothing else: it writes no file and
    does not crop the image that does open. *)
Theorem crop_to_overlap_unopenable (fs : FS) s1_path s2_path
    output_folder_s1 output_folder_s2 :
  fs !! s1_path = None ∨ fs !! s2_path = None →
  crop_to_overlap transform_bounds transform_geom mask mkdir_error write_error fs
    s1_path s2_path output_folder_s1 output_folder_s2
  = [PrintErrorInCropToOverlap RasterioIOError].
Proof. apply crop_to_overlap_closed. Qed.

(** The function never writes anywhere but to the two cropped files: every
    file it writes is "cropped_" and the base name of one of the two
    inputs, in that input's output folder. *)
Theorem crop_to_overlap_writes_only (fs : FS) s1_path s2_path
    output_folder_s1 output_folder_s2 output_path out :
  WriteCropped output_path out
  ∈ crop_to_overlap transform_bounds transform_geom mask mkdir_error write_error fs
      s1_path s2_path output_folder_s1 output_folder_s2 →
  output_path = OsPath.join output_folder_s1 ("cropped_" +:+ OsPath.basename s1_path)
  ∨ output_path = OsPath.join output_folder_s2 ("cropped_" +:+ OsPath.basename s2_path).
Proof.
  assert (∀ src g input_path output_folder image_type,
            WriteCropped output_path out
            ∈ crop_events src g input_path output_folder image_type →
            output_path = OsPath.join output_folder ("cropped_" +:+ OsPath.basename input_path))
    as Hcrop.
  { intros src g input_path output_folder image_type Hin. unfold crop_events in Hin.
    destruct (crop_and_write _ _ _ _ _ _ _ _) as [[p o]|[]] eqn:Hcrop;
      repeat (apply elem_of_cons in Hin as [Heq|Hin];
              [try done; injection Heq as -> ->; by eapply crop_and_write_path|]);
      by apply elem_of_nil in Hin. }
  intros Hin.
  destruct (fs !! s1_path) as [s1|] eqn:H1.
  2:{ rewrite crop_to_overlap_closed in Hin by (by left).
      apply list_elem_of_singleton in Hin. done. }
  destruct (fs !! s2_path) as [s2|] eqn:H2.
  2:{ rewrite crop_to_overlap_closed in Hin by (by right).
      apply list_elem_of_singleton in Hin. done. }
  rewrite (crop_to_overlap_open _ _ _ _ _ _ _ H1 H2) in Hin.
  apply elem_of_cons in Hin as [|Hin]; [done|]. simpl in Hin.
  destruct (is_empty _).
  - apply list_elem_of_singleton in Hin. done.
  - apply elem_of_cons in Hin as [|Hin]; [done|].
    apply elem_of_app in Hin as [Hin|Hin]; [left|right]; by eapply Hcrop.
Qed.

End CropFacts.

(** A tile in UTM that overlaps [s1_tile], a reprojection stand-in that
    leaves coordinates alone, and a masking that fails for rasters in
    EPSG:4326 only. *)
Definition s5_tile : RasterFile := MkRaster "EPSG:32643" (MkBounds (155 # 2) 33 (157 # 2) 34).
Definition pair : FS := <["s1.tif" := s1_tile]> (<["s5.tif" := s5_tile]> ∅).
Definition same_bounds (src dst : string) (b : Bounds) : Bounds := b.
Definition same_geom (src dst : string) (g : Geometry) : Geometry := g.
Definition mask_utm_only (src : RasterFile) (g : Geometry) : result Clip :=
  if String.eqb (rf_crs src) "EPSG:4326" then Raise ValueError else Ok (MkClip 1 100 50).
(** A file system that makes every directory named and a driver that
    writes every file. *)
Definition no_refusal (path : string) : option exn := None.
Definition no_write_error (path : string) (out : Clip) : option exn := None.

Lemma crop_to_overlap_no_overlap_iff_witness :
  PrintNoOverlap ∈ crop_to_overlap same_bounds same_geom mask_utm_only no_refusal no_write_error scenes
                     "s1.tif" "s2.tif" "cropped_sentinel1" "cropped_sentinel2"
  ↔ disjoint (wgs84_box same_bounds s1_tile) (wgs84_box same_bounds s2_tile).
Proof.
  apply (crop_to_overlap_no_overlap_iff same_bounds same_geom mask_utm_only no_refusal no_write_error scenes
           "s1.tif" "s2.tif" "cropped_sentinel1" "cropped_sentinel2" s1_tile s2_tile);
    reflexivity.
Defined.

Lemma crop_to_overlap_crops_independently_witness :
  WriteCropped "cropped_sentinel2/cropped_s5.tif" (MkClip 1 100 50)
  ∈ crop_to_overlap same_bounds same_geom mask_utm_only no_refusal no_write_error pair
      "s1.tif" "s5.tif" "cropped_sentinel1" "cropped_sentinel2"
  ∧ PrintCropError "Sentinel-1" "s1.tif"
    ∈ crop_to_overlap same_bounds same_geom mask_utm_only no_refusal no_write_error pair
        "s1.tif" "s5.tif" "cropped_sentinel1" "cropped_sentinel2".
Proof.
  destruct (crop_to_overlap_crops_independently same_bounds same_geom mask_utm_only no_refusal no_write_error
              pair "s1.tif" "s5.tif" "cropped_sentinel1" "cropped_sentinel2"
              s1_tile s5_tile) as [_ Hsecond].
  - reflexivity.
  - reflexivity.
  - intros Hd. apply intersection_empty_iff in Hd. discriminate Hd.
  - split.
    + apply (Hsecond (MkClip 1 100 50)); reflexivity.
    + vm_compute. do 2 apply list_elem_of_further. apply list_elem_of_here.
Defined.

Lemma crop_to_overlap_unopenable_witness :
  crop_to_overlap same_bounds same_geom mask_utm_only no_refusal no_write_error pair
    "s1.tif" "absent.tif" "cropped_sentinel1" "cropped_sentinel2"
  = [PrintErrorInCropToOverlap RasterioIOError].
Proof.
  apply (crop_to_overlap_unopenable same_bounds same_geom mask_utm_only no_refusal no_write_error pair
           "s1.tif" "absent.tif" "cropped_sentinel1" "cropped_sentinel2").
  right. reflexivity.
Defined.

Lemma crop_to_overlap_writes_only_witness :
  "cropped_sentinel2/cropped_s5.tif"
    = OsPath.join "cropped_sentinel1" ("cropped_" +:+ OsPath.basename "s1.tif")
  ∨ "cropped_sentinel2/cropped_s5.tif"
    = OsPath.join "cropped_sentinel2" ("cropped_" +:+ OsPath.basename "s5.tif").
Proof.
  apply (crop_to_overlap_writes_only same_bounds same_geom mask_utm_only no_refusal no_write_error pair
           "s1.tif" "s5.tif" "cropped_sentinel1" "cropped_sentinel2"
           "cropped_sentinel2/cropped_s5.tif" (MkClip 1 100 50)).
  vm_compute. do 3 apply list_elem_of_further. apply list_elem_of_here.
Defined.

End SubsettingFacts.

(** ** "clip sentinel tif.py": the timestamp, the file names, the counts *)

Module ClipFacts.
Import Clip.

Fixpoint all_digits (s : string) : bool :=
  match s with
  | EmptyString => true
  | String c rest => is_digit c && all_digits rest
  end.

Lemma append_cons c (s t : string) : String c s +:+ t = String c (s +:+ t).
Proof. reflexivity. Qed.

Lemma append_nil (s : string) : "" +:+ s = s.
Proof. reflexivity. Qed.

Lemma append_length (s t : string) :
  String.length (s +:+ t) = String.length s + String.length t.
Proof.
  induction s as [|c s IH]; [done|]. rewrite append_cons. simpl. by rewrite IH.
Qed.

Lemma append_assoc (s t u : string) : (s +:+ t) +:+ u = s +:+ (t +:+ u).
Proof.
  induction s as [|c s IH]; [done|]. rewrite !append_cons. by rewrite IH.
Qed.

Lemma append_inv_tail (s t u : string) : s +:+ u = t +:+ u → s = t.
Proof.
  revert t. induction s as [|c s IH]; intros [|d t] H;
    rewrite ?append_cons, ?append_nil in H.
  - done.
  - apply (f_equal String.length) in H. simpl in H. rewrite append_length in H. lia.
  - apply (f_equal String.length) in H. simpl in H. rewrite append_length in H. lia.
  - injection H as -> H. f_equal. by apply IH.
Qed.

Lemma take_digits_sound n s d :
  take_digits n s = Some d →
  String.length d = n ∧ all_digits d = true ∧ ∃ post, s = d +:+ post.
Proof.
  revert s d. induction n as [|n IH]; intros s d H; simpl in H.
  - injection H as <-. split; [done|]. split; [done|]. by exists s.
  - destruct s as [|c rest]; [done|].
    destruct (is_digit c) eqn:Hc; [|done].
    destruct (take_digits n rest) as [d'|] eqn:Hd; [|done].
    simpl in H. injection H as <-.
    destruct (IH _ _ Hd) as (Hlen & Hdig & post & ->).
    split; [simpl; by rewrite Hlen|]. split; [simpl; by rewrite Hc|]. by exists post.
Qed.

Lemma take_digits_complete d post :
  all_digits d = true → take_digits (String.length d) (d +:+ post) = Some d.
Proof.
  induction d as [|c d IH]; [done|]. rewrite append_cons. simpl.
  intros [Hc Hd]%andb_true_iff. by rewrite Hc, IH.
Qed.

Lemma search_timestamp_cons c rest :
  search_timestamp (String c rest) =
    if Ascii.eqb c "_"
    then match take_digits 8 rest with
         | Some d => Some d
         | None => search_timestamp rest
         end
    else search_timestamp rest.
Proof. reflexivity. Qed.

Lemma search_timestamp_sound name t :
  search_timestamp name = Some t →
  String.length t = 8 ∧ all_digits t = true
  ∧ ∃ pre post, name = pre +:+ "_" +:+ t +:+ post.
Proof.
  induction name as [|c rest IH]; [done|]. rewrite search_timestamp_cons.
  destruct (Ascii.eqb c "_") eqn:Hc.
  - apply Ascii.eqb_eq in Hc as ->.
    destruct (take_digits 8 rest) as [d|] eqn:Hd.
    + intros Ht. injection Ht as <-.
      destruct (take_digits_sound _ _ _ Hd) as (Hlen & Hdig & post & ->).
      split; [done|]. split; [done|]. by exists "", post.
    + intros H. destruct (IH H) as (Hlen & Hdig & pre & post & ->).
      split; [done|]. split; [done|]. by exists (String "_" pre), post.
  - intros H. destruct (IH H) as (Hlen & Hdig & pre & post & ->).
    split; [done|]. split; [done|]. by exists (String c pre), post.
Qed.

Lemma search_timestamp_complete pre d post :
  String.length d = 8 → all_digits d = true →
  is_Some (search_timestamp (pre +:+ "_" +:+ d +:+ post)).
Proof.
  intros Hlen Hdig. induction pre as [|c pre IH].
  - rewrite append_nil, append_cons, append_nil, search_timestamp_cons. simpl Ascii.eqb.
    rewrite <- Hlen. rewrite take_digits_complete by done. eauto.
  - rewrite append_cons, search_timestamp_cons. destruct (Ascii.eqb c "_"); [|done].
    destruct (take_digits 8 _); eauto.
Qed.

(** The timestamp of the output names: if the base name of the raster holds
    an underscore followed by eight digits, it is such a run of eight
    digits out of the name; if it holds none, it is the modification date
    passed in. Names are strings of code points below 256, among which the
    digits of the pattern are '0' to '9'. *)
Theorem timestamp_from_name tif_path mtime :
  match search_timestamp (OsPath.basename tif_path) with
  | Some t =>
      timestamp tif_path mtime = t ∧ String.length t = 8 ∧ all_digits t = true
      ∧ ∃ pre post, OsPath.basename tif_path = pre +:+ "_" +:+ t +:+ post
  | None =>
      timestamp tif_path mtime = mtime
      ∧ ∀ pre d post, String.length d = 8 → all_digits d = true →
          OsPath.basename tif_path ≠ pre +:+ "_" +:+ d +:+ post
  end.
Proof.
  unfold timestamp.
  destruct (search_timestamp (OsPath.basename tif_path)) as [t|] eqn:Hs.
  - split; [done|]. by apply search_timestamp_sound.
  - split; [done|]. intros pre d post Hlen Hdig Heq.
    destruct (search_timestamp_complete pre d post Hlen Hdig) as [t Ht].
    rewrite <- Heq in Ht. congruence.
Qed.

Lemma join_cancel dir (c : ascii) (prefix x y : string) :
  OsPath.join dir (String c prefix +:+ x) = OsPath.join dir (String c prefix +:+ y) →
  x = y.
Proof.
  unfold OsPath.join. rewrite !append_cons.
  assert (∀ b b' : string, dir +:+ b = dir +:+ b' → b = b') as Hdir.
  { intros b b'. apply String.app_inj. }
  assert (∀ b b' : string, String c (prefix +:+ b) = String c (prefix +:+ b') → b = b')
    as Hprefix.
  { intros b b' [= H]. by apply String.app_inj in H. }
  destruct (Ascii.ascii_dec c "/") as [->|Hc].
  - apply Hprefix.
  - assert (∀ z : string,
              match String c z with
              | String "/"%char _ => String c z
              | _ => if String.eqb dir "" || OsPath.ends_with_slash dir
                     then dir +:+ String c z else dir +:+ "/" +:+ String c z
              end
              = if String.eqb dir "" || OsPath.ends_with_slash dir
                then dir +:+ String c z else dir +:+ "/" +:+ String c z) as Hcase.
    { intros z.
      destruct c as [[] [] [] [] [] [] [] []]; try reflexivity. by destruct Hc. }
    rewrite !Hcase.
    destruct (String.eqb dir "" || OsPath.ends_with_slash dir); intros H.
    + by apply Hdir, Hprefix in H.
    + apply Hdir in H. rewrite !append_cons, !append_nil in H.
      injection H as H. by apply String.app_inj in H.
Qed.

Section ClipFacts.
Context {Raster Geometry Clipped : Type}.
Variable mask : Raster → Geometry → result Clipped.

(** Two features without a 'name' column at different rows never get the
    same output file: the fallback names, and the paths built from them,
    differ. *)
Theorem unnamed_features_distinct_files tif_path mtime output_dir i j
    (f g : Feature Geometry) :
  attrs f !! "name" = None →
  attrs g !! "name" = None →
  i ≠ j →
  OsPath.join output_dir (output_filename tif_path mtime i f)
  ≠ OsPath.join output_dir (output_filename tif_path mtime j g).
Proof.
  intros Hf Hg Hij Heq. apply Hij.
  unfold output_filename, glacier_name in Heq. rewrite Hf, Hg in Heq.
  set (tail := "_" +:+ timestamp tif_path mtime +:+ ".tif") in *.
  assert (∀ k : nat,
            original_filename tif_path +:+ "_" +:+ ("glacier_" +:+ pretty k) +:+ tail
            = (original_filename tif_path +:+ "_glacier_") +:+ pretty k +:+ tail) as Hshape.
  { intros k. rewrite !append_assoc. f_equal. }
  rewrite !Hshape in Heq.
  assert (∃ c prefix, original_filename tif_path +:+ "_glacier_" = String c prefix)
    as (c & prefix & Hprefix).
  { destruct (original_filename tif_path) as [|c rest]; [by eexists _, _|].
    rewrite append_cons. by eexists _, _. }
  rewrite Hprefix in Heq. apply join_cancel in Heq.
  apply append_inv_tail in Heq. by apply (inj pretty) in Heq.
Qed.

Variable mkdir_error : string → option exn.
Variable write_error : string → Clipped → option exn.

Definition is_print_error (ev : event Clipped) : bool :=
  match ev with PrintError _ _ _ => true | _ => false end.

Definition is_print_clipped (ev : event Clipped) : bool :=
  match ev with PrintClipped _ _ _ => true | _ => false end.

Definition mask_ok (src : Raster) (glacier : Feature Geometry) : bool :=
  match mask src (geometry glacier) with Ok _ => true | Raise _ => false end.

Lemma clip_loop_counts src tif_path mtime output_dir rows : ∀ idx,
  let events :=
    clip_loop mask mkdir_error write_error src tif_path mtime output_dir idx rows in
  Tiling.count_if is_write events + Tiling.count_if is_print_error events = length rows
  ∧ Tiling.count_if is_print_clipped events = Tiling.count_if is_write events
  ∧ Tiling.count_if is_write events ≤ Tiling.count_if (mask_ok src) rows
  ∧ Tiling.count_if (λ glacier, negb (mask_ok src glacier)) rows
    ≤ Tiling.count_if is_print_error events.
Proof.
  induction rows as [|glacier rest IH]; intros idx; cbn [clip_loop].
  { simpl. lia. }
  destruct (IH (S idx)) as (IHsum & IHline & IHw & IHe).
  cbv zeta. rewrite !Tiling.count_if_app. cbn [Tiling.count_if length].
  unfold clip_feature, mask_ok at 1 3.
  destruct (mask src (geometry glacier)) as [clipped|e] eqn:Hmask.
  - destruct (clip_and_write _ _ _ _ _ _ _ _ _) as [[output_path c]|e]; simpl; lia.
  - rewrite (clip_and_write_raise _ _ _ _ _ _ _ _ _ _ Hmask). simpl. lia.
Qed.

(** For each feature [clip_with_shapefile] either writes one file and
    prints its line, or prints one error line; a file is written only for
    a feature whose masking succeeds, and every feature whose masking
    raises has its error line. *)
Theorem clip_with_shapefile_counts src gdf tif_path mtime output_dir :
  let events :=
    clip_with_shapefile mask mkdir_error write_error src gdf tif_path mtime output_dir in
  Tiling.count_if is_write events + Tiling.count_if is_print_error events
    = length (frame_rows gdf)
  ∧ Tiling.count_if is_print_clipped events = Tiling.count_if is_write events
  ∧ Tiling.count_if is_write events ≤ Tiling.count_if (mask_ok src) (iterrows gdf)
  ∧ Tiling.count_if (λ glacier, negb (mask_ok src glacier)) (iterrows gdf)
    ≤ Tiling.count_if is_print_error events.
Proof.
  cbv zeta. unfold clip_with_shapefile.
  destruct (clip_loop_counts src tif_path mtime output_dir (iterrows gdf) 0)
    as (Hsum & Hline & Hw & He).
  assert (length (iterrows gdf) = length (frame_rows gdf)) as Hlen
    by apply length_fmap.
  rewrite Hlen in Hsum. done.
Qed.

End ClipFacts.

Lemma unnamed_features_distinct_files_witness :
  OsPath.join "clipped" (output_filename "/data/s2_20210615.tif" "20250102" 0 unnamed_inside)
  ≠ OsPath.join "clipped" (output_filename "/data/s2_20210615.tif" "20250102" 1 unnamed_inside).
Proof.
  apply (unnamed_features_distinct_files "/data/s2_20210615.tif" "20250102" "clipped"
           0 1 unnamed_inside unnamed_inside).
  - reflexivity.
  - reflexivity.
  - discriminate.
Defined.

End ClipFacts.

(** ** tif_crop.py, tif_cropper.py and sent-1_croper.py: more on the tiles *)

Module TilingFacts.
Import Tiling.
Local Open Scope Z_scope.

(** *** tif_crop.py, [process_tiff_files] *)

(** The crops of one image of [height] x [width] pixels: the two loops run
    over pixel offsets, rows first, and the slice [img[i:i+crop_size,
    j:j+crop_size]] is cut at the border by numpy. [crop_y] and [crop_x]
    are the offsets [i] and [j] of the file name. *)
Definition process_tiff_files_crops (height width crop_size : Z) : result (list Crop) :=
  rows ← py_range 0 height crop_size;
  cols ← py_range 0 width crop_size;
  Ok (flat_map (λ i, map (λ j,
        MkCrop i j (slice_window height width i (i + crop_size) j (j + crop_size)))
        cols) rows).

(** A slice that starts inside the axis is the clamped block. *)
Lemma slice_clamped n cs i x :
  0 < cs → 0 <= i < n →
  (slice_bound i n <=? x)
  && (x <? slice_bound i n + Z.max 0 (slice_bound (i + cs) n - slice_bound i n))
  = (i <=? x) && (x <? i + Z.min cs (n - i)).
Proof.
  intros Hcs Hi. unfold slice_bound.
  destruct (Z.ltb_spec i 0); [lia|]. destruct (Z.ltb_spec (i + cs) 0); [lia|].
  rewrite (Z.min_l i n) by lia. do 3 f_equal. lia.
Qed.

(** For a positive crop size the crops of [process_tiff_files] contain
    every pixel of the image exactly once and nothing else, the crops at
    the right and bottom border being narrower: no pixel is dropped and
    none is written twice. *)
Theorem process_tiff_files_partition height width crop_size :
  0 < crop_size → 0 <= height → 0 <= width →
  ∃ crops, process_tiff_files_crops height width crop_size = Ok crops
    ∧ Forall (λ crop,
        row_off (crop_window crop) = crop_y crop
        ∧ col_off (crop_window crop) = crop_x crop
        ∧ w_height (crop_window crop) = Z.min crop_size (height - crop_y crop)
        ∧ w_width (crop_window crop) = Z.min crop_size (width - crop_x crop)
        ∧ 0 < w_height (crop_window crop) ∧ 0 < w_width (crop_window crop)) crops
    ∧ ∀ r c, covering (map crop_window crops) r c =
             if (0 <=? r) && (r <? height) && (0 <=? c) && (c <? width)
             then 1%nat else 0%nat.
Proof.
  intros Hcs Hh Hw.
  assert ((crop_size =? 0) = false) as Hnz by (apply Z.eqb_neq; lia).
  unfold process_tiff_files_crops, py_range. rewrite Hnz. simpl.
  eexists. split; [reflexivity|]. split.
  - apply Forall_nested. intros i j Hi Hj.
    apply py_range_elem in Hi; [|done..]. apply py_range_elem in Hj; [|done..].
    simpl. unfold slice_bound.
    destruct (Z.ltb_spec i 0); [lia|]. destruct (Z.ltb_spec (i + crop_size) 0); [lia|].
    destruct (Z.ltb_spec j 0); [lia|]. destruct (Z.ltb_spec (j + crop_size) 0); [lia|].
    lia.
  - intros r c. unfold covering. rewrite count_if_map.
    rewrite (count_if_nested _ _
      (λ i, (slice_bound i height <=? r)
            && (r <? slice_bound i height
                     + Z.max 0 (slice_bound (i + crop_size) height - slice_bound i height)))
      (λ j, (slice_bound j width <=? c)
            && (c <? slice_bound j width
                     + Z.max 0 (slice_bound (j + crop_size) width - slice_bound j width)))).
    2:{ intros i j. unfold contains. simpl. by rewrite <- !andb_assoc. }
    rewrite (count_if_ext _ (λ i, (i <=? r) && (r <? i + Z.min crop_size (height - i)))).
    2:{ intros i Hi. apply py_range_elem in Hi; [|done..]. by apply slice_clamped. }
    rewrite (count_if_ext (λ j, (slice_bound j width <=? c) && _)
               (λ j, (j <=? c) && (c <? j + Z.min crop_size (width - j)))).
    2:{ intros j Hj. apply py_range_elem in Hj; [|done..]. by apply slice_clamped. }
    rewrite !count_if_clamped by done. apply indicator_mul.
Qed.

Lemma process_tiff_files_partition_witness :
  ∃ crops, process_tiff_files_crops 5 3 2 = Ok crops
    ∧ length crops = 6%nat
    ∧ covering (map crop_window crops) 4 2 = 1%nat
    ∧ covering (map crop_window crops) 5 0 = 0%nat.
Proof.
  destruct (process_tiff_files_partition 5 3 2) as (crops & Hc & _ & Hcov); [lia..|].
  exists crops. split; [exact Hc|]. split.
  - vm_compute in Hc. injection Hc as <-. reflexivity.
  - split; rewrite Hcov; reflexivity.
Defined.

(** *** tif_cropper.py: images smaller than the crop size *)

Lemma flat_map_no_inner {A C} (la : list A) :
  flat_map (λ _, @nil C) la = [].
Proof. induction la as [|a la IH]; simpl; [done|]. exact IH. Qed.

(** An image lower or narrower than the crop size gives no crop at all:
    [crop_image_slice] writes nothing and returns 0. *)
Theorem crop_image_slice_small height width crop_size :
  0 <= height → 0 <= width →
  height < crop_size ∨ width < crop_size →
  crop_image_slice height width crop_size = Ok ([], 0).
Proof.
  intros Hh Hw Hsmall.
  assert ((crop_size =? 0) = false) as Hnz by (apply Z.eqb_neq; lia).
  unfold crop_image_slice, py_floordiv. rewrite Hnz. simpl. rewrite loop_y_spec. simpl.
  destruct Hsmall as [Hs|Hs].
  - rewrite (Z.div_small height crop_size) by lia. reflexivity.
  - rewrite (Z.div_small width crop_size) by lia. simpl.
    by rewrite flat_map_no_inner, Nat.mul_0_r.
Qed.

Lemma crop_image_slice_small_witness :
  crop_image_slice 5000 1000 1024 = Ok ([], 0).
Proof. apply crop_image_slice_small; lia. Defined.

(** *** tif_cropper.py: file names and the dispatch on the image's rank *)

(** [c.isalnum()] for a code point below 256: the ASCII digits and letters,
    and beyond them the letters, superscript digits and fractions of
    Latin-1. *)
Definition isalnum (c : ascii) : bool :=
  let n := nat_of_ascii c in
  ((48 <=? n) && (n <=? 57) || (65 <=? n) && (n <=? 90) || (97 <=? n) && (n <=? 122)
   || (n =? 170) || (178 <=? n) && (n <=? 179) || (n =? 181)
   || (185 <=? n) && (n <=? 186) || (188 <=? n) && (n <=? 190)
   || (192 <=? n) && (n <=? 214) || (216 <=? n) && (n <=? 246)
   || (248 <=? n) && (n <=? 255))%nat.

(** [c.isalnum() or c in ('-', '_')] *)
Definition is_safe_char (c : ascii) : bool :=
  isalnum c || Ascii.eqb c "-" || Ascii.eqb c "_".

(** ["".join(c for c in base_name if ...)] *)
Fixpoint safe_name (base_name : string) : string :=
  match base_name with
  | EmptyString => EmptyString
  | String c rest => if is_safe_char c then String c (safe_name rest) else safe_name rest
  end.

Definition safe_base_name (original_filename : string) : string :=
  safe_name (OsPath.splitext_root original_filename).

(** The file names of the two crop functions. *)
Definition slice_crop_filename (original_filename : string) (slice_index y x : Z)
    (batch_timestamp : string) : string :=
  safe_base_name original_filename +:+ "_slice" +:+ pretty slice_index +:+ "_crop_"
    +:+ pretty y +:+ "_" +:+ pretty x +:+ "_" +:+ batch_timestamp +:+ ".tif".

Definition multi_crop_filename (original_filename : string) (y x : Z)
    (batch_timestamp : string) : string :=
  safe_base_name original_filename +:+ "_crop_" +:+ pretty y +:+ "_" +:+ pretty x
    +:+ "_" +:+ batch_timestamp +:+ ".tif".

(** A file written: its name and the window of the image it holds. *)
Definition crop_file : Type := string * Window.

(** [crop_image_slice] with its file names: the crops of the two loops,
    each under the name built from its block indices. *)
Definition crop_image_slice_files (height width : Z) (original_filename : string)
    (slice_index : Z) (batch_timestamp : string) (crop_size : Z)
  : result (list crop_file * Z) :=
  '(crops, crops_generated) ← crop_image_slice height width crop_size;
  Ok (map (λ crop, (slice_crop_filename original_filename slice_index
                      (crop_y crop) (crop_x crop) batch_timestamp,
                    crop_window crop)) crops,
      crops_generated).

(** [crop_multi_channel_image] on an image of shape [(height, width,
    channels)]: the same two loops over [height // crop_size] and
    [width // crop_size] blocks, the last axis kept whole, and a file name
    without a slice index. *)
Definition crop_multi_channel_image (height width channels : Z)
    (original_filename batch_timestamp : string) (crop_size : Z)
  : result (list crop_file * Z) :=
  '(crops, crops_generated) ← crop_image_slice height width crop_size;
  Ok (map (λ crop, (multi_crop_filename original_filename
                      (crop_y crop) (crop_x crop) batch_timestamp,
                    crop_window crop)) crops,
      crops_generated).

(** A loop [for i in range(pages): crops = f(i); total_crops += crops],
    with the files written so far. *)
Fixpoint pages_loop (f : Z → result (list crop_file * Z)) (pages : list Z)
    (st : list crop_file * Z) : result (list crop_file * Z) :=
  match pages with
  | [] => Ok st
  | i :: rest =>
      '(files, crops) ← f i;
      pages_loop f rest (st.1 ++ files, st.2 + crops)
  end.

(** The body of the [try] of [crop_tiff_images] for one image of shape
    [shape]: the files written, what is added to [total_crops], and whether
    [processed_files] is incremented (it is not for a rank the script does
    not support). *)
Definition crop_tiff_image (shape : list Z) (filename batch_timestamp : string)
    (crop_size : Z) : result (list crop_file * Z * bool) :=
  match shape with
  | [height; width] =>
      '(files, crops) ← crop_image_slice_files height width filename 0
                          batch_timestamp crop_size;
      Ok (files, crops, true)
  | [d0; d1; d2] =>
      if bool_decide (d2 = 3 ∨ d2 = 4)
      then '(files, crops) ← crop_multi_channel_image d0 d1 d2 filename
                               batch_timestamp crop_size;
           Ok (files, crops, true)
      else '(files, crops) ← pages_loop
                               (λ i, crop_image_slice_files d1 d2 filename i
                                       batch_timestamp crop_size)
                               (py_range1 d0) ([], 0);
           Ok (files, crops, true)
  | [d0; height; width; channels] =>
      '(files, crops) ← pages_loop
                          (λ _, crop_multi_channel_image height width channels filename
                                  batch_timestamp crop_size)
                          (py_range1 d0) ([], 0);
      Ok (files, crops, true)
  | _ => Ok ([], 0, false)
  end.

Lemma crop_image_slice_count height width crop_size :
  0 < crop_size → 0 <= height → 0 <= width →
  ∃ crops, crop_image_slice height width crop_size
             = Ok (crops, (height / crop_size) * (width / crop_size))
    ∧ Z.of_nat (length crops) = (height / crop_size) * (width / crop_size).
Proof.
  intros Hcs Hh Hw.
  assert ((crop_size =? 0) = false) as Hnz by (apply Z.eqb_neq; lia).
  pose proof (Z.div_pos height crop_size Hh Hcs).
  pose proof (Z.div_pos width crop_size Hw Hcs).
  unfold crop_image_slice, py_floordiv. rewrite Hnz. simpl. rewrite loop_y_spec. simpl.
  rewrite Nat2Z.inj_mul, !py_range1_length by done.
  eexists. split; [reflexivity|].
  by rewrite length_nested, Nat2Z.inj_mul, !py_range1_length.
Qed.

Lemma pages_loop_spec (f : Z → result (list crop_file * Z)) (g : Z → list crop_file)
    (k : Z) pages : ∀ st,
  (∀ i, i ∈ pages → f i = Ok (g i, k)) →
  pages_loop f pages st
  = Ok (st.1 ++ flat_map g pages, st.2 + Z.of_nat (length pages) * k).
Proof.
  induction pages as [|i rest IH]; intros [files n] Hf; simpl.
  - by rewrite app_nil_r, Z.add_0_r.
  - rewrite (Hf i) by apply list_elem_of_here. simpl.
    rewrite IH by (intros j Hj; apply Hf; by apply list_elem_of_further).
    simpl. rewrite <- app_assoc. do 2 f_equal. lia.
Qed.

(** What one image adds to [total_crops], by its shape, for a positive crop
    size: a rank-2 image its full blocks; a rank-3 image whose last axis
    has length 3 or 4 the full blocks of its first two axes; any other
    rank-3 image, read as a stack of pages, the full blocks of each page;
    a rank-4 image the full blocks of each page; every other rank nothing,
    and then the image does not count as processed. One file is written
    for each counted crop. *)
Theorem crop_tiff_image_total shape filename batch_timestamp crop_size :
  0 < crop_size → Forall (λ d, 0 <= d) shape →
  ∃ files,
    crop_tiff_image shape filename batch_timestamp crop_size
    = Ok (files,
          match shape with
          | [height; width] => (height / crop_size) * (width / crop_size)
          | [d0; d1; d2] =>
              if bool_decide (d2 = 3 ∨ d2 = 4)
              then (d0 / crop_size) * (d1 / crop_size)
              else d0 * ((d1 / crop_size) * (d2 / crop_size))
          | [d0; height; width; _] => d0 * ((height / crop_size) * (width / crop_size))
          | _ => 0
          end,
          match shape with [_; _] | [_; _; _] | [_; _; _; _] => true | _ => false end)
    ∧ Z.of_nat (length files)
      = match shape with
        | [height; width] => (height / crop_size) * (width / crop_size)
        | [d0; d1; d2] =>
            if bool_decide (d2 = 3 ∨ d2 = 4)
            then (d0 / crop_size) * (d1 / crop_size)
            else d0 * ((d1 / crop_size) * (d2 / crop_size))
        | [d0; height; width; _] => d0 * ((height / crop_size) * (width / crop_size))
        | _ => 0
        end.
Proof.
  intros Hcs Hshape.
  destruct shape as [|d0 [|d1 [|d2 [|d3 [|d4 rest]]]]]; try by (eexists; split).
  - apply Forall_cons in Hshape as [H0 Hshape]. apply Forall_cons in Hshape as [H1 _].
    destruct (crop_image_slice_count d0 d1 crop_size) as (crops & Hc & Hlen); [done..|].
    unfold crop_tiff_image, crop_image_slice_files. rewrite Hc. simpl.
    eexists. split; [reflexivity|]. by rewrite length_map.
  - apply Forall_cons in Hshape as [H0 Hshape]. apply Forall_cons in Hshape as [H1 Hshape].
    apply Forall_cons in Hshape as [H2 _].
    unfold crop_tiff_image. case_bool_decide.
    + destruct (crop_image_slice_count d0 d1 crop_size) as (crops & Hc & Hlen); [done..|].
      unfold crop_multi_channel_image. rewrite Hc. simpl.
      eexists. split; [reflexivity|]. by rewrite length_map.
    + destruct (crop_image_slice_count d1 d2 crop_size) as (crops & Hc & Hlen); [done..|].
      rewrite (pages_loop_spec _
                 (λ i, map (λ crop, (slice_crop_filename filename i (crop_y crop)
                                       (crop_x crop) batch_timestamp,
                                     crop_window crop)) crops)
                 ((d1 / crop_size) * (d2 / crop_size))).
      2:{ intros i _. unfold crop_image_slice_files. by rewrite Hc. }
      simpl. rewrite py_range1_length by done.
      eexists. split; [reflexivity|].
      assert (∀ l : list Z,
                Z.of_nat (length (flat_map (λ i, map (λ crop,
                   (slice_crop_filename filename i (crop_y crop) (crop_x crop)
                      batch_timestamp, crop_window crop)) crops) l))
                = Z.of_nat (length l) * Z.of_nat (length crops)) as Hflat.
      { induction l as [|i l IH]; simpl; [done|].
        rewrite length_app, length_map, Nat2Z.inj_add, IH. lia. }
      rewrite Hflat, py_range1_length by done. by rewrite Hlen.
  - apply Forall_cons in Hshape as [H0 Hshape]. apply Forall_cons in Hshape as [H1 Hshape].
    apply Forall_cons in Hshape as [H2 _].
    destruct (crop_image_slice_count d1 d2 crop_size) as (crops & Hc & Hlen); [done..|].
    unfold crop_tiff_image.
    rewrite (pages_loop_spec _
               (λ _, map (λ crop, (multi_crop_filename filename (crop_y crop)
                                     (crop_x crop) batch_timestamp,
                                   crop_window crop)) crops)
               ((d1 / crop_size) * (d2 / crop_size))).
    2:{ intros i _. unfold crop_multi_channel_image. by rewrite Hc. }
    simpl. rewrite py_range1_length by done.
    eexists. split; [reflexivity|].
    assert (∀ l : list Z,
              Z.of_nat (length (flat_map (λ _ : Z, map (λ crop,
                 (multi_crop_filename filename (crop_y crop) (crop_x crop)
                    batch_timestamp, crop_window crop)) crops) l))
              = Z.of_nat (length l) * Z.of_nat (length crops)) as Hflat.
    { induction l as [|i l IH]; simpl; [done|].
      rewrite length_app, length_map, Nat2Z.inj_add, IH. lia. }
    rewrite Hflat, py_range1_length by done. by rewrite Hlen.
Qed.

Lemma crop_tiff_image_total_witness :
  ∃ files, crop_tiff_image [5; 2049; 2049] "stack.tif" "20250102_101500" 1024
           = Ok (files, 20, true)
    ∧ Z.of_nat (length files) = 20.
Proof.
  destruct (crop_tiff_image_total [5; 2049; 2049] "stack.tif" "20250102_101500" 1024)
    as (files & Hfiles & Hlen).
  - lia.
  - repeat constructor; lia.
  - exists files. split; [exact Hfiles|exact Hlen].
Defined.

Lemma flat_map_const {A B} (l : list B) (pages : list A) :
  flat_map (λ _, l) pages = concat (replicate (length pages) l).
Proof. induction pages as [|i pages IH]; simpl; [done|]. by rewrite IH. Qed.

(** For an image of rank 4 every page is cropped under the same file
    names, since the name of a multi-channel crop carries no page index:
    what is written is the list of one page's files, once per page, so that
    each page overwrites the files of the page before it, while
    [total_crops] counts them all. *)
Theorem crop_tiff_image_pages_share_names d0 height width channels
    filename batch_timestamp crop_size :
  0 < crop_size → 0 <= d0 → 0 <= height → 0 <= width →
  ∃ page_files,
    crop_multi_channel_image height width channels filename batch_timestamp crop_size
    = Ok (page_files, (height / crop_size) * (width / crop_size))
    ∧ crop_tiff_image [d0; height; width; channels] filename batch_timestamp crop_size
      = Ok (concat (replicate (Z.to_nat d0) page_files),
            d0 * ((height / crop_size) * (width / crop_size)), true).
Proof.
  intros Hcs H0 Hh Hw.
  destruct (crop_image_slice_count height width crop_size) as (crops & Hc & Hlen);
    [done..|].
  eexists. split.
  { unfold crop_multi_channel_image. rewrite Hc. reflexivity. }
  unfold crop_tiff_image.
  rewrite (pages_loop_spec _
             (λ _, map (λ crop, (multi_crop_filename filename (crop_y crop)
                                   (crop_x crop) batch_timestamp,
                                 crop_window crop)) crops)
             ((height / crop_size) * (width / crop_size))).
  2:{ intros i _. unfold crop_multi_channel_image. by rewrite Hc. }
  simpl. rewrite py_range1_length by done. rewrite flat_map_const.
  unfold py_range1. by rewrite length_map, length_seq.
Qed.

Lemma crop_tiff_image_pages_share_names_witness :
  crop_tiff_image [2; 3; 2; 3] "rgb stack.tif" "20250102_101500" 2
  = Ok ([("rgbstack_crop_0_0_20250102_101500.tif", MkWindow 0 0 2 2);
         ("rgbstack_crop_0_0_20250102_101500.tif", MkWindow 0 0 2 2)], 2, true).
Proof.
  destruct (crop_tiff_image_pages_share_names 2 3 2 3 "rgb stack.tif"
              "20250102_101500" 2) as (page_files & Hpage & ->); [lia..|].
  vm_compute in Hpage. injection Hpage as <-. reflexivity.
Defined.

(** *** sent-1_croper.py: the bands of a GLCM raster *)

Definition glcm_bands : gmap Z string :=
  <[1 := "Contrast"]> (<[2 := "Dissimilarity"]> (<[3 := "Homogeneity"]>
  (<[4 := "ASM"]> (<[5 := "Energy"]> (<[6 := "Max"]> (<[7 := "Entropy"]>
  (<[8 := "GLCM_Mean"]> (<[9 := "GLCM_Variance"]> (<[10 := "GLCM_Correlation"]> ∅))))))))).

(** [glcm_bands.get(band, f"Band_{band}")] *)
Definition band_name (band : Z) : string :=
  default ("Band_" +:+ pretty band) (glcm_bands !! band).

Lemma glcm_bands_named band :
  1 <= band <= 10 → ∃ label, glcm_bands !! band = Some label.
Proof.
  intros Hb.
  assert (band = 1 ∨ band = 2 ∨ band = 3 ∨ band = 4 ∨ band = 5 ∨ band = 6
          ∨ band = 7 ∨ band = 8 ∨ band = 9 ∨ band = 10) as Hcases by lia.
  repeat (destruct Hcases as [->|Hcases]; [by eexists|]). subst. by eexists.
Qed.

(** For a GLCM raster [crop_and_save] writes, per window, one file for each
    of the bands 1 to min(count, 10): every band written has its name in
    [glcm_bands], so the "Band_<n>" fallback is never used, and the bands
    beyond the tenth are never written. *)
Theorem crop_and_save_glcm_bands count width height files :
  crop_and_save count width height true = Ok files →
  Forall (λ file, ∃ band label,
            tf_band file = Some band ∧ 1 <= band <= 10 ∧ band <= count
            ∧ glcm_bands !! band = Some label ∧ band_name band = label) files
  ∧ ∃ windows, crop_and_save_windows 1024 width height = Ok windows
      ∧ Z.of_nat (length files)
        = Z.of_nat (length windows) * Z.max 0 (Z.min count 10).
Proof.
  unfold crop_and_save.
  destruct (crop_and_save_windows 1024 width height) as [windows|] eqn:Hw; [|done].
  simpl. intros [= <-].
  assert (range_len 1 (Z.min count 10 + 1) 1 = Z.max 0 (Z.min count 10)) as Hlen.
  { unfold range_len. simpl. rewrite Z.div_1_r. f_equal. lia. }
  rewrite Hlen. split.
  - apply Forall_nested. intros window band _ Hband.
    apply list_elem_of_In, in_map_iff in Hband as (k & <- & Hk).
    apply in_seq in Hk.
    assert (1 <= 1 + Z.of_nat k * 1 <= 10 ∧ 1 + Z.of_nat k * 1 <= count) as [Hb Hc]
      by lia.
    destruct (glcm_bands_named _ Hb) as [label Hlabel].
    exists (1 + Z.of_nat k * 1), label. simpl.
    split; [done|]. split; [done|]. split; [done|]. split; [done|].
    unfold band_name. by rewrite Hlabel.
  - exists windows. split; [done|].
    rewrite length_nested, Nat2Z.inj_mul, length_map, length_seq. lia.
Qed.

Lemma crop_and_save_glcm_bands_witness :
  ∃ files, crop_and_save 12 1500 1024 true = Ok files
    ∧ Z.of_nat (length files) = 20
    ∧ Forall (λ file, ∃ band label,
                tf_band file = Some band ∧ 1 <= band <= 10 ∧ band <= 12
                ∧ glcm_bands !! band = Some label ∧ band_name band = label) files.
Proof.
  destruct (crop_and_save 12 1500 1024 true) as [files|] eqn:Hfiles; [|done].
  destruct (crop_and_save_glcm_bands 12 1500 1024 files Hfiles)
    as (Hall & windows & Hw & Hlen).
  exists files. split; [done|]. split; [|done].
  vm_compute in Hw. injection Hw as <-. exact Hlen.
Defined.

(** *** sent-1_croper.py: how many files *)

Lemma range_len_ceil n step :
  0 < step → 0 <= n → range_len 0 n step = (n + step - 1) / step.
Proof.
  intros Hs Hn. unfold range_len.
  destruct (Z.ltb_spec 0 step); [|lia].
  rewrite Z.max_r; [f_equal; lia|]. apply Z.div_pos; lia.
Qed.

(** For a raster that is not a GLCM stack [crop_and_save] writes one file
    per window, all bands together, and there are
    ceil(width / 1024) * ceil(height / 1024) of them: none for a raster
    without pixels. *)
Theorem crop_and_save_file_count count width height :
  0 <= width → 0 <= height →
  ∃ files, crop_and_save count width height false = Ok files
    ∧ Z.of_nat (length files) = ((width + 1023) / 1024) * ((height + 1023) / 1024)
    ∧ Forall (λ file, tf_band file = None) files.
Proof.
  intros Hw Hh. rewrite crop_and_save_not_glcm.
  unfold crop_and_save_windows, py_range. simpl (1024 =? 0). simpl.
  eexists. split; [reflexivity|]. split.
  - rewrite length_map, length_nested, Nat2Z.inj_mul, !length_map, !length_seq.
    rewrite !range_len_ceil by lia.
    assert (0 <= (width + 1024 - 1) / 1024) by (apply Z.div_pos; lia).
    assert (0 <= (height + 1024 - 1) / 1024) by (apply Z.div_pos; lia).
    rewrite !Z2Nat.id by done. f_equal; f_equal; lia.
  - apply Forall_forall. intros file Hfile.
    apply list_elem_of_In, in_map_iff in Hfile as (w & <- & _). reflexivity.
Qed.

Lemma crop_and_save_file_count_witness :
  ∃ files, crop_and_save 1 2049 2049 false = Ok files
    ∧ Z.of_nat (length files) = 9.
Proof.
  destruct (crop_and_save_file_count 1 2049 2049) as (files & Hfiles & Hlen & _);
    [lia..|].
  exists files. split; [exact Hfiles|exact Hlen].
Defined.

End TilingFacts.

(** ** Loading and deriving in sequence *)

Module IndicesPipeline.
Import Numpy Rasterio Indices IndicesFacts.

(** The first two steps of [process_sentinel_image]. When every required
    band has a file, and the files of B04 and B08 hold grids of one shape,
    [load_bands] followed by [calculate_ndvi] succeeds, keeps the metadata
    of B04 for the later save, and the NDVI has the shape of the Red band
    and, at every position, the value (NIR - RED) / (NIR + RED + 1e-6)
    computed from the samples of the two files. *)
Theorem load_bands_then_ndvi bilinear safe self f04 f08 red nir :
  Forall (λ b, ∃ src, band_file safe b = Some src ∧ is_Some (ds_bands src !! 0))
         required_bands →
  band_file safe "B04" = Some f04 →
  band_file safe "B08" = Some f08 →
  ds_bands f04 !! 0 = Some red →
  ds_bands f08 !! 0 = Some nir →
  shape nir = shape red → wf nir → wf red →
  ∃ p ndvi, load_bands bilinear safe self = Ok p
    ∧ calculate_ndvi p = Ok (set_index p "NDVI" ndvi)
    ∧ meta p = Some (ds_meta f04)
    ∧ shape ndvi = shape red
    ∧ ∀ r c, r < rows red → c < cols red →
        ∃ n d, item nir r c = Some n ∧ item red r c = Some d ∧
               item ndvi r c = Some ((n - d) / (n + d + eps))%float.
Proof.
  intros Hall H04 H08 Hred Hnir Hshape Hwn Hwr.
  destruct (load_loop_ok bilinear safe required_bands self) as (p & Hp & Hbands & Hmeta).
  { eapply Forall_impl; [exact Hall|]. intros b (src & Hsrc & [a Ha]).
    unfold loaded_band. rewrite Hsrc. simpl. rewrite Ha. simpl. eauto. }
  assert (bands p !! "B04" = Some red) as Hb04.
  { rewrite Hbands. unfold loaded_band. rewrite H04. simpl. by rewrite Hred. }
  assert (bands p !! "B08" = Some nir) as Hb08.
  { rewrite Hbands. unfold loaded_band. rewrite H08. simpl. by rewrite Hnir. }
  destruct (ratio_same_shape nir red eps Hshape Hwn Hwr) as (q & Hq & Hsq & _ & Iq).
  exists p, q. split; [exact Hp|]. split.
  { unfold calculate_ndvi, band. rewrite Hb04, Hb08. simpl.
    destruct (binop PrimFloat.sub nir red) as [num|]; [|done]. simpl in *.
    destruct (binop PrimFloat.add nir red) as [sum|]; [|done]. simpl in *.
    by rewrite Hq. }
  split; [by rewrite Hmeta, H04|]. by split.
Qed.

Lemma load_bands_then_ndvi_witness :
  ∃ p ndvi, load_bands repeat_first regular_safe init = Ok p
    ∧ calculate_ndvi p = Ok (set_index p "NDVI" ndvi)
    ∧ item ndvi 0 1 = Some 0%float.
Proof.
  destruct (load_bands_then_ndvi repeat_first regular_safe init
              (jp2 2 2 [100; 0; 30; 40]%float) (jp2 2 2 [200; 0; 50; 60]%float)
              (NdArray 2 2 [100; 0; 30; 40]%float) (NdArray 2 2 [200; 0; 50; 60]%float))
    as (p & ndvi & Hp & Hndvi & _ & _ & Hitem); try reflexivity.
  - repeat constructor; eexists; (split; [reflexivity|]); vm_compute; eauto.
  - exists p, ndvi. split; [exact Hp|]. split; [exact Hndvi|].
    destruct (Hitem 0 1) as (n & d & Hn & Hd & ->); [simpl; lia..|].
    injection Hn as <-. injection Hd as <-. reflexivity.
Defined.

End IndicesPipeline.
